(** * Food Recipe Analyzer: a shallow embedding of the browser client

    The development follows the three source files of the repository:
    the camera component ([CameraManager], src/camera.js), the remote
    service client ([GroqAPI]) and the application controller
    ([FoodAnalyzerApp]).  JavaScript values, the JSON codec, Web Storage,
    [fetch] and [getUserMedia] are the platform the code runs on; they
    are modelled first, and the repository's methods are then written
    against them in a state-and-exception monad, one definition per
    method, under the method's own name. *)

From Stdlib Require Import ZArith String Ascii List Bool Lia Floats Uint63.
From Stdlib Require Import DecimalString.
From Stdlib Require DecimalN DecimalPos DecimalFacts.
From stdpp Require Import gmap strings.
Import ListNotations.
Set Warnings "-register-all,-inexact-float".
Open Scope string_scope.
Open Scope Z_scope.

(** Text is built from literals throughout, so concatenation is left to
    reduce on a literal head. *)
Arguments String.append !s1 s2 : simpl nomatch.

(* ===================================================================== *)
(** * JavaScript values *)
(* ===================================================================== *)

Module JS.

(** Strings are byte strings; the character-level operations of the
    model ([trim], [toLowerCase], the JSON escapes) act on the ASCII
    range.  Numbers are the integral ones: the response contract, the
    history records and the HTTP status codes carry no fraction. *)
Inductive JSValue : Type :=
| JUndefined
| JNull
| JBool (b : bool)
| JNum (n : Z)
| JStr (s : string)
| JArr (l : list JSValue)
| JObj (fields : list (string * JSValue)).

(** Values a [throw] carries.  [DOMException] is what the media and
    storage interfaces raise; its first field is [error.name]. *)
Inductive JSError : Type :=
| Error (message : string)
| TypeError (message : string)
| SyntaxError (message : string)
| DOMException (name message : string).

Definition error_message (e : JSError) : string :=
  match e with
  | Error m | TypeError m | SyntaxError m | DOMException _ m => m
  end.

Definition error_name (e : JSError) : string :=
  match e with
  | Error _ => "Error"
  | TypeError _ => "TypeError"
  | SyntaxError _ => "SyntaxError"
  | DOMException n _ => n
  end.

(** How a statement or a call ends: normally with a value, or abruptly
    with a thrown error. *)
Inductive Completion (A : Type) : Type :=
| Normal (a : A)
| Throw (e : JSError).
Arguments Normal {A} a.
Arguments Throw {A} e.

Definition dq : ascii := "034"%char.
Definition nl : string := String "010"%char "".

(** ** Numbers to text *)

Definition string_of_N (n : N) : string := NilEmpty.string_of_uint (N.to_uint n).

Definition string_of_Z (z : Z) : string :=
  match z with
  | Z0 => "0"
  | Zpos p => string_of_N (Npos p)
  | Zneg p => "-" ++ string_of_N (Npos p)
  end.

(** ** Conversions: ToBoolean and ToString *)

Definition truthy (v : JSValue) : bool :=
  match v with
  | JUndefined | JNull => false
  | JBool b => b
  | JNum n => negb (n =? 0)
  | JStr s => negb (String.eqb s "")
  | JArr _ | JObj _ => true
  end.

Fixpoint join (sep : string) (l : list string) : string :=
  match l with
  | [] => ""
  | [x] => x
  | x :: rest => x ++ sep ++ join sep rest
  end.

Fixpoint ToString (v : JSValue) : string :=
  match v with
  | JUndefined => "undefined"
  | JNull => "null"
  | JBool true => "true"
  | JBool false => "false"
  | JNum n => string_of_Z n
  | JStr s => s
  | JArr l =>
      join "," (map (fun x => match x with
                              | JUndefined | JNull => ""
                              | _ => ToString x
                              end) l)
  | JObj _ => "[object Object]"
  end.

(** ** Property access *)

Fixpoint assoc (k : string) (fields : list (string * JSValue)) : option JSValue :=
  match fields with
  | [] => None
  | (k', v) :: rest => if String.eqb k k' then Some v else assoc k rest
  end.

(** [v.k]: reading a property of [undefined] or [null] throws; a missing
    property reads as [undefined]. *)
Definition get (v : JSValue) (k : string) : Completion JSValue :=
  match v with
  | JUndefined =>
      Throw (TypeError ("Cannot read properties of undefined (reading '" ++ k ++ "')"))
  | JNull =>
      Throw (TypeError ("Cannot read properties of null (reading '" ++ k ++ "')"))
  | JObj fields => Normal (match assoc k fields with Some x => x | None => JUndefined end)
  | JArr l => Normal (if String.eqb k "length" then JNum (Z.of_nat (length l)) else JUndefined)
  | JStr s => Normal (if String.eqb k "length" then JNum (Z.of_nat (String.length s)) else JUndefined)
  | JBool _ | JNum _ => Normal JUndefined
  end.

(** [v[i]] for a literal index [i]. *)
Definition index (v : JSValue) (i : nat) : Completion JSValue :=
  match v with
  | JUndefined =>
      Throw (TypeError ("Cannot read properties of undefined (reading '"
                        ++ string_of_Z (Z.of_nat i) ++ "')"))
  | JNull =>
      Throw (TypeError ("Cannot read properties of null (reading '"
                        ++ string_of_Z (Z.of_nat i) ++ "')"))
  | JArr l => Normal (nth i l JUndefined)
  | JStr s => Normal (match String.get i s with
                      | Some c => JStr (String c "")
                      | None => JUndefined
                      end)
  | JObj fields => Normal (match assoc (string_of_Z (Z.of_nat i)) fields with
                           | Some x => x
                           | None => JUndefined
                           end)
  | JBool _ | JNum _ => Normal JUndefined
  end.

(** ** String methods *)

Definition is_whitespace (c : ascii) : bool :=
  match nat_of_ascii c with
  | 9%nat | 10%nat | 11%nat | 12%nat | 13%nat | 32%nat => true
  | _ => false
  end.

Fixpoint trimStart (s : string) : string :=
  match s with
  | String c r => if is_whitespace c then trimStart r else s
  | EmptyString => s
  end.

Fixpoint trimEnd (s : string) : string :=
  match s with
  | EmptyString => EmptyString
  | String c r =>
      match trimEnd r with
      | EmptyString => if is_whitespace c then EmptyString else String c EmptyString
      | r' => String c r'
      end
  end.

Definition trim (s : string) : string := trimEnd (trimStart s).

Definition lower_char (c : ascii) : ascii :=
  let n := nat_of_ascii c in
  if ((65 <=? n) && (n <=? 90))%nat then ascii_of_nat (n + 32) else c.

Fixpoint toLowerCase (s : string) : string :=
  match s with
  | EmptyString => EmptyString
  | String c r => String (lower_char c) (toLowerCase r)
  end.

Fixpoint startsWith (s p : string) : bool :=
  match p, s with
  | EmptyString, _ => true
  | String a p', String b s' => Ascii.eqb a b && startsWith s' p'
  | String _ _, EmptyString => false
  end.

End JS.
Export JS.

(* ===================================================================== *)
(** * The JSON codec of the platform: [JSON.stringify] and [JSON.parse] *)
(* ===================================================================== *)

Module JSON.

(** ** Serialisation *)

Definition hex_digit (n : nat) : ascii :=
  match n with
  | 0%nat => "0" | 1%nat => "1" | 2%nat => "2" | 3%nat => "3"
  | 4%nat => "4" | 5%nat => "5" | 6%nat => "6" | 7%nat => "7"
  | 8%nat => "8" | 9%nat => "9" | 10%nat => "a" | 11%nat => "b"
  | 12%nat => "c" | 13%nat => "d" | 14%nat => "e" | _ => "f"
  end%char.

(** QuoteJSONString, one character: the quote and the backslash are
    escaped, control characters get their short escape or [\u00XX]. *)
Definition escape_char (c : ascii) : string :=
  let n := nat_of_ascii c in
  if Ascii.eqb c dq then String "\" (String dq "")
  else if Ascii.eqb c "\" then "\\"
  else match n with
       | 8%nat => "\b"
       | 9%nat => "\t"
       | 10%nat => "\n"
       | 12%nat => "\f"
       | 13%nat => "\r"
       | _ => if (n <? 32)%nat
              then "\u00" ++ String (hex_digit (n / 16)) (String (hex_digit (n mod 16)) "")
              else String c ""
       end.

Fixpoint escape (s : string) : string :=
  match s with
  | EmptyString => EmptyString
  | String c r => escape_char c ++ escape r
  end.

Definition quote (s : string) : string := String dq (escape s ++ String dq "").

(** [JSON.stringify]: an [undefined] element of an array is written
    [null], a property whose value is [undefined] is left out. *)
Fixpoint stringify (v : JSValue) : string :=
  match v with
  | JUndefined | JNull => "null"
  | JBool true => "true"
  | JBool false => "false"
  | JNum n => string_of_Z n
  | JStr s => quote s
  | JArr l => "[" ++ join "," (map stringify l) ++ "]"
  | JObj fields =>
      "{" ++ join ","
               ((fix members (fs : list (string * JSValue)) : list string :=
                   match fs with
                   | [] => []
                   | (k, x) :: rest =>
                       match x with
                       | JUndefined => members rest
                       | _ => (quote k ++ ":" ++ stringify x) :: members rest
                       end
                   end) fields)
          ++ "}"
  end.

(** ** Parsing *)

Definition is_json_ws (c : ascii) : bool :=
  match nat_of_ascii c with
  | 9%nat | 10%nat | 13%nat | 32%nat => true
  | _ => false
  end.

Fixpoint skip_ws (s : string) : string :=
  match s with
  | String c r => if is_json_ws c then skip_ws r else s
  | EmptyString => s
  end.

Definition hex_value (c : ascii) : option N :=
  let n := N_of_ascii c in
  (if (48 <=? n) && (n <=? 57) then Some (n - 48)
   else if (97 <=? n) && (n <=? 102) then Some (n - 87)
   else if (65 <=? n) && (n <=? 70) then Some (n - 55)
   else None)%N.

(** The bytes (UTF-8) of a code point of the basic plane; a surrogate
    has none, and a [\u] escape that names one is outside the fragment. *)
Definition utf8 (cp : N) : option string :=
  (if cp <? 128 then Some (String (ascii_of_N cp) "")
   else if cp <? 2048 then
     Some (String (ascii_of_N (192 + cp / 64))
             (String (ascii_of_N (128 + cp mod 64)) ""))
   else if (55296 <=? cp) && (cp <=? 57343) then None
   else
     Some (String (ascii_of_N (224 + cp / 4096))
             (String (ascii_of_N (128 + (cp / 64) mod 64))
                (String (ascii_of_N (128 + cp mod 64)) ""))))%N.

Definition unicode_escape (a b c d : ascii) : option string :=
  match hex_value a, hex_value b, hex_value c, hex_value d with
  | Some x, Some y, Some z, Some w => utf8 (((x * 16 + y) * 16 + z) * 16 + w)%N
  | _, _, _, _ => None
  end.

(** The characters of a string literal after its opening quote, up to
    and including the closing quote. *)
Fixpoint parse_string_body (s : string) : option (string * string) :=
  match s with
  | EmptyString => None
  | String c r =>
      if Ascii.eqb c dq then Some (EmptyString, r)
      else if Ascii.eqb c "\" then
        match r with
        | String e r1 =>
            let simple (x : ascii) :=
              match parse_string_body r1 with
              | Some (t, rest) => Some (String x t, rest)
              | None => None
              end in
            if Ascii.eqb e dq then simple dq
            else if Ascii.eqb e "\" then simple "\"%char
            else if Ascii.eqb e "/" then simple "/"%char
            else if Ascii.eqb e "b" then simple "008"%char
            else if Ascii.eqb e "f" then simple "012"%char
            else if Ascii.eqb e "n" then simple "010"%char
            else if Ascii.eqb e "r" then simple "013"%char
            else if Ascii.eqb e "t" then simple "009"%char
            else if Ascii.eqb e "u" then
              match r1 with
              | String h1 (String h2 (String h3 (String h4 r2))) =>
                  match unicode_escape h1 h2 h3 h4, parse_string_body r2 with
                  | Some u, Some (t, rest) => Some (u ++ t, rest)
                  | _, _ => None
                  end
              | _ => None
              end
            else None
        | EmptyString => None
        end
      else if (nat_of_ascii c <? 32)%nat then None
      else match parse_string_body r with
           | Some (t, rest) => Some (String c t, rest)
           | None => None
           end
  end.

Definition digit_of (c : ascii) : option (Decimal.uint -> Decimal.uint) :=
  match c with
  | "0" => Some Decimal.D0 | "1" => Some Decimal.D1 | "2" => Some Decimal.D2
  | "3" => Some Decimal.D3 | "4" => Some Decimal.D4 | "5" => Some Decimal.D5
  | "6" => Some Decimal.D6 | "7" => Some Decimal.D7 | "8" => Some Decimal.D8
  | "9" => Some Decimal.D9 | _ => None
  end%char.

(** The longest run of decimal digits at the head of [s]. *)
Fixpoint take_digits (s : string) : Decimal.uint * string :=
  match s with
  | EmptyString => (Decimal.Nil, s)
  | String c r =>
      match digit_of c with
      | Some d => let '(u, rest) := take_digits r in (d u, rest)
      | None => (Decimal.Nil, s)
      end
  end.

Definition starts_fraction (s : string) : bool :=
  match s with
  | String c _ => Ascii.eqb c "." || Ascii.eqb c "e" || Ascii.eqb c "E"
  | EmptyString => false
  end.

(** An integer literal: at least one digit, no leading zero, and no
    fraction or exponent after it. *)
Definition parse_natural (s : string) : option (N * string) :=
  match take_digits s with
  | (Decimal.Nil, _) => None
  | (Decimal.D0 Decimal.Nil, rest) => if starts_fraction rest then None else Some (0%N, rest)
  | (Decimal.D0 _, _) => None
  | (u, rest) => if starts_fraction rest then None else Some (N.of_uint u, rest)
  end.

Definition parse_number (s : string) : option (JSValue * string) :=
  match s with
  | EmptyString => None
  | String c r =>
      if Ascii.eqb c "-" then
        match parse_natural r with
        | Some (n, rest) => Some (JNum (- Z.of_N n), rest)
        | None => None
        end
      else
        match parse_natural s with
        | Some (n, rest) => Some (JNum (Z.of_N n), rest)
        | None => None
        end
  end.

Fixpoint strip_prefix (p s : string) : option string :=
  match p with
  | EmptyString => Some s
  | String a p' =>
      match s with
      | String b s' => if Ascii.eqb a b then strip_prefix p' s' else None
      | EmptyString => None
      end
  end.

Definition expect (word : string) (v : JSValue) (s : string) : option (JSValue * string) :=
  match strip_prefix word s with
  | Some rest => Some (v, rest)
  | None => None
  end.

(** The text after the closing bracket [c], when [s] starts with it. *)
Definition closes (c : ascii) (s : string) : option string :=
  match s with
  | String c' rest => if Ascii.eqb c c' then Some rest else None
  | EmptyString => None
  end.

(** A property set twice keeps its first place and its last value. *)
Fixpoint set_field (k : string) (v : JSValue) (fields : list (string * JSValue)) :=
  match fields with
  | [] => [(k, v)]
  | (k', v') :: rest =>
      if String.eqb k k' then (k', v) :: rest else (k', v') :: set_field k v rest
  end.

Definition build_object (members : list (string * JSValue)) : JSValue :=
  JObj (fold_left (fun acc kv => set_field (fst kv) (snd kv) acc) members []).

(** Recursive descent over the text; [fuel] bounds the number of values
    and separators read, and [parse] below supplies the length of the
    text, which is enough. *)
Fixpoint parse_value (fuel : nat) (s : string) : option (JSValue * string) :=
  match fuel with
  | O => None
  | S fuel =>
      match skip_ws s with
      | EmptyString => None
      | String c r as s' =>
          if Ascii.eqb c "n" then expect "null" JNull s'
          else if Ascii.eqb c "t" then expect "true" (JBool true) s'
          else if Ascii.eqb c "f" then expect "false" (JBool false) s'
          else if Ascii.eqb c dq then
            match parse_string_body r with
            | Some (t, rest) => Some (JStr t, rest)
            | None => None
            end
          else if Ascii.eqb c "[" then
            match closes "]" (skip_ws r) with
            | Some rest => Some (JArr [], rest)
            | None => match parse_elements fuel r with
                      | Some (l, rest) => Some (JArr l, rest)
                      | None => None
                      end
            end
          else if Ascii.eqb c "{" then
            match closes "}" (skip_ws r) with
            | Some rest => Some (JObj [], rest)
            | None => match parse_members fuel r with
                      | Some (m, rest) => Some (build_object m, rest)
                      | None => None
                      end
            end
          else parse_number s'
      end
  end
with parse_elements (fuel : nat) (s : string) : option (list JSValue * string) :=
  match fuel with
  | O => None
  | S fuel =>
      match parse_value fuel s with
      | Some (v, r) =>
          match skip_ws r with
          | String "," r' =>
              match parse_elements fuel r' with
              | Some (l, rest) => Some (v :: l, rest)
              | None => None
              end
          | String "]" rest => Some ([v], rest)
          | _ => None
          end
      | None => None
      end
  end
with parse_members (fuel : nat) (s : string) : option (list (string * JSValue) * string) :=
  match fuel with
  | O => None
  | S fuel =>
      match skip_ws s with
      | String c r =>
          if Ascii.eqb c dq then
            match parse_string_body r with
            | Some (k, r1) =>
                match skip_ws r1 with
                | String ":" r2 =>
                    match parse_value fuel r2 with
                    | Some (v, r3) =>
                        match skip_ws r3 with
                        | String "," r4 =>
                            match parse_members fuel r4 with
                            | Some (m, rest) => Some ((k, v) :: m, rest)
                            | None => None
                            end
                        | String "}" rest => Some ([(k, v)], rest)
                        | _ => None
                        end
                    | None => None
                    end
                | _ => None
                end
            | None => None
            end
          else None
      | EmptyString => None
      end
  end.

(** [JSON.parse]: [None] stands for the [SyntaxError] it throws. *)
Definition parse (s : string) : option JSValue :=
  match parse_value (S (String.length s)) s with
  | Some (v, rest) => match skip_ws rest with
                      | EmptyString => Some v
                      | _ => None
                      end
  | None => None
  end.

End JSON.

(* ===================================================================== *)
(** * The browser platform: storage, clock, network, media devices *)
(* ===================================================================== *)

Module Platform.

(** ** Web Storage *)

(** A storage area is a map from keys to strings.  Writing can fail
    when the quota is used up ([QuotaExceeded]), and every access fails
    when the browser denies storage to the page ([AccessDenied]). *)
Inductive StorageMode : Type := Available | QuotaExceeded | AccessDenied.

Record Storage : Type := mkStorage {
  items : gmap string string;
  mode : StorageMode
}.

Definition denied : JSError :=
  DOMException "SecurityError" "The operation is insecure.".

Definition Storage_getItem (k : string) (s : Storage) : Completion (option string) :=
  match mode s with
  | AccessDenied => Throw denied
  | _ => Normal (items s !! k)
  end.

Definition Storage_setItem (k v : string) (s : Storage) : Completion unit * Storage :=
  match mode s with
  | Available => (Normal tt, mkStorage (<[k := v]> (items s)) (mode s))
  | QuotaExceeded =>
      (Throw (DOMException "QuotaExceededError" "The quota has been exceeded."), s)
  | AccessDenied => (Throw denied, s)
  end.

Definition Storage_removeItem (k : string) (s : Storage) : Completion unit * Storage :=
  match mode s with
  | AccessDenied => (Throw denied, s)
  | _ => (Normal tt, mkStorage (delete k (items s)) (mode s))
  end.

(** ** Network *)

(** What a canvas or a file reader hands out as a data URL, by what it
    encodes: the canvas bitmap re-encoded with a MIME type and a quality
    factor, or the bytes of a file. *)
Inductive DataURL : Type :=
| CanvasData (type : string) (quality : float) (width height : Z)
| FileData (contents : string).

(** The object given to [JSON.stringify] as the body of a request. *)
Inductive Body : Type :=
| ChatVision (model text : string) (image_url : DataURL) (temperature : float)
             (max_completion_tokens top_p : Z) (stream : bool)
| ChatText (model content : string) (max_completion_tokens : Z)
| Speech (model voice input response_format : string).

Record Request : Type := mkRequest {
  url : string;
  method : string;
  authorization : string;
  content_type : string;
  body : Body
}.

Record Response : Type := mkResponse {
  status : Z;
  text : string
}.

(** [response.ok] *)
Definition ok (r : Response) : bool := (200 <=? status r) && (status r <=? 299).

(** A [fetch] either resolves with a response, whatever its status, or
    rejects (no connection, blocked request). *)
Inductive FetchOutcome : Type :=
| Responds (r : Response)
| Rejects (e : JSError).

(** ** Media devices *)

Inductive FacingConstraint : Type :=
| Ideal (facingMode : string)
| Exact (facingMode : string).

Record Constraints : Type := mkConstraints {
  c_facingMode : FacingConstraint;
  c_width_ideal : Z;
  c_width_max : Z;
  c_height_ideal : Z;
  c_height_max : Z;
  c_audio : bool
}.

(** A media stream with its one video track: the track's settings, whether
    it has been stopped ([live]) and whether it is [enabled]. *)
Record MediaStream : Type := mkStream {
  facingMode : option string;
  videoWidth : Z;
  videoHeight : Z;
  live : bool;
  enabled : bool
}.

Inductive MediaOutcome : Type :=
| Grants (facing : option string) (width height : Z)
| Refuses (e : JSError).

(** ** The environment of a page *)

(** [network] and [devices] hold what the remote side and the device
    will answer to the calls still to come, in order; [sent] and [asked]
    record the calls made so far.  [streams] is the heap of stream
    objects, which the fields of the camera component refer to by index. *)
Record Env : Type := mkEnv {
  localStorage : Storage;
  sessionStorage : Storage;
  now : Z;
  nowISO : string;
  network : list FetchOutcome;
  sent : list Request;
  devices : list MediaOutcome;
  asked : list Constraints;
  streams : list MediaStream
}.

End Platform.
Export Platform.

(* ===================================================================== *)
(** * The objects of the application and the monad of its methods *)
(* ===================================================================== *)

(** The fields of a [GroqAPI] object that change; [baseUrl] and the model
    names are constants, given in module [GroqAPI]. *)
Record GroqAPIObject : Type := mkGroqAPI {
  apiKey : option string;
  recipes : JSValue
}.

(** A [CameraManager] with the parts of its [video] and [canvas] elements
    that its methods touch.  [camera_errors] are the messages of the error
    panels inserted before the video. *)
Record CameraManagerObject : Type := mkCamera {
  stream : option nat;
  isInitialized : bool;
  video_srcObject : option nat;
  video_display : string;
  video_opacity : string;
  canvas_width : Z;
  canvas_height : Z;
  camera_errors : list string
}.

Record Button : Type := mkButton {
  textContent : string;
  disabled : bool;
  display : string
}.

(** A [FoodAnalyzerApp] with the elements it shows results in. *)
Record AppObject : Type := mkApp {
  isAnalyzing : bool;
  loading_hidden : bool;
  results_hidden : bool;
  analyzeBtn : Button;
  foodDetectedEl : string;
  audioPlayer_src : option string;
  audioPlayer_display : string;
  recipeButtons : list Button;
  error_message_el : option string;
  fileUpload_value : string
}.

Record World : Type := mkWorld {
  groqAPI : GroqAPIObject;
  cameraManager : CameraManagerObject;
  app : AppObject;
  env : Env
}.

Module Update.

Definition on_groq (f : GroqAPIObject -> GroqAPIObject) (w : World) : World :=
  mkWorld (f (groqAPI w)) (cameraManager w) (app w) (env w).
Definition on_camera (f : CameraManagerObject -> CameraManagerObject) (w : World) : World :=
  mkWorld (groqAPI w) (f (cameraManager w)) (app w) (env w).
Definition on_app (f : AppObject -> AppObject) (w : World) : World :=
  mkWorld (groqAPI w) (cameraManager w) (f (app w)) (env w).
Definition on_env (f : Env -> Env) (w : World) : World :=
  mkWorld (groqAPI w) (cameraManager w) (app w) (f (env w)).

Definition with_apiKey (k : option string) (g : GroqAPIObject) : GroqAPIObject :=
  mkGroqAPI k (recipes g).
Definition with_recipes (r : JSValue) (g : GroqAPIObject) : GroqAPIObject :=
  mkGroqAPI (apiKey g) r.

Definition with_stream (s : option nat) (c : CameraManagerObject) :=
  mkCamera s (isInitialized c) (video_srcObject c) (video_display c) (video_opacity c)
           (canvas_width c) (canvas_height c) (camera_errors c).
Definition with_isInitialized (b : bool) (c : CameraManagerObject) :=
  mkCamera (stream c) b (video_srcObject c) (video_display c) (video_opacity c)
           (canvas_width c) (canvas_height c) (camera_errors c).
Definition with_srcObject (s : option nat) (c : CameraManagerObject) :=
  mkCamera (stream c) (isInitialized c) s (video_display c) (video_opacity c)
           (canvas_width c) (canvas_height c) (camera_errors c).
Definition with_video_display (d : string) (c : CameraManagerObject) :=
  mkCamera (stream c) (isInitialized c) (video_srcObject c) d (video_opacity c)
           (canvas_width c) (canvas_height c) (camera_errors c).
Definition with_video_opacity (o : string) (c : CameraManagerObject) :=
  mkCamera (stream c) (isInitialized c) (video_srcObject c) (video_display c) o
           (canvas_width c) (canvas_height c) (camera_errors c).
Definition with_canvas (w h : Z) (c : CameraManagerObject) :=
  mkCamera (stream c) (isInitialized c) (video_srcObject c) (video_display c)
           (video_opacity c) w h (camera_errors c).
Definition with_camera_error (m : string) (c : CameraManagerObject) :=
  mkCamera (stream c) (isInitialized c) (video_srcObject c) (video_display c)
           (video_opacity c) (canvas_width c) (canvas_height c) (m :: camera_errors c).

Definition with_isAnalyzing (b : bool) (a : AppObject) :=
  mkApp b (loading_hidden a) (results_hidden a) (analyzeBtn a) (foodDetectedEl a)
        (audioPlayer_src a) (audioPlayer_display a) (recipeButtons a)
        (error_message_el a) (fileUpload_value a).
Definition with_loading_hidden (b : bool) (a : AppObject) :=
  mkApp (isAnalyzing a) b (results_hidden a) (analyzeBtn a) (foodDetectedEl a)
        (audioPlayer_src a) (audioPlayer_display a) (recipeButtons a)
        (error_message_el a) (fileUpload_value a).
Definition with_results_hidden (b : bool) (a : AppObject) :=
  mkApp (isAnalyzing a) (loading_hidden a) b (analyzeBtn a) (foodDetectedEl a)
        (audioPlayer_src a) (audioPlayer_display a) (recipeButtons a)
        (error_message_el a) (fileUpload_value a).
Definition with_analyzeBtn (b : Button) (a : AppObject) :=
  mkApp (isAnalyzing a) (loading_hidden a) (results_hidden a) b (foodDetectedEl a)
        (audioPlayer_src a) (audioPlayer_display a) (recipeButtons a)
        (error_message_el a) (fileUpload_value a).
Definition with_foodDetectedEl (s : string) (a : AppObject) :=
  mkApp (isAnalyzing a) (loading_hidden a) (results_hidden a) (analyzeBtn a) s
        (audioPlayer_src a) (audioPlayer_display a) (recipeButtons a)
        (error_message_el a) (fileUpload_value a).
Definition with_audioPlayer (src : option string) (d : string) (a : AppObject) :=
  mkApp (isAnalyzing a) (loading_hidden a) (results_hidden a) (analyzeBtn a)
        (foodDetectedEl a) src d (recipeButtons a)
        (error_message_el a) (fileUpload_value a).
Definition with_recipeButtons (l : list Button) (a : AppObject) :=
  mkApp (isAnalyzing a) (loading_hidden a) (results_hidden a) (analyzeBtn a)
        (foodDetectedEl a) (audioPlayer_src a) (audioPlayer_display a) l
        (error_message_el a) (fileUpload_value a).
Definition with_error_message (m : option string) (a : AppObject) :=
  mkApp (isAnalyzing a) (loading_hidden a) (results_hidden a) (analyzeBtn a)
        (foodDetectedEl a) (audioPlayer_src a) (audioPlayer_display a)
        (recipeButtons a) m (fileUpload_value a).
Definition with_fileUpload_value (v : string) (a : AppObject) :=
  mkApp (isAnalyzing a) (loading_hidden a) (results_hidden a) (analyzeBtn a)
        (foodDetectedEl a) (audioPlayer_src a) (audioPlayer_display a)
        (recipeButtons a) (error_message_el a) v.

Definition with_localStorage (s : Storage) (e : Env) :=
  mkEnv s (sessionStorage e) (now e) (nowISO e) (network e) (sent e)
        (devices e) (asked e) (streams e).
Definition with_sessionStorage (s : Storage) (e : Env) :=
  mkEnv (localStorage e) s (now e) (nowISO e) (network e) (sent e)
        (devices e) (asked e) (streams e).
Definition with_clock (t : Z) (iso : string) (e : Env) :=
  mkEnv (localStorage e) (sessionStorage e) t iso (network e) (sent e)
        (devices e) (asked e) (streams e).
Definition with_network (n : list FetchOutcome) (s : list Request) (e : Env) :=
  mkEnv (localStorage e) (sessionStorage e) (now e) (nowISO e) n s
        (devices e) (asked e) (streams e).
Definition with_devices (d : list MediaOutcome) (a : list Constraints) (e : Env) :=
  mkEnv (localStorage e) (sessionStorage e) (now e) (nowISO e) (network e) (sent e)
        d a (streams e).
Definition with_streams (s : list MediaStream) (e : Env) :=
  mkEnv (localStorage e) (sessionStorage e) (now e) (nowISO e) (network e) (sent e)
        (devices e) (asked e) s.

End Update.
Import Update.

(** ** The monad: a method runs on the world and completes normally or
    by throwing; either way it leaves a world behind. *)

Definition M (A : Type) : Type := World -> Completion A * World.

Definition ret {A} (a : A) : M A := fun w => (Normal a, w).

Definition bind {A B} (m : M A) (k : A -> M B) : M B :=
  fun w => match m w with
           | (Normal a, w') => k a w'
           | (Throw e, w') => (Throw e, w')
           end.

Definition throw {A} (e : JSError) : M A := fun w => (Throw e, w).

Definition lift {A} (c : Completion A) : M A := fun w => (c, w).

Definition gets {A} (f : World -> A) : M A := fun w => (Normal (f w), w).

Definition modify (f : World -> World) : M unit := fun w => (Normal tt, f w).

(** [try { body } catch (e) { handler }] *)
Definition try_catch {A} (body : M A) (handler : JSError -> M A) : M A :=
  fun w => match body w with
           | (Throw e, w') => handler e w'
           | done => done
           end.

(** [try { body } finally { cleanup }] *)
Definition try_finally {A} (body : M A) (cleanup : M unit) : M A :=
  fun w => match body w with
           | (r, w') => match cleanup w' with
                        | (Normal _, w'') => (r, w'')
                        | (Throw e, w'') => (Throw e, w'')
                        end
           end.

Declare Scope js_scope.
Delimit Scope js_scope with js.
Notation "x <- m ;; k" := (bind m (fun x => k))
  (at level 20, m at level 99, k at level 200, only parsing) : js_scope.
Notation "m ;; k" := (bind m (fun _ => k))
  (at level 100, k at level 200, only parsing, right associativity) : js_scope.
Open Scope js_scope.

(** ** Platform calls in the monad *)

Definition localStorage_getItem (k : string) : M (option string) :=
  fun w => (Storage_getItem k (localStorage (env w)), w).
Definition localStorage_setItem (k v : string) : M unit :=
  fun w => let '(r, s) := Storage_setItem k v (localStorage (env w)) in
           (r, on_env (with_localStorage s) w).
Definition localStorage_removeItem (k : string) : M unit :=
  fun w => let '(r, s) := Storage_removeItem k (localStorage (env w)) in
           (r, on_env (with_localStorage s) w).
Definition sessionStorage_getItem (k : string) : M (option string) :=
  fun w => (Storage_getItem k (sessionStorage (env w)), w).
Definition sessionStorage_setItem (k v : string) : M unit :=
  fun w => let '(r, s) := Storage_setItem k v (sessionStorage (env w)) in
           (r, on_env (with_sessionStorage s) w).

(** [Date.now()] and [new Date().toISOString()] *)
Definition Date_now : M Z := gets (fun w => now (env w)).
Definition Date_toISOString : M string := gets (fun w => nowISO (env w)).

(** [await fetch(url, init)]: the request is recorded, and the next
    outcome of the network settles the promise. *)
Definition fetch (rq : Request) : M Response :=
  fun w =>
    let e := env w in
    match network e with
    | Responds r :: rest =>
        (Normal r, on_env (with_network rest (sent e ++ [rq])) w)
    | Rejects err :: rest =>
        (Throw err, on_env (with_network rest (sent e ++ [rq])) w)
    | [] =>
        (Throw (TypeError "Failed to fetch"), on_env (with_network [] (sent e ++ [rq])) w)
    end.

(** [await response.json()] and [await response.blob()] *)
Definition Response_json (r : Response) : M JSValue :=
  match JSON.parse (text r) with
  | Some v => ret v
  | None => throw (SyntaxError "Unexpected token in JSON")
  end.
Definition Response_blob (r : Response) : M string := ret (text r).

(** [JSON.parse(v)], with the argument converted to a string first. *)
Definition JSON_parse (v : JSValue) : M JSValue :=
  match JSON.parse (ToString v) with
  | Some x => ret x
  | None => throw (SyntaxError "Unexpected token in JSON")
  end.

(** [await navigator.mediaDevices.getUserMedia(constraints)]: a granted
    request allocates a fresh stream with a live, enabled video track. *)
Definition getUserMedia (c : Constraints) : M nat :=
  fun w =>
    let e := env w in
    match devices e with
    | Grants f wd ht :: rest =>
        (Normal (length (streams e)),
         on_env (fun e => with_streams (streams e ++ [mkStream f wd ht true true])
                            (with_devices rest (asked e ++ [c]) e)) w)
    | Refuses err :: rest =>
        (Throw err, on_env (with_devices rest (asked e ++ [c])) w)
    | [] =>
        (Throw (DOMException "NotFoundError" "Requested device not found"),
         on_env (with_devices [] (asked e ++ [c])) w)
    end.

(** Updating the stream object a reference points to. *)
Definition update_stream (id : nat) (f : MediaStream -> MediaStream) : M unit :=
  modify (on_env (fun e => with_streams
                             (match streams e !! id with
                              | Some s => <[id := f s]> (streams e)
                              | None => streams e
                              end) e)).

(* ===================================================================== *)
(** * [GroqAPI]: the remote service client *)
(* ===================================================================== *)

Module GroqAPI.

Definition baseUrl : string := "https://api.groq.com/openai/v1".
Definition visionModel : string := "meta-llama/llama-4-scout-17b-16e-instruct".
Definition ttsModel : string := "playai-tts".
Definition voice : string := "Fritz-PlayAI".

Definition set_apiKey (k : option string) : M unit := modify (on_groq (with_apiKey k)).
Definition set_recipes (r : JSValue) : M unit := modify (on_groq (with_recipes r)).

(** [!this.apiKey] for a field that holds [null] or a string. *)
Definition no_key (k : option string) : bool :=
  match k with
  | None => true
  | Some s => negb (truthy (JStr s))
  end.

Definition setApiKey (k : string) : M unit :=
  set_apiKey (Some k) ;;
  try_catch
    (localStorage_setItem "groq_api_key" k ;;
     t <- Date_now ;;
     localStorage_setItem "groq_api_key_timestamp" (string_of_Z t))
    (fun _ =>
       try_catch
         (sessionStorage_setItem "groq_api_key" k ;;
          t <- Date_now ;;
          sessionStorage_setItem "groq_api_key_timestamp" (string_of_Z t))
         (fun _ => ret tt)).

Definition getApiKey : M (option string) :=
  k <- gets (fun w => apiKey (groqAPI w)) ;;
  (if no_key k then
     try_catch
       (v <- localStorage_getItem "groq_api_key" ;;
        set_apiKey v ;;
        if no_key v then
          v' <- sessionStorage_getItem "groq_api_key" ;;
          set_apiKey v'
        else ret tt)
       (fun _ => set_apiKey None)
   else ret tt) ;;
  gets (fun w => apiKey (groqAPI w)).

Definition isConfigured : M bool :=
  k <- getApiKey ;;
  ret (match k with
       | Some s => truthy (JStr s) && (0 <? Z.of_nat (String.length (trim s)))
       | None => false
       end).

(** [`Bearer ${this.getApiKey()}`] *)
Definition bearer (k : option string) : string :=
  "Bearer " ++ match k with Some s => s | None => "null" end.

(** [errorData.error?.message || fallback] *)
Definition error_text (errorData : JSValue) (fallback : string) : M string :=
  e <- lift (get errorData "error") ;;
  m <- match e with
       | JUndefined | JNull => ret JUndefined
       | _ => lift (get e "message")
       end ;;
  ret (ToString (if truthy m then m else JStr fallback)).

(** The branch taken on [!response.ok], shared in shape by the three
    calls: read the error envelope, or [{}] when the body is not JSON,
    and throw an [Error] that starts with [label] and the status. *)
Definition fail_with (label fallback : string) (response : Response) : M unit :=
  errorData <- try_catch (Response_json response) (fun _ => ret (JObj [])) ;;
  msg <- error_text errorData fallback ;;
  throw (Error (label ++ string_of_Z (status response) ++ " - " ++ msg)).

Definition q (s : string) : string := String dq (s ++ String dq "").

Definition recipe_shape (n after_name after_description : string) : list string :=
  [ "    {";
    "      " ++ q "name" ++ ": " ++ q ("Recipe Name " ++ n) ++ "," ++ after_name;
    "      " ++ q "description" ++ ": " ++ q "Brief description of the recipe" ++ ","
      ++ after_description;
    "      " ++ q "ingredients" ++ ": [" ++ q "ingredient1" ++ ", " ++ q "ingredient2"
      ++ ", " ++ q "ingredient3" ++ "],";
    "      " ++ q "instructions" ++ ": [" ++ q "step1" ++ ", " ++ q "step2" ++ ", "
      ++ q "step3" ++ "],";
    "      " ++ q "cookingTime" ++ ": " ++ q "X minutes" ++ ",";
    "      " ++ q "difficulty" ++ ": " ++ q "Easy/Medium/Hard" ].

(** The fixed instruction sent with every image. *)
Definition instruction : string :=
  join nl
    (concat
       [ [ "Analyze this image and identify what food items you can see. Then provide exactly 3 different recipe suggestions that can be made with these ingredients. ";
           "";
           "Format your response as JSON with this exact structure:";
           "{";
           "  " ++ q "foodDetected" ++ ": "
             ++ q "Brief description of the food items you see" ++ ",";
           "  " ++ q "recipes" ++ ": [" ];
         recipe_shape "1" "" "";
         [ "    }," ];
         recipe_shape "2" " " "";
         [ "    }," ];
         recipe_shape "3" "" " ";
         [ "    }"; "  ]"; "}" ] ]).

Definition analyzeFood (imageData : DataURL) : M JSValue :=
  configured <- isConfigured ;;
  if negb configured then throw (Error "API key not configured")
  else
    try_catch
      (key <- getApiKey ;;
       response <- fetch (mkRequest (baseUrl ++ "/chat/completions") "POST" (bearer key)
                            "application/json"
                            (ChatVision visionModel instruction imageData
                               0.7%float 2000 1 false)) ;;
       (if negb (ok response)
        then fail_with "Vision API error: " "Unknown error" response
        else ret tt) ;;
       data <- Response_json response ;;
       choices <- lift (get data "choices") ;;
       choice <- lift (index choices 0) ;;
       message <- lift (get choice "message") ;;
       content <- lift (get message "content") ;;
       analysisResult <- JSON_parse content ;;
       rs <- lift (get analysisResult "recipes") ;;
       set_recipes rs ;;
       ret analysisResult)
      (fun error => throw error).

(** [v.toLowerCase()] *)
Definition call_toLowerCase (v : JSValue) : Completion string :=
  match v with
  | JStr s => Normal (toLowerCase s)
  | JUndefined =>
      Throw (TypeError "Cannot read properties of undefined (reading 'toLowerCase')")
  | JNull => Throw (TypeError "Cannot read properties of null (reading 'toLowerCase')")
  | _ => Throw (TypeError "toLowerCase is not a function")
  end.

Definition indent : string := "            ".
Definition gap : string := nl ++ indent ++ nl ++ indent.

(** The four substitutions of one recipe, read in the order the
    template reads them. *)
Definition recipe_parts (rs : JSValue) (i : nat)
  : Completion (string * string * string * string) :=
  match index rs i with
  | Throw e => Throw e
  | Normal r =>
      match get r "name" with
      | Throw e => Throw e
      | Normal name =>
          match get r "description" with
          | Throw e => Throw e
          | Normal description =>
              match get r "difficulty" with
              | Throw e => Throw e
              | Normal difficulty =>
                  match call_toLowerCase difficulty with
                  | Throw e => Throw e
                  | Normal lowered =>
                      match get r "cookingTime" with
                      | Throw e => Throw e
                      | Normal cookingTime =>
                          Normal (ToString name, ToString description, lowered,
                                  ToString cookingTime)
                      end
                  end
              end
          end
      end
  end.

(** The template literal bound to [description]. *)
Definition description (foodDetected rs : JSValue) : Completion string :=
  match recipe_parts rs 0 with
  | Throw e => Throw e
  | Normal (n0, d0, l0, t0) =>
      match recipe_parts rs 1 with
      | Throw e => Throw e
      | Normal (n1, d1, l1, t1) =>
          match recipe_parts rs 2 with
          | Throw e => Throw e
          | Normal (n2, d2, l2, t2) =>
              Normal
                ("I can see " ++ ToString foodDetected
                 ++ ". Here are three delicious recipes you can make: " ++ gap
                 ++ "First, " ++ n0 ++ " - " ++ d0 ++ ". This is a " ++ l0
                 ++ " recipe that takes about " ++ t0 ++ "." ++ gap
                 ++ "Second, " ++ n1 ++ " - " ++ d1 ++ ". This " ++ l1
                 ++ " dish takes " ++ t1 ++ " to prepare." ++ gap
                 ++ "Finally, " ++ n2 ++ " - " ++ d2 ++ ". This " ++ l2
                 ++ " recipe can be ready in " ++ t2 ++ "." ++ gap
                 ++ "Choose any recipe button below to see the full instructions!")
          end
      end
  end.

Definition generateVoiceDescription (foodDetected rs : JSValue) : M string :=
  configured <- isConfigured ;;
  if negb configured then throw (Error "API key not configured")
  else
    try_catch
      (text <- lift (description foodDetected rs) ;;
       key <- getApiKey ;;
       response <- fetch (mkRequest (baseUrl ++ "/audio/speech") "POST" (bearer key)
                            "application/json" (Speech ttsModel voice text "wav")) ;;
       (if negb (ok response)
        then fail_with "TTS API error: " "Unknown error" response
        else ret tt) ;;
       audioBlob <- Response_blob response ;;
       ret audioBlob)
      (fun error => throw error).

(** [index < length] for an integer [index].  A [length] that is not a
    number is converted first: [undefined] and objects give NaN, below
    which nothing is; [null] and [false] give 0 and [true] gives 1.  The
    conversion of a string or an array reads a numeric literal, which the
    model does not have; it is taken as NaN, and the facts about
    [getRecipe] are stated for [recipes] that are arrays. *)
Definition below (i : Z) (length : JSValue) : bool :=
  match length with
  | JNum n => i <? n
  | JNull | JBool false => i <? 0
  | JBool true => i <? 1
  | JUndefined | JObj _ | JStr _ | JArr _ => false
  end.

Definition getRecipe (i : Z) : M JSValue :=
  rs <- gets (fun w => recipes (groqAPI w)) ;;
  if 0 <=? i then
    len <- lift (get rs "length") ;;
    if below i len then lift (index rs (Z.to_nat i)) else ret JNull
  else ret JNull.

(** [v.map(x => `<li>${x}</li>`).join('')], where [v] was read from
    [recipe.property]. *)
Definition list_items (v : JSValue) (property : string) : Completion string :=
  match v with
  | JArr l => Normal (join "" (map (fun x => "<li>" ++ ToString x ++ "</li>") l))
  | JUndefined => Throw (TypeError "Cannot read properties of undefined (reading 'map')")
  | JNull => Throw (TypeError "Cannot read properties of null (reading 'map')")
  | _ => Throw (TypeError ("recipe." ++ property ++ ".map is not a function"))
  end.

Definition formatRecipeForDisplay (recipe : JSValue) : Completion string :=
  if negb (truthy recipe) then Normal ""
  else
    match get recipe "name" with
    | Throw e => Throw e
    | Normal name =>
    match get recipe "description" with
    | Throw e => Throw e
    | Normal description =>
    match get recipe "difficulty" with
    | Throw e => Throw e
    | Normal difficulty =>
    match get recipe "cookingTime" with
    | Throw e => Throw e
    | Normal cookingTime =>
    match get recipe "ingredients" with
    | Throw e => Throw e
    | Normal ingredients =>
    match list_items ingredients "ingredients" with
    | Throw e => Throw e
    | Normal ingredient_items =>
    match get recipe "instructions" with
    | Throw e => Throw e
    | Normal instructions =>
    match list_items instructions "instructions" with
    | Throw e => Throw e
    | Normal instruction_items =>
        Normal
          (nl ++ indent ++ "<h3>" ++ ToString name ++ "</h3>"
           ++ nl ++ indent ++ "<p><strong>Description:</strong> " ++ ToString description
           ++ "</p>"
           ++ nl ++ indent ++ "<p><strong>Difficulty:</strong> " ++ ToString difficulty
           ++ "</p>"
           ++ nl ++ indent ++ "<p><strong>Cooking Time:</strong> " ++ ToString cookingTime
           ++ "</p>"
           ++ nl ++ indent
           ++ nl ++ indent ++ "<h4>Ingredients:</h4>"
           ++ nl ++ indent ++ "<ul>"
           ++ nl ++ indent ++ "    " ++ ingredient_items
           ++ nl ++ indent ++ "</ul>"
           ++ nl ++ indent
           ++ nl ++ indent ++ "<h4>Instructions:</h4>"
           ++ nl ++ indent ++ "<ol>"
           ++ nl ++ indent ++ "    " ++ instruction_items
           ++ nl ++ indent ++ "</ol>"
           ++ nl ++ "        ")
    end end end end end end end end.

Definition testConnection : M bool :=
  configured <- isConfigured ;;
  if negb configured then throw (Error "API key not configured")
  else
    try_catch
      (key <- getApiKey ;;
       response <- fetch (mkRequest (baseUrl ++ "/chat/completions") "POST" (bearer key)
                            "application/json"
                            (ChatText visionModel "Hello, this is a test message." 10)) ;;
       (if negb (ok response)
        then fail_with "API test failed: " "Invalid API key" response
        else ret tt) ;;
       ret true)
      (fun error => throw error).

Definition clearApiKey : M unit :=
  set_apiKey None ;;
  localStorage_removeItem "groq_api_key".

End GroqAPI.

(* ===================================================================== *)
(** * [CameraManager]: the media capture component (src/camera.js) *)
(* ===================================================================== *)

Module CameraManager.

(** An integer of the page as the double it is. *)
Definition number (z : Z) : float := PrimFloat.of_uint63 (Uint63.of_Z z).

(** The conversion to [unsigned long] that assigning to [canvas.width]
    performs: the fraction is dropped, the rest is taken modulo 2^32, and
    what is not a finite number becomes 0. *)
Definition to_unsigned_long (x : float) : Z :=
  match Prim2SF x with
  | S754_finite sign m e =>
      let magnitude := if 0 <=? e then Z.pos m * 2 ^ e else Z.pos m / 2 ^ (- e) in
      (if sign then - magnitude else magnitude) mod 2 ^ 32
  | _ => 0
  end.

Definition default_constraints : Constraints :=
  mkConstraints (Ideal "environment") 1280 1920 720 1080 false.

Definition handleCameraError (error : JSError) : M unit :=
  let errorMessage :=
    "Camera access failed. " ++
    (if String.eqb (error_name error) "NotAllowedError"
     then "Please allow camera access and refresh the page."
     else if String.eqb (error_name error) "NotFoundError"
     then "No camera found on this device."
     else if String.eqb (error_name error) "NotSupportedError"
     then "Camera not supported in this browser."
     else "Please check your camera and try again.") in
  modify (on_camera (with_video_display "none")) ;;
  modify (on_camera (with_camera_error errorMessage)).

Definition initialize : M bool :=
  try_catch
    (s <- getUserMedia default_constraints ;;
     modify (on_camera (with_stream (Some s))) ;;
     modify (on_camera (with_srcObject (Some s))) ;;
     modify (on_camera (with_isInitialized true)) ;;
     ret true)
    (fun error => handleCameraError error ;; ret false).

(** [video.videoWidth] and [video.videoHeight]: the size of the frames
    of the stream the element plays, 0 when it plays none. *)
Definition video_size : M (Z * Z) :=
  gets (fun w => match video_srcObject (cameraManager w) with
                 | Some id => match streams (env w) !! id with
                              | Some s => (videoWidth s, videoHeight s)
                              | None => (0, 0)
                              end
                 | None => (0, 0)
                 end).

Definition captureImage : M (option DataURL) :=
  ready <- gets (fun w => isInitialized (cameraManager w)) ;;
  if negb ready then ret None
  else
    try_catch
      (let maxWidth := number 1024 in
       let maxHeight := number 768 in
       size <- video_size ;;
       let width := number (fst size) in
       let height := number (snd size) in
       let scaled :=
         if PrimFloat.ltb maxWidth width || PrimFloat.ltb maxHeight height then
           let aspectRatio := PrimFloat.div width height in
           if PrimFloat.ltb height width
           then (maxWidth, PrimFloat.div maxWidth aspectRatio)
           else (PrimFloat.mul maxHeight aspectRatio, maxHeight)
         else (width, height) in
       modify (on_camera (with_canvas (to_unsigned_long (fst scaled))
                                      (to_unsigned_long (snd scaled)))) ;;
       cw <- gets (fun w => canvas_width (cameraManager w)) ;;
       ch <- gets (fun w => canvas_height (cameraManager w)) ;;
       ret (Some (CanvasData "image/jpeg" 0.7%float cw ch)))
      (fun _ => ret None).

Definition set_enabled (b : bool) (s : MediaStream) : MediaStream :=
  mkStream (facingMode s) (videoWidth s) (videoHeight s) (live s) b.

Definition stop (s : MediaStream) : MediaStream :=
  mkStream (facingMode s) (videoWidth s) (videoHeight s) false (enabled s).

Definition pauseStream : M unit :=
  s <- gets (fun w => stream (cameraManager w)) ;;
  match s with
  | Some id =>
      update_stream id (set_enabled false) ;;
      modify (on_camera (with_video_opacity "0.5"))
  | None => ret tt
  end.

Definition resumeStream : M unit :=
  s <- gets (fun w => stream (cameraManager w)) ;;
  match s with
  | Some id =>
      update_stream id (set_enabled true) ;;
      modify (on_camera (with_video_opacity "1"))
  | None => ret tt
  end.

Definition switchCamera : M bool :=
  ready <- gets (fun w => isInitialized (cameraManager w)) ;;
  if negb ready then ret false
  else
    try_catch
      (s <- gets (fun w => stream (cameraManager w)) ;;
       match s with
       | None => throw (TypeError "Cannot read properties of null (reading 'getTracks')")
       | Some id =>
           update_stream id stop ;;
           currentFacingMode <-
             gets (fun w => match streams (env w) !! id with
                            | Some st => facingMode st
                            | None => None
                            end) ;;
           let newFacingMode :=
             match currentFacingMode with
             | Some f => if String.eqb f "environment" then "user" else "environment"
             | None => "environment"
             end in
           s' <- getUserMedia (mkConstraints (Exact newFacingMode) 1280 1920 720 1080 false) ;;
           modify (on_camera (with_stream (Some s'))) ;;
           modify (on_camera (with_srcObject (Some s'))) ;;
           ret true
       end)
      (fun _ => initialize ;; ret false).

Definition destroy : M unit :=
  s <- gets (fun w => stream (cameraManager w)) ;;
  match s with
  | Some id =>
      update_stream id stop ;;
      modify (on_camera (with_stream None))
  | None => ret tt
  end ;;
  modify (on_camera (with_isInitialized false)).

End CameraManager.

(* ===================================================================== *)
(** * [FoodAnalyzerApp]: the application controller *)
(* ===================================================================== *)

Module FoodAnalyzerApp.

(** A file chosen in the upload input: its MIME type, its size in bytes,
    and how reading it as a data URL ends. *)
Record File : Type := mkFile {
  file_type : string;
  file_size : Z;
  file_read : Completion string
}.

(** Assigning [v] to [element.textContent]. *)
Definition as_textContent (v : JSValue) : string :=
  match v with
  | JUndefined | JNull => ""
  | _ => ToString v
  end.

Definition set_isAnalyzing (b : bool) : M unit := modify (on_app (with_isAnalyzing b)).

Definition showLoading : M unit :=
  modify (on_app (with_loading_hidden false)) ;;
  modify (on_app (with_results_hidden true)) ;;
  modify (on_app (fun a => with_analyzeBtn
                             (mkButton "🔄 Analyzing..." true (display (analyzeBtn a))) a)).

Definition hideLoading : M unit :=
  modify (on_app (with_loading_hidden true)) ;;
  modify (on_app (fun a => with_analyzeBtn
                             (mkButton "📸 Analyze Food" false (display (analyzeBtn a))) a)) ;;
  CameraManager.resumeStream.

Definition showError (message : string) : M unit :=
  modify (on_app (with_error_message (Some message))).

(** The body of the [forEach] over the recipe buttons. *)
Definition label_button (rs : JSValue) (i : nat) (btn : Button) : Completion Button :=
  match index rs i with
  | Throw e => Throw e
  | Normal r =>
      if truthy r then
        match get r "name" with
        | Throw e => Throw e
        | Normal name => Normal (mkButton (as_textContent name) false (display btn))
        end
      else Normal (mkButton (textContent btn) (disabled btn) "none")
  end.

(** [forEach]: buttons before the one whose callback throws keep their
    new label. *)
Fixpoint label_buttons (rs : JSValue) (i : nat) (btns : list Button)
  : list Button * option JSError :=
  match btns with
  | [] => ([], None)
  | b :: rest =>
      match label_button rs i b with
      | Throw e => (b :: rest, Some e)
      | Normal b' => let '(rest', r) := label_buttons rs (S i) rest in (b' :: rest', r)
      end
  end.

Definition showResults (analysis : JSValue) (audioBlob : option string) : M unit :=
  hideLoading ;;
  foodDetected <- lift (get analysis "foodDetected") ;;
  modify (on_app (with_foodDetectedEl (as_textContent foodDetected))) ;;
  match audioBlob with
  | Some blob => modify (on_app (with_audioPlayer (Some blob) "block"))
  | None => modify (on_app (fun a => with_audioPlayer (audioPlayer_src a) "none" a))
  end ;;
  btns <- gets (fun w => recipeButtons (app w)) ;;
  rs <- lift (get analysis "recipes") ;;
  (let '(btns', r) := label_buttons rs 0 btns in
   modify (on_app (with_recipeButtons btns')) ;;
   match r with
   | Some e => throw e
   | None => ret tt
   end) ;;
  modify (on_app (with_results_hidden false)).

Definition getHistory : M JSValue :=
  try_catch
    (history <- localStorage_getItem "analysis_history" ;;
     match history with
     | Some s => if truthy (JStr s) then JSON_parse (JStr s) else ret (JArr [])
     | None => ret (JArr [])
     end)
    (fun _ => ret (JArr [])).

(** [history.unshift(item)] followed by [history.slice(0, 10)]; both are
    methods of arrays only. *)
Definition unshift (history item : JSValue) : Completion JSValue :=
  match history with
  | JArr l => Normal (JArr (item :: l))
  | JUndefined | JNull =>
      Throw (TypeError "Cannot read properties of null (reading 'unshift')")
  | _ => Throw (TypeError "history.unshift is not a function")
  end.

Definition slice (history : JSValue) (first last : nat) : Completion JSValue :=
  match history with
  | JArr l => Normal (JArr (firstn (last - first) (skipn first l)))
  | _ => Throw (TypeError "history.slice is not a function")
  end.

Definition saveToHistory (analysis : JSValue) : M unit :=
  try_catch
    (history <- getHistory ;;
     id <- Date_now ;;
     timestamp <- Date_toISOString ;;
     foodDetected <- lift (get analysis "foodDetected") ;;
     rs <- lift (get analysis "recipes") ;;
     let historyItem :=
       JObj [ ("id", JNum id); ("timestamp", JStr timestamp);
              ("foodDetected", foodDetected); ("recipes", rs) ] in
     history' <- lift (unshift history historyItem) ;;
     trimmedHistory <- lift (slice history' 0 10) ;;
     localStorage_setItem "analysis_history" (JSON.stringify trimmedHistory))
    (fun _ => ret tt).

(** The optional speech step: [null] when it throws. *)
Definition voice_or_null (analysis : JSValue) : M (option string) :=
  try_catch
    (foodDetected <- lift (get analysis "foodDetected") ;;
     rs <- lift (get analysis "recipes") ;;
     audioBlob <- GroqAPI.generateVoiceDescription foodDetected rs ;;
     ret (Some audioBlob))
    (fun _ => ret None).

Definition analyzeFood : M unit :=
  busy <- gets (fun w => isAnalyzing (app w)) ;;
  if busy then ret tt
  else
    try_finally
      (try_catch
         (set_isAnalyzing true ;;
          showLoading ;;
          CameraManager.pauseStream ;;
          imageData <- CameraManager.captureImage ;;
          match imageData with
          | None => throw (Error "Failed to capture image from camera")
          | Some image =>
              analysis <- GroqAPI.analyzeFood image ;;
              audioBlob <- voice_or_null analysis ;;
              saveToHistory analysis ;;
              showResults analysis audioBlob
          end)
         (fun error =>
            showError ("Analysis failed: " ++ error_message error) ;;
            hideLoading ;;
            CameraManager.resumeStream))
      (set_isAnalyzing false).

Definition handleFileUpload (file : option File) : M unit :=
  match file with
  | None => ret tt
  | Some f =>
      if negb (startsWith (file_type f) "image/")
      then showError "Please select a valid image file"
      else if 10 * 1024 * 1024 <? file_size f
      then showError "Image is too large. Please select an image under 10MB"
      else
        try_finally
          (try_catch
             (set_isAnalyzing true ;;
              showLoading ;;
              imageData <- lift (file_read f) ;;
              analysis <- GroqAPI.analyzeFood (FileData imageData) ;;
              audioBlob <- voice_or_null analysis ;;
              saveToHistory analysis ;;
              showResults analysis audioBlob)
             (fun error =>
                showError ("Analysis failed: " ++ error_message error) ;;
                hideLoading))
          (set_isAnalyzing false ;;
           modify (on_app (with_fileUpload_value "")))
  end.

End FoodAnalyzerApp.

(* ===================================================================== *)
(** * [FoodAnalyzerApp]: the dialogs around the analysis *)
(* ===================================================================== *)

(** The rest of the controller drives elements the analysis itself never
    touches: the key form, the camera switch, the recipe modal, the
    history modal and the success toast.  They are kept in a record of
    their own beside the world, and these methods run in the same monad
    over the pair. *)
Module Controls.

Record Dialogs : Type := mkDialogs {
  apiSetup_hidden : bool;
  apiKeyInput_value : string;
  saveApiKeyBtn : Button;
  switchCameraBtn : Button;
  modal_hidden : bool;
  modalContent_innerHTML : string;
  historyModal_hidden : bool;
  body_overflow : string;
  success_message_el : option string;
  mediaDevices_supported : bool;
  revoked : list string
}.

Record Page : Type := mkPage {
  world : World;
  dialogs : Dialogs
}.

Definition with_apiSetup_hidden (b : bool) (d : Dialogs) :=
  mkDialogs b (apiKeyInput_value d) (saveApiKeyBtn d) (switchCameraBtn d) (modal_hidden d)
            (modalContent_innerHTML d) (historyModal_hidden d) (body_overflow d)
            (success_message_el d) (mediaDevices_supported d) (revoked d).
Definition with_saveApiKeyBtn (b : Button) (d : Dialogs) :=
  mkDialogs (apiSetup_hidden d) (apiKeyInput_value d) b (switchCameraBtn d) (modal_hidden d)
            (modalContent_innerHTML d) (historyModal_hidden d) (body_overflow d)
            (success_message_el d) (mediaDevices_supported d) (revoked d).
Definition with_switchCameraBtn (b : Button) (d : Dialogs) :=
  mkDialogs (apiSetup_hidden d) (apiKeyInput_value d) (saveApiKeyBtn d) b (modal_hidden d)
            (modalContent_innerHTML d) (historyModal_hidden d) (body_overflow d)
            (success_message_el d) (mediaDevices_supported d) (revoked d).
Definition with_modal (hidden : bool) (d : Dialogs) :=
  mkDialogs (apiSetup_hidden d) (apiKeyInput_value d) (saveApiKeyBtn d) (switchCameraBtn d)
            hidden (modalContent_innerHTML d) (historyModal_hidden d) (body_overflow d)
            (success_message_el d) (mediaDevices_supported d) (revoked d).
Definition with_modalContent (html : string) (d : Dialogs) :=
  mkDialogs (apiSetup_hidden d) (apiKeyInput_value d) (saveApiKeyBtn d) (switchCameraBtn d)
            (modal_hidden d) html (historyModal_hidden d) (body_overflow d)
            (success_message_el d) (mediaDevices_supported d) (revoked d).
Definition with_historyModal (hidden : bool) (d : Dialogs) :=
  mkDialogs (apiSetup_hidden d) (apiKeyInput_value d) (saveApiKeyBtn d) (switchCameraBtn d)
            (modal_hidden d) (modalContent_innerHTML d) hidden (body_overflow d)
            (success_message_el d) (mediaDevices_supported d) (revoked d).
Definition with_body_overflow (o : string) (d : Dialogs) :=
  mkDialogs (apiSetup_hidden d) (apiKeyInput_value d) (saveApiKeyBtn d) (switchCameraBtn d)
            (modal_hidden d) (modalContent_innerHTML d) (historyModal_hidden d) o
            (success_message_el d) (mediaDevices_supported d) (revoked d).
Definition with_success_message (m : option string) (d : Dialogs) :=
  mkDialogs (apiSetup_hidden d) (apiKeyInput_value d) (saveApiKeyBtn d) (switchCameraBtn d)
            (modal_hidden d) (modalContent_innerHTML d) (historyModal_hidden d)
            (body_overflow d) m (mediaDevices_supported d) (revoked d).
Definition with_revoked (url : string) (d : Dialogs) :=
  mkDialogs (apiSetup_hidden d) (apiKeyInput_value d) (saveApiKeyBtn d) (switchCameraBtn d)
            (modal_hidden d) (modalContent_innerHTML d) (historyModal_hidden d)
            (body_overflow d) (success_message_el d) (mediaDevices_supported d)
            (url :: revoked d).

(** ** The monad over the page *)

Definition P (A : Type) : Type := Page -> Completion A * Page.

Definition unit_of {A} (a : A) : P A := fun p => (Normal a, p).

Definition then_do {A B} (m : P A) (k : A -> P B) : P B :=
  fun p => match m p with
           | (Normal a, p') => k a p'
           | (Throw e, p') => (Throw e, p')
           end.

(** A method of the analysis, run on the world of the page. *)
Definition run {A} (m : M A) : P A :=
  fun p => let '(r, w) := m (world p) in (r, mkPage w (dialogs p)).

Definition read {A} (f : Dialogs -> A) : P A := fun p => (Normal (f (dialogs p)), p).

Definition change (f : Dialogs -> Dialogs) : P unit :=
  fun p => (Normal tt, mkPage (world p) (f (dialogs p))).

Definition catching {A} (body : P A) (handler : JSError -> P A) : P A :=
  fun p => match body p with
           | (Throw e, p') => handler e p'
           | done => done
           end.

Definition finally {A} (body : P A) (cleanup : P unit) : P A :=
  fun p => match body p with
           | (r, p') => match cleanup p' with
                        | (Normal _, p'') => (r, p'')
                        | (Throw e, p'') => (Throw e, p'')
                        end
           end.

Declare Scope page_scope.
Delimit Scope page_scope with page.
Notation "x <- m ;; k" := (then_do m (fun x => k))
  (at level 20, m at level 99, k at level 200, only parsing) : page_scope.
Notation "m ;; k" := (then_do m (fun _ => k))
  (at level 100, k at level 200, only parsing, right associativity) : page_scope.
Open Scope page_scope.

(** ** Messages and the key form *)

Definition showError (message : string) : P unit := run (FoodAnalyzerApp.showError message).

Definition showSuccess (message : string) : P unit :=
  change (with_success_message (Some message)).

Definition showApiSetup : P unit :=
  change (with_apiSetup_hidden false) ;;
  run (modify (on_app (fun a => with_analyzeBtn
                                  (mkButton (textContent (analyzeBtn a)) true
                                            (display (analyzeBtn a))) a))) ;;
  run (modify (on_app (fun a => with_analyzeBtn
                                  (mkButton "🔑 Enter API Key First" (disabled (analyzeBtn a))
                                            (display (analyzeBtn a))) a))).

Definition hideApiSetup : P unit :=
  change (with_apiSetup_hidden true) ;;
  run (modify (on_app (fun a => with_analyzeBtn
                                  (mkButton (textContent (analyzeBtn a)) false
                                            (display (analyzeBtn a))) a))) ;;
  run (modify (on_app (fun a => with_analyzeBtn
                                  (mkButton "📸 Analyze Food" (disabled (analyzeBtn a))
                                            (display (analyzeBtn a))) a))).

(** [CameraManager.isSupported()] *)
Definition isSupported : P bool := read mediaDevices_supported.

Definition initializeCamera : P unit :=
  supported <- isSupported ;;
  if negb supported then showError "Camera not supported in this browser"
  else
    catching
      (success <- run CameraManager.initialize ;;
       if success
       then run (modify (on_app (fun a => with_analyzeBtn
                                            (mkButton (textContent (analyzeBtn a)) false
                                                      (display (analyzeBtn a))) a)))
       else unit_of tt)
      (fun _ => unit_of tt).

Definition saveApiKey : P unit :=
  input <- read apiKeyInput_value ;;
  let apiKey := trim input in
  if negb (truthy (JStr apiKey)) then showError "Please enter a valid API key"
  else
    finally
      (catching
         (change (fun d => with_saveApiKeyBtn
                             (mkButton "Testing..." (disabled (saveApiKeyBtn d))
                                       (display (saveApiKeyBtn d))) d) ;;
          change (fun d => with_saveApiKeyBtn
                             (mkButton (textContent (saveApiKeyBtn d)) true
                                       (display (saveApiKeyBtn d))) d) ;;
          run (GroqAPI.setApiKey apiKey) ;;
          run (GroqAPI.testConnection) ;;
          showSuccess "API key saved successfully!" ;;
          hideApiSetup ;;
          initializeCamera)
         (fun error =>
            showError ("API key test failed: " ++ error_message error) ;;
            run GroqAPI.clearApiKey))
      (change (fun d => with_saveApiKeyBtn
                          (mkButton "Save" (disabled (saveApiKeyBtn d))
                                    (display (saveApiKeyBtn d))) d) ;;
       change (fun d => with_saveApiKeyBtn
                          (mkButton (textContent (saveApiKeyBtn d)) false
                                    (display (saveApiKeyBtn d))) d)).

(** ** The camera buttons *)

Definition pauseCamera : P unit := run CameraManager.pauseStream.
Definition resumeCamera : P unit := run CameraManager.resumeStream.

Definition switchCamera : P unit :=
  finally
    (catching
       (change (fun d => with_switchCameraBtn
                           (mkButton (textContent (switchCameraBtn d)) true
                                     (display (switchCameraBtn d))) d) ;;
        change (fun d => with_switchCameraBtn
                           (mkButton "🔄 Switching..." (disabled (switchCameraBtn d))
                                     (display (switchCameraBtn d))) d) ;;
        success <- run CameraManager.switchCamera ;;
        if success then showSuccess "Camera switched successfully!"
        else showError "Failed to switch camera")
       (fun _ => showError "Failed to switch camera"))
    (change (fun d => with_switchCameraBtn
                        (mkButton (textContent (switchCameraBtn d)) false
                                  (display (switchCameraBtn d))) d) ;;
     change (fun d => with_switchCameraBtn
                        (mkButton "🔄 Switch" (disabled (switchCameraBtn d))
                                  (display (switchCameraBtn d))) d)).

(** ** The recipe modal *)

Definition showRecipe (index : Z) : P unit :=
  recipe <- run (GroqAPI.getRecipe index) ;;
  if negb (truthy recipe) then unit_of tt
  else
    html <- run (lift (GroqAPI.formatRecipeForDisplay recipe)) ;;
    change (with_modalContent html) ;;
    change (with_modal false) ;;
    change (with_body_overflow "hidden").

Definition hideModal : P unit :=
  change (with_modal true) ;;
  change (with_body_overflow "").

(** ** The history modal *)

Definition hideHistory : P unit :=
  change (with_historyModal true) ;;
  change (with_body_overflow "").

(** [history.find(h => h.id === id)] for a number [id]. *)
Fixpoint find_by_id (id : Z) (l : list JSValue) : Completion JSValue :=
  match l with
  | [] => Normal JUndefined
  | h :: rest =>
      match get h "id" with
      | Throw e => Throw e
      | Normal (JNum n) => if n =? id then Normal h else find_by_id id rest
      | Normal _ => find_by_id id rest
      end
  end.

Definition find (history : JSValue) (id : Z) : Completion JSValue :=
  match history with
  | JArr l => find_by_id id l
  | JUndefined => Throw (TypeError "Cannot read properties of undefined (reading 'find')")
  | JNull => Throw (TypeError "Cannot read properties of null (reading 'find')")
  | _ => Throw (TypeError "history.find is not a function")
  end.

Definition loadHistoryItem (id : Z) : P unit :=
  history <- run FoodAnalyzerApp.getHistory ;;
  item <- run (lift (find history id)) ;;
  if truthy item then
    rs <- run (lift (get item "recipes")) ;;
    run (GroqAPI.set_recipes rs) ;;
    hideHistory ;;
    foodDetected <- run (lift (get item "foodDetected")) ;;
    run (modify (on_app (with_foodDetectedEl (FoodAnalyzerApp.as_textContent foodDetected)))) ;;
    run (modify (on_app (fun a => with_audioPlayer (audioPlayer_src a) "none" a))) ;;
    btns <- run (gets (fun w => recipeButtons (app w))) ;;
    rs' <- run (lift (get item "recipes")) ;;
    (let '(btns', r) := FoodAnalyzerApp.label_buttons rs' 0 btns in
     run (modify (on_app (with_recipeButtons btns'))) ;;
     match r with
     | Some e => run (throw e)
     | None => unit_of tt
     end) ;;
    run (modify (on_app (with_results_hidden false))) ;;
    showSuccess "Loaded from history!"
  else unit_of tt.

(** [confirmed] is what the user answers to the confirmation. *)
Definition clearHistory (confirmed : bool) : P unit :=
  if confirmed then
    catching
      (run (localStorage_removeItem "analysis_history") ;;
       hideHistory ;;
       showSuccess "History cleared successfully!")
      (fun _ => showError "Failed to clear history")
  else unit_of tt.

(** ** Leaving the page *)

(** [audioPlayer.src] holds an object URL once audio was attached, and
    the empty string before; an object URL is revoked by the audio it
    was made for. *)
Definition destroy : P unit :=
  run CameraManager.destroy ;;
  src <- run (gets (fun w => audioPlayer_src (app w))) ;;
  match src with
  | Some url => change (with_revoked url)
  | None => unit_of tt
  end.

End Controls.

(* ===================================================================== *)
(** * Facts about the platform model: the JSON codec round-trips *)
(* ===================================================================== *)

Module JSONFacts.
Import JSON.

Lemma append_assoc (a b c : string) : (a ++ b) ++ c = a ++ (b ++ c).
Proof. induction a as [|x a IH]; simpl; [reflexivity | now rewrite IH]. Qed.

Lemma append_length (a b : string) :
  String.length (a ++ b) = (String.length a + String.length b)%nat.
Proof. induction a as [|x a IH]; simpl; [reflexivity | now rewrite IH]. Qed.

(** ** String literals *)

Definition after (c : ascii) (r : option (string * string)) : option (string * string) :=
  match r with
  | Some (t, rest) => Some (String c t, rest)
  | None => None
  end.

Lemma body_plain (c : ascii) (r : string) :
  Ascii.eqb c dq = false -> Ascii.eqb c "\" = false -> (nat_of_ascii c <? 32)%nat = false ->
  parse_string_body (String c r) = after c (parse_string_body r).
Proof. intros H1 H2 H3. simpl. rewrite H1, H2, H3. reflexivity. Qed.

Lemma body_unicode (x y : ascii) (r : string) :
  parse_string_body (String "\" (String "u" (String "0" (String "0" (String x (String y r))))))
  = match unicode_escape "0" "0" x y, parse_string_body r with
    | Some u, Some (t, rest) => Some (u ++ t, rest)
    | _, _ => None
    end.
Proof. reflexivity. Qed.

Lemma parse_escape_char (c : ascii) (t s rest : string) :
  parse_string_body s = Some (t, rest) ->
  parse_string_body (escape_char c ++ s) = Some (String c t, rest).
Proof.
  intros H.
  destruct c as [[] [] [] [] [] [] [] []];
    match goal with
    | |- context [escape_char ?c] =>
        let e := eval vm_compute in (escape_char c) in change (escape_char c) with e
    end;
    simpl append;
    first
      [ rewrite body_plain by reflexivity; rewrite H; reflexivity
      | rewrite body_unicode;
        match goal with
        | |- context [unicode_escape ?a ?b ?x ?y] =>
            let u := eval vm_compute in (unicode_escape a b x y) in
            change (unicode_escape a b x y) with u
        end;
        rewrite H; reflexivity
      | simpl; rewrite H; reflexivity ].
Qed.

Lemma parse_escape (s rest : string) :
  parse_string_body (escape s ++ String dq rest) = Some (s, rest).
Proof.
  induction s as [|c s IH]; simpl.
  - reflexivity.
  - rewrite append_assoc. now apply parse_escape_char.
Qed.

(** ** Numbers *)

Definition number_end (s : string) : bool :=
  match s with
  | EmptyString => true
  | String c _ =>
      match digit_of c with
      | Some _ => false
      | None => negb (starts_fraction s)
      end
  end.

Lemma take_digits_string_of_uint (d : Decimal.uint) (rest : string) :
  number_end rest = true ->
  take_digits (NilEmpty.string_of_uint d ++ rest) = (d, rest).
Proof.
  intros Hend.
  induction d; simpl; rewrite ?IHd; try reflexivity.
  destruct rest as [|c r]; [reflexivity|].
  simpl in *. destruct (digit_of c); [discriminate | reflexivity].
Qed.

Lemma number_end_fraction (rest : string) :
  number_end rest = true -> starts_fraction rest = false.
Proof.
  destruct rest as [|c r]; [reflexivity|].
  unfold number_end. destruct (digit_of c); [discriminate|].
  now destruct (starts_fraction (String c r)).
Qed.

Lemma to_uint_no_leading_zero (n : N) (u : Decimal.uint) :
  N.to_uint n = Decimal.D0 u -> u = Decimal.Nil /\ n = 0%N.
Proof.
  intros H.
  assert (Hn : Decimal.unorm (N.to_uint n) = N.to_uint n).
  { rewrite <- DecimalN.Unsigned.to_of, DecimalN.Unsigned.of_to. reflexivity. }
  assert (Hu : u = Decimal.Nil).
  { destruct u; [reflexivity | exfalso ..];
      rewrite H, DecimalFacts.unorm_D0 in Hn;
      match type of Hn with
      | Decimal.unorm ?x = _ =>
          assert (Hd : x <> Decimal.Nil) by discriminate;
          pose proof (DecimalFacts.nb_digits_unorm x Hd) as Hle;
          rewrite Hn in Hle; simpl in Hle; lia
      end. }
  split; [exact Hu|]. subst u.
  destruct n as [|p]; [reflexivity|].
  exfalso. exact (DecimalPos.Unsigned.to_uint_nonzero p H).
Qed.

Lemma parse_natural_string_of_N (n : N) (rest : string) :
  number_end rest = true ->
  parse_natural (string_of_N n ++ rest) = Some (n, rest).
Proof.
  intros Hend. unfold parse_natural, string_of_N.
  rewrite take_digits_string_of_uint by assumption.
  rewrite (number_end_fraction _ Hend).
  destruct (N.to_uint n) as [|u|u|u|u|u|u|u|u|u|u] eqn:E;
    try (rewrite <- E, DecimalN.Unsigned.of_to; reflexivity).
  - destruct n; [discriminate | exfalso; exact (DecimalPos.Unsigned.to_uint_nonnil _ E)].
  - destruct (to_uint_no_leading_zero n u E) as [-> ->]. reflexivity.
Qed.

Lemma string_of_N_head (n : N) :
  exists c r, string_of_N n = String c r /\ digit_of c <> None.
Proof.
  unfold string_of_N.
  destruct (N.to_uint n) eqn:E; simpl; try (eexists _, _; split; [reflexivity | discriminate]).
  destruct n; [discriminate | exfalso; exact (DecimalPos.Unsigned.to_uint_nonnil _ E)].
Qed.

Lemma parse_number_natural (n : N) (rest : string) :
  number_end rest = true ->
  parse_number (string_of_N n ++ rest) = Some (JNum (Z.of_N n), rest).
Proof.
  intros Hend.
  destruct (string_of_N_head n) as (c & r & Hs & Hc).
  pose proof (parse_natural_string_of_N n rest Hend) as Hp.
  rewrite Hs in *. simpl append in *. unfold parse_number.
  destruct (Ascii.eqb_spec c "-") as [->|Hne]; [now elim Hc|].
  rewrite Hp. reflexivity.
Qed.

Lemma parse_number_string_of_Z (z : Z) (rest : string) :
  number_end rest = true ->
  parse_number (string_of_Z z ++ rest) = Some (JNum z, rest).
Proof.
  intros Hend. destruct z as [|p|p]; unfold string_of_Z.
  - exact (parse_number_natural 0 rest Hend).
  - exact (parse_number_natural (N.pos p) rest Hend).
  - simpl append. unfold parse_number. simpl Ascii.eqb. cbv iota.
    rewrite parse_natural_string_of_N by assumption. reflexivity.
Qed.

(** ** Values *)

Inductive json_wf : JSValue -> Prop :=
| wf_null : json_wf JNull
| wf_bool b : json_wf (JBool b)
| wf_num n : json_wf (JNum n)
| wf_str s : json_wf (JStr s)
| wf_arr l : Forall json_wf l -> json_wf (JArr l)
| wf_obj fs :
    NoDup (map fst fs) -> Forall (fun kv => json_wf (snd kv)) fs -> json_wf (JObj fs).

Fixpoint size (v : JSValue) : nat :=
  match v with
  | JArr l => S (list_sum (map (fun x => S (size x)) l))
  | JObj fs => S (list_sum (map (fun kv => S (size (snd kv))) fs))
  | _ => 1
  end.

Definition member_text (kv : string * JSValue) : string :=
  quote (fst kv) ++ ":" ++ stringify (snd kv).

Lemma stringify_obj (fs : list (string * JSValue)) :
  Forall (fun kv => json_wf (snd kv)) fs ->
  stringify (JObj fs) = "{" ++ join "," (map member_text fs) ++ "}".
Proof.
  intros H. simpl.
  match goal with
  | |- context [join "," (?F fs)] =>
      assert (E : F fs = map member_text fs); [|rewrite E; reflexivity]
  end.
  induction H as [|[k x] fs Hx _ IH]; [reflexivity|].
  simpl in Hx. destruct Hx; simpl; rewrite IH; reflexivity.
Qed.

Definition value_start (c : ascii) : bool :=
  match digit_of c with
  | Some _ => true
  | None =>
      Ascii.eqb c "n" || Ascii.eqb c "t" || Ascii.eqb c "f" || Ascii.eqb c dq
      || Ascii.eqb c "[" || Ascii.eqb c "{" || Ascii.eqb c "-"
  end.

Lemma string_of_Z_start (z : Z) :
  exists c y, string_of_Z z = String c y /\ value_start c = true
              /\ (Ascii.eqb c "n" || Ascii.eqb c "t" || Ascii.eqb c "f" || Ascii.eqb c dq
                  || Ascii.eqb c "[" || Ascii.eqb c "{") = false.
Proof.
  assert (Hd : forall c, digit_of c <> None ->
                 value_start c = true /\
                 (Ascii.eqb c "n" || Ascii.eqb c "t" || Ascii.eqb c "f" || Ascii.eqb c dq
                  || Ascii.eqb c "[" || Ascii.eqb c "{") = false).
  { intros c. destruct c as [[] [] [] [] [] [] [] []]; cbn; intros H;
      try (now elim H); split; reflexivity. }
  destruct z as [|p|p]; unfold string_of_Z.
  - eexists _, _. split; [reflexivity|]. split; reflexivity.
  - destruct (string_of_N_head (N.pos p)) as (c & r & -> & Hc).
    exists c, r. split; [reflexivity | now apply Hd].
  - eexists _, _. split; [reflexivity|]. split; reflexivity.
Qed.

Lemma stringify_start (v : JSValue) :
  json_wf v -> exists c y, stringify v = String c y /\ value_start c = true.
Proof.
  intros H. destruct H as [| [] | n | s | l _ | fs _ _]; simpl;
    try (eexists _, _; split; reflexivity).
  destruct (string_of_Z_start n) as (c & y & -> & Hc & _). now exists c, y.
Qed.

Lemma skip_ws_start (c : ascii) (y : string) :
  value_start c = true -> skip_ws (String c y) = String c y.
Proof.
  intros H. simpl.
  replace (is_json_ws c) with false; [reflexivity|].
  destruct c as [[] [] [] [] [] [] [] []]; try reflexivity; discriminate.
Qed.

Lemma closes_start (c : ascii) (y : string) :
  value_start c = true -> closes "]" (String c y) = None.
Proof.
  intros H. destruct c as [[] [] [] [] [] [] [] []]; try reflexivity; discriminate.
Qed.

Definition elements_size (l : list JSValue) : nat :=
  list_sum (map (fun x => S (size x)) l).
Definition members_size (fs : list (string * JSValue)) : nat :=
  list_sum (map (fun kv => S (size (snd kv))) fs).

Lemma set_field_fresh (k : string) (v : JSValue) (acc : list (string * JSValue)) :
  ~ In k (map fst acc) -> set_field k v acc = (acc ++ [(k, v)])%list.
Proof.
  induction acc as [|[k' v'] acc IH]; simpl; intros H; [reflexivity|].
  destruct (String.eqb_spec k k') as [->|Hne]; [tauto|].
  rewrite IH by tauto. reflexivity.
Qed.

Lemma build_object_nodup (fs : list (string * JSValue)) :
  NoDup (map fst fs) -> build_object fs = JObj fs.
Proof.
  unfold build_object. intros H. f_equal.
  change fs with ([] ++ fs)%list at 2.
  assert (Hacc : NoDup (map fst ([] ++ fs)%list)) by exact H.
  clear H. revert Hacc. generalize (@nil (string * JSValue)) as acc.
  induction fs as [|[k v] fs IH]; intros acc H; simpl.
  - now rewrite app_nil_r.
  - rewrite set_field_fresh.
    + rewrite IH; rewrite <- app_assoc; [reflexivity | exact H].
    + rewrite map_app in H. simpl in H. apply NoDup_app in H as (_ & H & _).
      intros Hin. apply list_elem_of_In in Hin. apply (H k Hin). left.
Qed.

Lemma number_end_comma (r : string) : number_end (String "," r) = true.
Proof. reflexivity. Qed.
Lemma number_end_bracket (r : string) : number_end (String "]" r) = true.
Proof. reflexivity. Qed.
Lemma number_end_brace (r : string) : number_end (String "}" r) = true.
Proof. reflexivity. Qed.

Lemma parse_value_number (fuel : nat) (z : Z) (rest : string) :
  number_end rest = true ->
  parse_value (S fuel) (string_of_Z z ++ rest) = Some (JNum z, rest).
Proof.
  intros Hend.
  pose proof (parse_number_string_of_Z z rest Hend) as Hp.
  destruct (string_of_Z_start z) as (c & y & Hs & Hc & Hno).
  rewrite Hs in *. simpl append in *.
  cbn [parse_value]. rewrite skip_ws_start by assumption.
  repeat (apply orb_false_elim in Hno; destruct Hno as [Hno ?]).
  repeat match goal with H : Ascii.eqb _ _ = false |- _ => rewrite H; clear H end.
  exact Hp.
Qed.

Lemma parse_value_array (fuel : nat) (r : string) :
  parse_value (S fuel) (String "[" r)
  = match closes "]" (skip_ws r) with
    | Some rest => Some (JArr [], rest)
    | None => match parse_elements fuel r with
              | Some (l, rest) => Some (JArr l, rest)
              | None => None
              end
    end.
Proof. reflexivity. Qed.

Lemma parse_value_object (fuel : nat) (r : string) :
  parse_value (S fuel) (String "{" r)
  = match closes "}" (skip_ws r) with
    | Some rest => Some (JObj [], rest)
    | None => match parse_members fuel r with
              | Some (m, rest) => Some (build_object m, rest)
              | None => None
              end
    end.
Proof. reflexivity. Qed.

Lemma parse_value_string (fuel : nat) (r : string) :
  parse_value (S fuel) (String dq r)
  = match parse_string_body r with
    | Some (t, rest) => Some (JStr t, rest)
    | None => None
    end.
Proof. reflexivity. Qed.

Lemma join_cons (sep x : string) (y : string) (l : list string) :
  join sep (x :: y :: l) = x ++ sep ++ join sep (y :: l).
Proof. reflexivity. Qed.

Lemma round_trip_fuel (fuel : nat) :
  (forall v rest, json_wf v -> (size v <= fuel)%nat -> number_end rest = true ->
     parse_value fuel (stringify v ++ rest) = Some (v, rest))
  /\ (forall v l rest, Forall json_wf (v :: l) -> (elements_size (v :: l) <= fuel)%nat ->
        parse_elements fuel (join "," (map stringify (v :: l)) ++ String "]" rest)
        = Some (v :: l, rest))
  /\ (forall kv fs rest, Forall (fun kv => json_wf (snd kv)) (kv :: fs) ->
        (members_size (kv :: fs) <= fuel)%nat ->
        parse_members fuel (join "," (map member_text (kv :: fs)) ++ String "}" rest)
        = Some (kv :: fs, rest)).
Proof.
  induction fuel as [|fuel (IHv & IHe & IHm)].
  { repeat split; intros; exfalso.
    - destruct v; simpl in *; lia.
    - unfold elements_size in *; simpl in *; lia.
    - unfold members_size in *; simpl in *; lia. }
  repeat split.
  - (* values *)
    intros v rest Hwf Hsize Hend.
    destruct Hwf as [| [] | n | s | l Hl | fs Hnd Hfs].
    + reflexivity.
    + reflexivity.
    + reflexivity.
    + now apply parse_value_number.
    + simpl stringify. unfold quote. cbn [append]. rewrite append_assoc. cbn [append].
      rewrite parse_value_string, parse_escape. reflexivity.
    + destruct l as [|v l].
      * reflexivity.
      * change (stringify (JArr (v :: l)))
          with ("[" ++ join "," (map stringify (v :: l)) ++ "]").
        cbn [append]. rewrite append_assoc. cbn [append].
        assert (Hr := IHe v l rest Hl).
        destruct (stringify_start v (Forall_inv Hl)) as (c & y & Hs & Hc).
        assert (Hhead : exists y', join "," (map stringify (v :: l)) ++ String "]" rest
                                   = String c y').
        { destruct l; simpl map; [simpl join | rewrite join_cons];
            rewrite Hs; cbn [append]; eauto. }
        destruct Hhead as (y' & Hy). rewrite Hy in *.
        rewrite parse_value_array, skip_ws_start, closes_start by assumption.
        rewrite Hr; [reflexivity|]. simpl in Hsize. unfold elements_size. simpl. lia.
    + rewrite stringify_obj by assumption.
      destruct fs as [|kv fs].
      * reflexivity.
      * cbn [append]. rewrite append_assoc. cbn [append].
        assert (Hr := IHm kv fs rest Hfs).
        assert (Hhead : exists y', join "," (map member_text (kv :: fs)) ++ String "}" rest
                                   = String dq y').
        { destruct fs; simpl map; [simpl join | rewrite join_cons];
            unfold member_text at 1, quote; cbn [append]; eauto. }
        destruct Hhead as (y' & Hy). rewrite Hy in *.
        rewrite parse_value_object.
        change (closes "}" (skip_ws (String dq y'))) with (@None string).
        rewrite Hr; [now rewrite build_object_nodup|].
        simpl in Hsize. unfold members_size. simpl. lia.
  - (* elements *)
    intros v l rest Hall Hsize.
    cbn [parse_elements].
    unfold elements_size in Hsize. simpl in Hsize.
    destruct l as [|v' l].
    + simpl map. simpl join.
      rewrite IHv; [reflexivity | now inversion Hall | lia | reflexivity].
    + change (join "," (map stringify (v :: v' :: l)))
        with (stringify v ++ "," ++ join "," (map stringify (v' :: l))).
      set (J := join "," (map stringify (v' :: l))) in *.
      rewrite !append_assoc. cbn [append].
      rewrite IHv; [| now inversion Hall | simpl in Hsize; lia | reflexivity].
      simpl. subst J.
      rewrite IHe; [reflexivity | now inversion Hall |].
      unfold elements_size. simpl in Hsize |- *. lia.
  - (* members *)
    intros [k x] fs rest Hall Hsize.
    cbn [parse_members].
    unfold members_size in Hsize. simpl in Hsize.
    assert (Hx : json_wf x) by (now inversion Hall).
    destruct fs as [|kv' fs].
    + simpl map. simpl join. unfold member_text, quote. simpl fst. simpl snd.
      cbn [append]. rewrite !append_assoc. cbn [append].
      simpl. rewrite parse_escape. simpl.
      rewrite IHv; [reflexivity | assumption | lia | reflexivity].
    + change (join "," (map member_text ((k, x) :: kv' :: fs)))
        with (member_text (k, x) ++ "," ++ join "," (map member_text (kv' :: fs))).
      set (J := join "," (map member_text (kv' :: fs))) in *.
      unfold member_text, quote. simpl fst. simpl snd.
      cbn [append]. rewrite !append_assoc. cbn [append].
      simpl. rewrite parse_escape. simpl.
      rewrite IHv; [| assumption | simpl in Hsize; lia | reflexivity].
      simpl. subst J.
      rewrite IHm; [reflexivity | now inversion Hall |].
      unfold members_size. simpl in Hsize |- *. lia.
Qed.

Lemma join_length_bound {A} (f : A -> string) (g : A -> nat) (l : list A) :
  Forall (fun x => (g x <= String.length (f x))%nat) l ->
  (list_sum (map (fun x => S (g x)) l) <= S (String.length (join "," (map f l))))%nat.
Proof.
  induction 1 as [|x l Hx Hl IH]; [simpl; lia|].
  destruct l as [|y l].
  - simpl. lia.
  - change (join "," (map f (x :: y :: l)))
      with (f x ++ "," ++ join "," (map f (y :: l))).
    rewrite !append_length. simpl in IH |- *. lia.
Qed.

Lemma size_le_length (v : JSValue) :
  json_wf v -> (size v <= String.length (stringify v))%nat.
Proof.
  assert (Hle : (size v <= size v)%nat) by lia.
  revert Hle. generalize (size v) at 2 as n. intros n. revert v.
  induction n as [|n IH]; intros v Hle Hwf.
  { destruct v; simpl in Hle; lia. }
  destruct Hwf as [| [] | z | s | l Hl | fs Hnd Hfs]; try (simpl; lia).
  - destruct (string_of_Z_start z) as (c & y & Hs & _). simpl. rewrite Hs. simpl. lia.
  - change (stringify (JArr l)) with ("[" ++ join "," (map stringify l) ++ "]").
    rewrite !append_length.
    assert (H : Forall (fun x => (size x <= String.length (stringify x))%nat) l).
    { rewrite Forall_forall in *. intros x Hx. apply IH; [|now apply Hl].
      simpl in Hle. apply list_elem_of_In, in_split in Hx as (l1 & l2 & ->).
      rewrite map_app, list_sum_app in Hle. simpl in Hle. lia. }
    pose proof (join_length_bound stringify size l H).
    change (size (JArr l)) with (S (list_sum (map (fun x => S (size x)) l))).
    cbn [String.length]. lia.
  - rewrite stringify_obj by assumption. rewrite !append_length.
    assert (H : Forall (fun kv => (size (snd kv) <= String.length (member_text kv))%nat) fs).
    { rewrite Forall_forall in *. intros [k x] Hx. simpl.
      unfold member_text, quote. simpl fst. simpl snd. cbn [append String.length].
      rewrite !append_length. cbn [String.length].
      assert (size x <= String.length (stringify x))%nat; [|lia].
      apply IH; [|now apply (Hfs (k, x))].
      simpl in Hle. apply list_elem_of_In, in_split in Hx as (l1 & l2 & ->).
      rewrite map_app, list_sum_app in Hle. simpl in Hle. lia. }
    pose proof (join_length_bound member_text (fun kv => size (snd kv)) fs H).
    change (size (JObj fs)) with (S (list_sum (map (fun kv => S (size (snd kv))) fs))).
    cbn [String.length]. lia.
Qed.

Theorem parse_stringify (v : JSValue) :
  json_wf v -> parse (stringify v) = Some v.
Proof.
  intros Hwf. unfold parse.
  destruct (round_trip_fuel (S (String.length (stringify v)))) as (Hv & _).
  specialize (Hv v "" Hwf).
  replace (stringify v ++ "") with (stringify v) in Hv.
  - rewrite Hv; [reflexivity | | reflexivity].
    pose proof (size_le_length v Hwf). lia.
  - clear. induction (stringify v) as [|c s IH]; simpl; [reflexivity | now rewrite <- IH].
Qed.

(** ** What the parser can return *)

Lemma parse_value_defined (fuel : nat) (s rest : string) (v : JSValue) :
  parse_value fuel s = Some (v, rest) -> v <> JUndefined.
Proof.
  destruct fuel as [|fuel]; [discriminate|].
  cbn [parse_value]. destruct (skip_ws s) as [|c r]; [discriminate|].
  unfold expect, parse_number, build_object.
  repeat match goal with
         | |- context [if ?b then _ else _] => destruct b
         | |- context [match ?x with _ => _ end] => destruct x
         | p : _ * _ |- _ => destruct p
         end;
    intros H; try discriminate; injection H as <- _; discriminate.
Qed.

Lemma parse_defined (s : string) : parse s <> Some JUndefined.
Proof.
  unfold parse.
  destruct (parse_value (S (String.length s)) s) as [[v rest]|] eqn:E; [|discriminate].
  apply parse_value_defined in E.
  destruct (skip_ws rest); congruence.
Qed.

End JSONFacts.

(* ===================================================================== *)
(** * The data the instruction asks for, and sample pages *)
(* ===================================================================== *)

Module Data.

(** One recipe of the shape spelled out in [GroqAPI.instruction]. *)
Record RecipeSuggestion : Type := mkRecipe {
  recipe_name : string;
  recipe_description : string;
  recipe_ingredients : list string;
  recipe_instructions : list string;
  recipe_cookingTime : string;
  recipe_difficulty : string
}.

Record AnalysisResult : Type := mkAnalysis {
  result_foodDetected : string;
  result_recipes : list RecipeSuggestion
}.

Definition js_of_recipe (r : RecipeSuggestion) : JSValue :=
  JObj [ ("name", JStr (recipe_name r));
         ("description", JStr (recipe_description r));
         ("ingredients", JArr (map JStr (recipe_ingredients r)));
         ("instructions", JArr (map JStr (recipe_instructions r)));
         ("cookingTime", JStr (recipe_cookingTime r));
         ("difficulty", JStr (recipe_difficulty r)) ].

Definition js_of_recipes (l : list RecipeSuggestion) : JSValue :=
  JArr (map js_of_recipe l).

Definition js_of_analysis (a : AnalysisResult) : JSValue :=
  JObj [ ("foodDetected", JStr (result_foodDetected a));
         ("recipes", js_of_recipes (result_recipes a)) ].



End Data.

Module Samples.
Import Data.

Definition bruschetta : RecipeSuggestion :=
  mkRecipe "Bruschetta" "Toasted bread with tomato" ["bread"; "tomato"]
           ["Toast the bread"; "Top with tomato"] "10 minutes" "Easy".
Definition soup : RecipeSuggestion :=
  mkRecipe "Tomato soup" "A warm soup" ["tomato"; "bread"]
           ["Simmer the tomato"; "Serve with bread"] "30 minutes" "Medium".
Definition pappa : RecipeSuggestion :=
  mkRecipe "Pappa al pomodoro" "A Tuscan bread stew" ["bread"; "tomato"]
           ["Soak the bread"; "Stew with tomato"] "40 minutes" "Hard".

Definition tomato_and_bread (l : list RecipeSuggestion) : AnalysisResult :=
  mkAnalysis "tomato and bread" l.

(** A vision response whose [choices[0].message.content] is [content]. *)
Definition completion_of (content : string) : JSValue :=
  JObj [ ("choices",
          JArr [ JObj [ ("message", JObj [ ("role", JStr "assistant");
                                           ("content", JStr content) ]) ] ]) ].

Definition completion (content : string) : Response :=
  mkResponse 200 (JSON.stringify (completion_of content)).

Definition button : Button := mkButton "Recipe" true "".

(** A page with [key] in memory, an initialised rear camera delivering
    [width] x [height] frames, three recipe buttons, empty storage areas
    in the given modes, [outcomes] waiting on the network and [media] on
    the device. *)
Definition page (key : option string) (width height : Z) (local session : StorageMode)
           (outcomes : list FetchOutcome) (media : list MediaOutcome) : World :=
  mkWorld (mkGroqAPI key (JArr []))
          (mkCamera (Some 0%nat) true (Some 0%nat) "" "1" 0 0 [])
          (mkApp false true true (mkButton "📸 Analyze Food" false "") "" None "none"
                 [button; button; button] None "")
          (mkEnv (mkStorage ∅ local) (mkStorage ∅ session)
                 1700000000000 "2023-11-14T22:13:20.000Z"
                 outcomes [] media []
                 [mkStream (Some "environment") width height true true]).

Definition photo : DataURL := CanvasData "image/jpeg" 0.7%float 1024 768.

End Samples.

(* ===================================================================== *)
(** * Facts about [GroqAPI] *)
(* ===================================================================== *)

Module GroqFacts.
Import GroqAPI Data Samples JSONFacts.

(** ** The credential *)

(** The test of [isConfigured] on a key. *)
Definition key_ok (k : option string) : bool :=
  match k with
  | Some s => truthy (JStr s) && (0 <? Z.of_nat (String.length (trim s)))
  | None => false
  end.

(** The key [getApiKey] arrives at: the one in memory, else the durable
    copy, else the session copy. *)
Definition found_key (g : GroqAPIObject) (local session : Storage) : option string :=
  if no_key (apiKey g) then
    match Storage_getItem "groq_api_key" local with
    | Throw _ => None
    | Normal v =>
        if no_key v then
          match Storage_getItem "groq_api_key" session with
          | Throw _ => None
          | Normal v' => v'
          end
        else v
    end
  else apiKey g.

Definition current_key (w : World) : option string :=
  found_key (groqAPI w) (localStorage (env w)) (sessionStorage (env w)).

Lemma getApiKey_run (w : World) :
  getApiKey w = (Normal (current_key w), on_groq (with_apiKey (current_key w)) w).
Proof.
  unfold current_key, found_key, getApiKey, bind, gets, try_catch, set_apiKey, modify,
    ret, localStorage_getItem, sessionStorage_getItem, Storage_getItem.
  destruct w as [[k rs] c a [[li lm] [si sm] t iso net snt dev ask strs]]; simpl.
  destruct (no_key k); [|reflexivity].
  destruct lm; simpl; try reflexivity;
    (destruct (no_key (li !! "groq_api_key")); simpl; [|reflexivity]);
    destruct sm; reflexivity.
Qed.

Lemma isConfigured_run (w : World) :
  isConfigured w = (Normal (key_ok (current_key w)),
                    on_groq (with_apiKey (current_key w)) w).
Proof. unfold isConfigured, bind. rewrite getApiKey_run. reflexivity. Qed.

Lemma configured_key (w : World) :
  fst (isConfigured w) = Normal true -> key_ok (current_key w) = true.
Proof. rewrite isConfigured_run. simpl. congruence. Qed.

Lemma key_ok_has_key (k : option string) : key_ok k = true -> no_key k = false.
Proof.
  destruct k as [s|]; [|discriminate].
  unfold key_ok, no_key. destruct (truthy (JStr s)); simpl; [reflexivity | discriminate].
Qed.

Lemma getApiKey_cached (k : option string) (w : World) :
  no_key k = false ->
  getApiKey (on_groq (with_apiKey k) w) = (Normal k, on_groq (with_apiKey k) w).
Proof.
  intros H. unfold getApiKey, bind, gets. simpl. rewrite H. reflexivity.
Qed.

(** ** One network exchange *)

Lemma try_catch_rethrow {A} (body : M A) (w : World) :
  try_catch body (fun error => throw error) w = body w.
Proof. unfold try_catch, throw. destruct (body w) as [[a|e] w']; reflexivity. Qed.

(** What [response.json().catch(() => ({}))] resolves to. *)
Definition errorData_of (r : Response) : JSValue :=
  match JSON.parse (text r) with
  | Some v => v
  | None => JObj []
  end.

(** [errorData.error?.message || fallback] as a value. *)
Definition message_of (errorData : JSValue) (fallback : string) : Completion string :=
  match get errorData "error" with
  | Throw e => Throw e
  | Normal e =>
      match match e with
            | JUndefined | JNull => Normal JUndefined
            | _ => get e "message"
            end with
      | Throw err => Throw err
      | Normal m => Normal (ToString (if truthy m then m else JStr fallback))
      end
  end.

(** What [label] and [fallback] turn a response outside 2xx into. *)
Definition refusal (label fallback : string) (r : Response) : JSError :=
  match message_of (errorData_of r) fallback with
  | Normal msg => Error (label ++ string_of_Z (status r) ++ " - " ++ msg)
  | Throw e => e
  end.

(** A response is passed on to [f] when its status is 2xx. *)
Definition checked {A} (label fallback : string) (f : Response -> Completion A)
           (r : Response) : Completion A :=
  if ok r then f r else Throw (refusal label fallback r).

(** How a call that maps a response through [f] completes, given what
    the network holds. *)
Definition settle {A} (f : Response -> Completion A) (outcomes : list FetchOutcome)
  : Completion A :=
  match outcomes with
  | Responds r :: _ => f r
  | Rejects e :: _ => Throw e
  | [] => Throw (TypeError "Failed to fetch")
  end.

(** The world once [rq] has been sent and answered. *)
Definition after_fetch (rq : Request) (w : World) : World :=
  on_env (with_network (tl (network (env w))) (sent (env w) ++ [rq])) w.

Lemma error_text_run (d : JSValue) (fallback : string) (w : World) :
  error_text d fallback w = (message_of d fallback, w).
Proof.
  unfold error_text, message_of, bind, lift, ret.
  destruct (get d "error") as [e|err]; [|reflexivity].
  destruct e; simpl; reflexivity.
Qed.

Lemma json_or_empty_run (r : Response) (w : World) :
  try_catch (Response_json r) (fun _ => ret (JObj [])) w = (Normal (errorData_of r), w).
Proof.
  unfold try_catch, Response_json, errorData_of.
  destruct (JSON.parse (text r)); reflexivity.
Qed.

Lemma fail_with_run (label fallback : string) (r : Response) (w : World) :
  fail_with label fallback r w = (Throw (refusal label fallback r), w).
Proof.
  unfold fail_with, refusal, bind. rewrite json_or_empty_run, error_text_run.
  destruct (message_of _ fallback); reflexivity.
Qed.

(** Only [null] makes reading the error envelope throw. *)
Lemma message_of_defined (d : JSValue) (fallback : string) :
  d <> JNull -> d <> JUndefined -> exists msg, message_of d fallback = Normal msg.
Proof.
  intros Hn Hu. unfold message_of.
  destruct d; try congruence; simpl; try (eexists; reflexivity).
  destruct (assoc "error" fields) as [e|]; [|eexists; reflexivity].
  destruct e; simpl; eexists; reflexivity.
Qed.

Lemma fetch_run (rq : Request) (w : World) :
  fetch rq w = (settle Normal (network (env w)), after_fetch rq w).
Proof.
  unfold fetch, settle, after_fetch.
  destruct (network (env w)) as [|[r|e] rest]; reflexivity.
Qed.

(** The shape shared by the three calls once the key is known to be
    configured: fetch, fail on a status outside 2xx, then continue with
    [k], which completes as [f] says and changes the world as [g] says. *)
Lemma exchange_run {A} (rq : Request) (label fallback : string)
      (k : Response -> M A) (f : Response -> Completion A) (g : Completion A -> World -> World)
      (w : World) :
  (forall r w', k r w' = (f r, g (f r) w')) ->
  (forall e w', g (Throw e) w' = w') ->
  bind (fetch rq)
       (fun response =>
          bind (if negb (ok response) then fail_with label fallback response else ret tt)
               (fun _ => k response)) w
  = (settle (checked label fallback f) (network (env w)),
     g (settle (checked label fallback f) (network (env w))) (after_fetch rq w)).
Proof.
  intros Hk Hg. unfold bind at 1. rewrite fetch_run.
  destruct (network (env w)) as [|[r|e] rest]; simpl; rewrite ?Hg; try reflexivity.
  unfold bind, checked. destruct (ok r) eqn:Hok; simpl.
  - now apply Hk.
  - now rewrite fail_with_run, Hg.
Qed.

(** ** The three calls *)

Definition test_request (k : option string) : Request :=
  mkRequest (baseUrl ++ "/chat/completions") "POST" (bearer k) "application/json"
            (ChatText visionModel "Hello, this is a test message." 10).

Definition vision_request (k : option string) (imageData : DataURL) : Request :=
  mkRequest (baseUrl ++ "/chat/completions") "POST" (bearer k) "application/json"
            (ChatVision visionModel instruction imageData 0.7%float 2000 1 false).

Definition speech_request (k : option string) (input : string) : Request :=
  mkRequest (baseUrl ++ "/audio/speech") "POST" (bearer k) "application/json"
            (Speech ttsModel voice input "wav").

Definition test_outcome : Response -> Completion bool :=
  checked "API test failed: " "Invalid API key" (fun _ => Normal true).

Lemma testConnection_run (w : World) :
  fst (isConfigured w) = Normal true ->
  testConnection w
  = (settle test_outcome (network (env w)),
     after_fetch (test_request (current_key w)) (on_groq (with_apiKey (current_key w)) w)).
Proof.
  intros Hc. apply configured_key in Hc.
  unfold testConnection, bind at 1. rewrite isConfigured_run, Hc. cbn [negb].
  rewrite try_catch_rethrow. unfold bind at 1.
  rewrite getApiKey_cached by now apply key_ok_has_key.
  fold (test_request (current_key w)).
  now rewrite (exchange_run _ _ _ (fun _ => ret true) (fun _ => Normal true)
                (fun _ w' => w')).
Qed.

(** [data.choices[0].message.content] *)
Definition content_of (data : JSValue) : Completion JSValue :=
  match get data "choices" with
  | Throw e => Throw e
  | Normal choices =>
      match index choices 0 with
      | Throw e => Throw e
      | Normal choice =>
          match get choice "message" with
          | Throw e => Throw e
          | Normal message => get message "content"
          end
      end
  end.

Definition syntax_error : JSError := SyntaxError "Unexpected token in JSON".

(** What a response with a 2xx status makes [analyzeFood] complete with. *)
Definition analysis_of (r : Response) : Completion JSValue :=
  match JSON.parse (text r) with
  | None => Throw syntax_error
  | Some data =>
      match content_of data with
      | Throw e => Throw e
      | Normal content =>
          match JSON.parse (ToString content) with
          | None => Throw syntax_error
          | Some analysisResult =>
              match get analysisResult "recipes" with
              | Throw e => Throw e
              | Normal _ => Normal analysisResult
              end
          end
      end
  end.

Definition vision_outcome : Response -> Completion JSValue :=
  checked "Vision API error: " "Unknown error" analysis_of.

(** [this.recipes] is assigned only when the call returns. *)
Definition remember (outcome : Completion JSValue) (w : World) : World :=
  match outcome with
  | Normal a => match get a "recipes" with
                | Normal rs => on_groq (with_recipes rs) w
                | Throw _ => w
                end
  | Throw _ => w
  end.

Lemma analysis_continuation (r : Response) (w : World) :
  (data <- Response_json r ;;
   choices <- lift (get data "choices") ;;
   choice <- lift (index choices 0) ;;
   message <- lift (get choice "message") ;;
   content <- lift (get message "content") ;;
   analysisResult <- JSON_parse content ;;
   rs <- lift (get analysisResult "recipes") ;;
   set_recipes rs ;;
   ret analysisResult) w
  = (analysis_of r, remember (analysis_of r) w).
Proof.
  unfold remember, analysis_of, content_of, Response_json, JSON_parse, bind, lift,
    set_recipes, modify, ret, throw, syntax_error.
  destruct (JSON.parse (text r)) as [data|]; [|reflexivity].
  destruct (get data "choices") as [choices|]; [|reflexivity].
  destruct (index choices 0) as [choice|]; [|reflexivity].
  destruct (get choice "message") as [message|]; [|reflexivity].
  destruct (get message "content") as [content|]; [|reflexivity].
  destruct (JSON.parse (ToString content)) as [a|]; [|reflexivity].
  destruct (get a "recipes") as [rs|] eqn:E; simpl; rewrite ?E; reflexivity.
Qed.

Lemma analyzeFood_run (imageData : DataURL) (w : World) :
  fst (isConfigured w) = Normal true ->
  analyzeFood imageData w
  = (settle vision_outcome (network (env w)),
     remember (settle vision_outcome (network (env w)))
              (after_fetch (vision_request (current_key w) imageData)
                           (on_groq (with_apiKey (current_key w)) w))).
Proof.
  intros Hc. apply configured_key in Hc.
  unfold analyzeFood, bind at 1. rewrite isConfigured_run, Hc. cbn [negb].
  rewrite try_catch_rethrow. unfold bind at 1.
  rewrite getApiKey_cached by now apply key_ok_has_key.
  fold (vision_request (current_key w) imageData).
  now rewrite (exchange_run _ _ _ _ analysis_of remember)
    by (intros; try apply analysis_continuation; reflexivity).
Qed.

Lemma analyzeFood_needs_key (imageData : DataURL) (w : World) :
  fst (isConfigured w) = Normal false ->
  analyzeFood imageData w
  = (Throw (Error "API key not configured"), on_groq (with_apiKey (current_key w)) w).
Proof.
  rewrite isConfigured_run. simpl. intros H. injection H as H.
  unfold analyzeFood, bind. rewrite isConfigured_run, H. reflexivity.
Qed.

Definition speech_outcome : Response -> Completion string :=
  checked "TTS API error: " "Unknown error" (fun r => Normal (text r)).

Lemma generateVoiceDescription_run (fd rs : JSValue) (w : World) :
  fst (isConfigured w) = Normal true ->
  generateVoiceDescription fd rs w
  = match description fd rs with
    | Throw e => (Throw e, on_groq (with_apiKey (current_key w)) w)
    | Normal input =>
        (settle speech_outcome (network (env w)),
         after_fetch (speech_request (current_key w) input)
                     (on_groq (with_apiKey (current_key w)) w))
    end.
Proof.
  intros Hc. apply configured_key in Hc.
  unfold generateVoiceDescription, bind at 1. rewrite isConfigured_run, Hc. cbn [negb].
  rewrite try_catch_rethrow. unfold bind at 1, lift.
  destruct (description fd rs) as [input|e]; [|reflexivity].
  unfold bind at 1. rewrite getApiKey_cached by now apply key_ok_has_key.
  fold (speech_request (current_key w) input).
  now rewrite (exchange_run _ _ _ _ (fun r => Normal (text r)) (fun _ w' => w')).
Qed.

(** ** The credential check comes first *)

(** C7: when no credential is configured, [analyzeFood] throws the error
    "API key not configured" and leaves the environment as it was: no
    request is added to those sent, and nothing waiting on the network
    is used up. *)
Theorem analyzeFood_unauthenticated (imageData : DataURL) (w : World) :
  fst (isConfigured w) = Normal false ->
  fst (analyzeFood imageData w) = Throw (Error "API key not configured")
  /\ sent (env (snd (analyzeFood imageData w))) = sent (env w)
  /\ env (snd (analyzeFood imageData w)) = env w.
Proof.
  intros H. rewrite (analyzeFood_needs_key imageData w H).
  repeat split.
Qed.

Definition w_signed_out : World :=
  page None 1280 720 Available Available [Responds (mkResponse 200 "{}")] [].

Lemma analyzeFood_unauthenticated_witness :
  fst (isConfigured w_signed_out) = Normal false
  /\ fst (analyzeFood photo w_signed_out) = Throw (Error "API key not configured")
  /\ sent (env (snd (analyzeFood photo w_signed_out))) = []
  /\ network (env (snd (analyzeFood photo w_signed_out)))
     = [Responds (mkResponse 200 "{}")].
Proof.
  assert (H : fst (isConfigured w_signed_out) = Normal false) by reflexivity.
  destruct (analyzeFood_unauthenticated photo w_signed_out H) as (H1 & H2 & H3).
  split; [exact H|]. split; [exact H1|]. split; [exact H2|].
  rewrite H3. reflexivity.
Defined.

(** ** What [analyzeFood] returns *)







(** ** Testing a credential *)

Lemma errorData_defined (r : Response) : errorData_of r <> JUndefined.
Proof.
  unfold errorData_of. destruct (JSON.parse (text r)) as [v|] eqn:E; [|discriminate].
  intros ->. exact (parse_defined _ E).
Qed.

(** [testConnection] returns, with [true], exactly on a 2xx status; on
    any other status it throws, and the error reads
    "API test failed: <status> - <message>" unless the body of the
    response is the JSON value [null]. *)
Theorem testConnection_by_status (w : World) (r : Response) (rest : list FetchOutcome) :
  fst (isConfigured w) = Normal true ->
  network (env w) = Responds r :: rest ->
  (fst (testConnection w) = Normal true <-> 200 <= status r <= 299)
  /\ (ok r = false -> exists e, fst (testConnection w) = Throw e)
  /\ (ok r = false -> JSON.parse (text r) <> Some JNull ->
      exists msg, fst (testConnection w)
                  = Throw (Error ("API test failed: " ++ string_of_Z (status r)
                                  ++ " - " ++ msg))).
Proof.
  intros Hc Hn. rewrite (testConnection_run w Hc), Hn.
  unfold settle, test_outcome, checked. simpl fst.
  assert (Hok : ok r = true <-> 200 <= status r <= 299) by (unfold ok; lia).
  destruct (ok r).
  - split; [split; [intros _; now apply Hok | reflexivity]|].
    split; intros ?; discriminate.
  - split; [split; [discriminate | intros H; apply Hok in H; discriminate]|].
    split; [intros _; eexists; reflexivity|].
    intros _ Hnull. unfold refusal.
    destruct (message_of_defined (errorData_of r) "Invalid API key") as (msg & ->).
    + unfold errorData_of. destruct (JSON.parse (text r)); congruence.
    + apply errorData_defined.
    + eexists; reflexivity.
Qed.

Definition w_unauthorized : World :=
  page (Some "gsk_stale") 1280 720 Available Available
       [Responds (mkResponse 401
                    (JSON.stringify
                       (JObj [("error", JObj [("message", JStr "Invalid API Key")])])))] [].

Lemma testConnection_by_status_witness :
  fst (testConnection w_unauthorized)
  = Throw (Error "API test failed: 401 - Invalid API Key").
Proof.
  destruct (testConnection_by_status w_unauthorized
              (mkResponse 401
                 (JSON.stringify
                    (JObj [("error", JObj [("message", JStr "Invalid API Key")])])))
              [] ltac:(reflexivity) ltac:(reflexivity)) as (_ & _ & H).
  destruct (H ltac:(reflexivity) ltac:(vm_compute; discriminate)) as (msg & Hmsg).
  rewrite Hmsg. vm_compute in Hmsg. injection Hmsg as Hmsg.
  vm_compute. rewrite Hmsg. reflexivity.
Defined.

Definition w_null_body : World :=
  page (Some "gsk_stale") 1280 720 Available Available [Responds (mkResponse 500 "null")] [].

(** C8, where the code departs from it: a response with status 500
    whose body is the JSON value [null] makes [testConnection] throw a
    [TypeError] that says nothing of the status. *)
Lemma testConnection_null_body_loses_status :
  fst (testConnection w_null_body)
  = Throw (TypeError "Cannot read properties of null (reading 'error')").
Proof. vm_compute. reflexivity. Qed.

(** ** Clearing the credential *)

Definition w_quota : World := page None 1280 720 QuotaExceeded Available [] [].

(** The page after the key was saved while durable storage refused
    writes, and then cleared. *)
Definition after_set_and_clear : World :=
  snd (clearApiKey (snd (setApiKey "gsk_old" w_quota))).

(** C10: [clearApiKey] leaves [apiKey] null and no durable copy to read
    (when durable storage can be read at all), and does not touch session
    storage; so a key that [setApiKey] had to put in session storage is
    found again by [getApiKey], and [isConfigured] still answers true. *)
Theorem clearApiKey_leaves_session_copy :
  (forall w, apiKey (groqAPI (snd (clearApiKey w))) = None)
  /\ (forall w, Storage_getItem "groq_api_key" (localStorage (env (snd (clearApiKey w))))
                = Normal None
                \/ mode (localStorage (env w)) = AccessDenied)
  /\ (forall w, sessionStorage (env (snd (clearApiKey w))) = sessionStorage (env w))
  /\ items (sessionStorage (env (snd (setApiKey "gsk_old" w_quota)))) !! "groq_api_key"
     = Some "gsk_old"
  /\ apiKey (groqAPI after_set_and_clear) = None
  /\ fst (getApiKey after_set_and_clear) = Normal (Some "gsk_old")
  /\ fst (isConfigured after_set_and_clear) = Normal true.
Proof.
  split; [|split; [|split; [|split; [|split; [|split]]]]].
  - intros w. unfold clearApiKey, bind, set_apiKey, modify, localStorage_removeItem,
      Storage_removeItem. simpl.
    destruct (mode (localStorage (env w))); reflexivity.
  - intros w. unfold clearApiKey, bind, set_apiKey, modify, localStorage_removeItem,
      Storage_removeItem, Storage_getItem. simpl.
    destruct (mode (localStorage (env w))) eqn:E; simpl; rewrite ?E;
      [left | left | right; reflexivity]; f_equal; apply lookup_delete_eq.
  - intros w. unfold clearApiKey, bind, set_apiKey, modify, localStorage_removeItem,
      Storage_removeItem. simpl.
    destruct (mode (localStorage (env w))); reflexivity.
  - vm_compute. reflexivity.
  - vm_compute. reflexivity.
  - vm_compute. reflexivity.
  - vm_compute. reflexivity.
Qed.

(** ** The narration *)

Definition three (r0 r1 r2 : RecipeSuggestion) : JSValue := js_of_recipes [r0; r1; r2].









Definition w_ready : World :=
  page (Some "gsk_live") 1280 720 Available Available
       [Responds (mkResponse 200 "RIFF....WAVE")] [].


End GroqFacts.

(* ===================================================================== *)
(** * Facts about [CameraManager] *)
(* ===================================================================== *)

Module CameraFacts.
Import CameraManager Samples.

(** ** The size of a captured image *)

Lemma captureImage_uninitialized (w : World) :
  isInitialized (cameraManager w) = false -> captureImage w = (Normal None, w).
Proof. intros H. unfold captureImage, bind, gets. rewrite H. reflexivity. Qed.

(** A 4:3 frame larger than the caps is brought down to 1024 x 768. *)
Lemma captureImage_four_by_three :
  fst (captureImage (page None 1440 1080 Available Available [] []))
  = Normal (Some (CanvasData "image/jpeg" 0.7%float 1024 768)).
Proof. vm_compute. reflexivity. Qed.

(** C4, where the code departs from it: a 1280 x 1024 frame is wider
    than it is high, so only its width is brought to 1024, and the
    image comes out 819 high, above the cap of 768. *)
Lemma captureImage_exceeds_maxHeight :
  fst (captureImage (page None 1280 1024 Available Available [] []))
  = Normal (Some (CanvasData "image/jpeg" 0.7%float 1024 819)).
Proof. vm_compute. reflexivity. Qed.

(** On the same branch a frame narrower than 1024 is enlarged. *)
Lemma captureImage_enlarges :
  fst (captureImage (page None 1000 800 Available Available [] []))
  = Normal (Some (CanvasData "image/jpeg" 0.7%float 1024 819)).
Proof. vm_compute. reflexivity. Qed.

(** ** Switching the camera *)

(** The facing mode [switchCamera] asks for. *)
Definition opposite (current : option string) : string :=
  match current with
  | Some f => if String.eqb f "environment" then "user" else "environment"
  | None => "environment"
  end.

Definition switch_constraints (current : option string) : Constraints :=
  mkConstraints (Exact (opposite current)) 1280 1920 720 1080 false.

Definition busy : JSError := DOMException "NotReadableError" "Could not start video source".

Definition w_no_camera_left : World :=
  page None 1280 720 Available Available [] [Refuses busy; Refuses busy].

(** C6 fails as stated: when the device refuses the fallback request
    too, the component keeps the stream it has just stopped, and the
    video element is hidden behind the error panel. *)
Lemma switchCamera_can_leave_no_video :
  fst (switchCamera w_no_camera_left) = Normal false
  /\ stream (cameraManager (snd (switchCamera w_no_camera_left))) = Some 0%nat
  /\ streams (env (snd (switchCamera w_no_camera_left)))
     = [mkStream (Some "environment") 1280 720 false true]
  /\ video_display (cameraManager (snd (switchCamera w_no_camera_left))) = "none"
  /\ camera_errors (cameraManager (snd (switchCamera w_no_camera_left)))
     = ["Camera access failed. Please check your camera and try again."].
Proof. vm_compute. repeat split; reflexivity. Qed.

(** C6, as the code has it: when the request for the opposite facing
    mode is refused, [switchCamera] has stopped the current stream,
    runs [initialize], that is one more request with the default
    constraints, and returns false.  A stream granted to that request
    becomes the stream of the component and of the video element; when
    it is refused too, the component keeps the stopped stream and shows
    the camera error. *)
Theorem switchCamera_falls_back_to_initialize (w : World) (id : nat) (st : MediaStream)
        (e : JSError) (o : MediaOutcome) (rest : list MediaOutcome) :
  isInitialized (cameraManager w) = true ->
  stream (cameraManager w) = Some id ->
  streams (env w) !! id = Some st ->
  devices (env w) = Refuses e :: o :: rest ->
  let w' := snd (switchCamera w) in
  fst (switchCamera w) = Normal false
  /\ asked (env w') = (asked (env w)
                       ++ [switch_constraints (facingMode st); default_constraints])%list
  /\ streams (env w') !! id = Some (stop st)
  /\ match o with
     | Grants f width height =>
         stream (cameraManager w') = Some (length (streams (env w)))
         /\ video_srcObject (cameraManager w') = Some (length (streams (env w)))
         /\ streams (env w') !! length (streams (env w))
            = Some (mkStream f width height true true)
         /\ isInitialized (cameraManager w') = true
     | Refuses e' =>
         stream (cameraManager w') = Some id
         /\ video_display (cameraManager w') = "none"
         /\ length (camera_errors (cameraManager w'))
            = S (length (camera_errors (cameraManager w)))
     end.
Proof.
  intros Hinit Hs Hst Hdev.
  assert (Hlt : (id < length (streams (env w)))%nat) by (eapply lookup_lt_Some; eauto).
  destruct w as [g [s i src vd vo cw ch errs] a [ls ss t iso net snt dev ask strs]].
  simpl in *. subst s i dev.
  unfold switchCamera, bind, gets, try_catch, update_stream, modify, getUserMedia,
    initialize, handleCameraError, throw, ret; simpl.
  rewrite Hst. simpl. rewrite list_lookup_insert_eq by assumption. simpl.
  destruct o as [f width height | e']; simpl; rewrite ?Hst.
  - rewrite !length_insert.
    repeat split.
    + now rewrite <- app_assoc.
    + rewrite lookup_app_l by (now rewrite length_insert).
      now apply list_lookup_insert_eq.
    + rewrite lookup_app_r by (now rewrite length_insert).
      rewrite length_insert, Nat.sub_diag. reflexivity.
  - repeat split.
    + now rewrite <- app_assoc.
    + now apply list_lookup_insert_eq.
Qed.

Definition w_front_camera_busy : World :=
  page None 1280 720 Available Available []
       [Refuses busy; Grants (Some "environment") 1280 720].

Lemma switchCamera_falls_back_to_initialize_witness :
  fst (switchCamera w_front_camera_busy) = Normal false
  /\ asked (env (snd (switchCamera w_front_camera_busy)))
     = [switch_constraints (Some "environment"); default_constraints]
  /\ streams (env (snd (switchCamera w_front_camera_busy)))
     = [ mkStream (Some "environment") 1280 720 false true;
         mkStream (Some "environment") 1280 720 true true ]
  /\ stream (cameraManager (snd (switchCamera w_front_camera_busy))) = Some 1%nat.
Proof.
  destruct (switchCamera_falls_back_to_initialize w_front_camera_busy 0
              (mkStream (Some "environment") 1280 720 true true) busy
              (Grants (Some "environment") 1280 720) []
              ltac:(reflexivity) ltac:(reflexivity) ltac:(reflexivity) ltac:(reflexivity))
    as (H1 & H2 & _ & H3 & _).
  split; [exact H1|]. split; [exact H2|]. split; [reflexivity | exact H3].
Defined.

End CameraFacts.

(* ===================================================================== *)
(** * Facts about the application: history and the analysis cycle *)
(* ===================================================================== *)

Module AppFacts.
Import FoodAnalyzerApp Data Samples JSONFacts GroqFacts.

(** ** The history store *)

(** What [getHistory] reads out of a storage area. *)
Definition history_of (s : Storage) : JSValue :=
  match Storage_getItem "analysis_history" s with
  | Normal (Some t) =>
      if truthy (JStr t)
      then match JSON.parse t with
           | Some v => v
           | None => JArr []
           end
      else JArr []
  | _ => JArr []
  end.

Lemma getHistory_run (w : World) :
  getHistory w = (Normal (history_of (localStorage (env w))), w).
Proof.
  unfold getHistory, history_of, try_catch, bind, localStorage_getItem, JSON_parse.
  destruct (Storage_getItem "analysis_history" (localStorage (env w))) as [[t|]|e];
    try reflexivity.
  destruct (truthy (JStr t)); [|reflexivity].
  change (ToString (JStr t)) with t.
  destruct (JSON.parse t); reflexivity.
Qed.

(** The record [saveToHistory] builds. *)
Definition historyItem (id : Z) (timestamp : string) (foodDetected rs : JSValue) : JSValue :=
  JObj [ ("id", JNum id); ("timestamp", JStr timestamp);
         ("foodDetected", foodDetected); ("recipes", rs) ].

(** The storage area after [saveToHistory]: the new record goes first
    and ten are kept, provided what is stored reads as a list and the
    write is accepted. *)
Definition saved (item : JSValue) (s : Storage) : Storage :=
  match history_of s with
  | JArr h =>
      snd (Storage_setItem "analysis_history"
             (JSON.stringify (JArr (firstn 10 (item :: h)))) s)
  | _ => s
  end.

Lemma saveToHistory_run (analysis fd rs : JSValue) (w : World) :
  get analysis "foodDetected" = Normal fd ->
  get analysis "recipes" = Normal rs ->
  saveToHistory analysis w
  = (Normal tt,
     on_env (with_localStorage
               (saved (historyItem (now (env w)) (nowISO (env w)) fd rs)
                      (localStorage (env w)))) w).
Proof.
  intros Hfd Hrs.
  unfold saveToHistory, try_catch, bind at 1. rewrite getHistory_run.
  unfold bind, Date_now, Date_toISOString, gets, lift. rewrite Hfd, Hrs.
  unfold saved. fold (historyItem (now (env w)) (nowISO (env w)) fd rs).
  generalize (historyItem (now (env w)) (nowISO (env w)) fd rs) as item. intros item.
  destruct w as [g c a [ls ss t iso net snt dev ask strs]]. cbn [env localStorage].
  unfold unshift, slice, localStorage_setItem.
  destruct (history_of ls) as [| | | | |h|]; cbn [env localStorage];
    try (destruct ls; reflexivity).
  change (firstn (10 - 0) (skipn 0 (item :: h))) with (firstn 10 (item :: h)).
  generalize (JSON.stringify (JArr (firstn 10 (item :: h)))) as t'. intros t'.
  unfold Storage_setItem. destruct ls as [its []]; reflexivity.
Qed.

Lemma json_wf_strings (l : list string) : json_wf (JArr (map JStr l)).
Proof.
  constructor. induction l; constructor; [constructor | assumption].
Qed.

Lemma json_wf_recipe (r : RecipeSuggestion) : json_wf (js_of_recipe r).
Proof.
  constructor.
  - simpl. repeat (constructor; [rewrite ?elem_of_cons, elem_of_nil; intuition discriminate|]).
    constructor.
  - repeat (apply Forall_cons; split; [cbn [snd]|]);
      try apply Forall_nil; try apply json_wf_strings; constructor.
Qed.

Lemma json_wf_recipes (l : list RecipeSuggestion) : json_wf (js_of_recipes l).
Proof.
  constructor. induction l; constructor; [apply json_wf_recipe | assumption].
Qed.

Lemma json_wf_item (id : Z) (timestamp : string) (a : AnalysisResult) :
  json_wf (historyItem id timestamp (JStr (result_foodDetected a))
                       (js_of_recipes (result_recipes a))).
Proof.
  constructor.
  - simpl. repeat (constructor; [rewrite ?elem_of_cons, elem_of_nil; intuition discriminate|]).
    constructor.
  - repeat (apply Forall_cons; split; [cbn [snd]|]);
      try apply Forall_nil; try apply json_wf_recipes; constructor.
Qed.

(** One append: the instant it happens at, and the result appended. *)
Record Append : Type := mkAppend {
  at_ms : Z;
  at_iso : string;
  appended : AnalysisResult
}.

Definition entry (x : Append) : JSValue :=
  historyItem (at_ms x) (at_iso x) (JStr (result_foodDetected (appended x)))
              (js_of_recipes (result_recipes (appended x))).

(** The page after the clock has moved to the instant of [x] and
    [saveToHistory] has run on its result. *)
Definition append (w : World) (x : Append) : World :=
  snd (saveToHistory (js_of_analysis (appended x))
                     (on_env (with_clock (at_ms x) (at_iso x)) w)).

Definition append_all (w : World) (l : list Append) : World := fold_left append l w.

(** Durable storage accepts writes and holds the list [h]. *)
Definition holds (w : World) (h : list JSValue) : Prop :=
  mode (localStorage (env w)) = Available
  /\ history_of (localStorage (env w)) = JArr h
  /\ Forall json_wf h.

Lemma history_of_written (its : gmap string string) (h : list JSValue) :
  Forall json_wf h ->
  history_of (mkStorage (<["analysis_history" := JSON.stringify (JArr h)]> its) Available)
  = JArr h.
Proof.
  intros Hwf. unfold history_of, Storage_getItem. cbn [mode items].
  rewrite lookup_insert_eq.
  change (JSON.stringify (JArr h)) with ("[" ++ join "," (map JSON.stringify h) ++ "]") at 1.
  cbn [append truthy String.eqb negb].
  rewrite parse_stringify by now constructor. reflexivity.
Qed.

Lemma append_step (w : World) (x : Append) (h : list JSValue) :
  holds w h -> holds (append w x) (firstn 10 (entry x :: h)).
Proof.
  intros (Hm & Hh & Hwf). unfold append.
  rewrite (saveToHistory_run _ (JStr (result_foodDetected (appended x)))
             (js_of_recipes (result_recipes (appended x)))) by reflexivity.
  destruct w as [g c a [[its m] ss t iso net snt dev ask strs]].
  cbn [snd env localStorage on_env with_clock with_localStorage now nowISO mode] in *.
  fold (entry x). unfold saved. rewrite Hh. subst m.
  unfold Storage_setItem. cbn [mode items snd].
  assert (Hwf' : Forall json_wf (firstn 10 (entry x :: h))).
  { apply Forall_take. constructor; [apply json_wf_item | exact Hwf]. }
  split; [reflexivity|]. split; [|exact Hwf'].
  now apply history_of_written.
Qed.

Definition keep (h : list JSValue) (x : Append) : list JSValue :=
  firstn 10 (entry x :: h).

Lemma append_all_holds (l : list Append) (w : World) (h : list JSValue) :
  holds w h -> holds (append_all w l) (fold_left keep l h).
Proof.
  revert w h. induction l as [|x l IH]; intros w h H; [exact H|].
  simpl. apply IH. now apply append_step.
Qed.

Lemma take_app_take {A} (n m : nat) (l k : list A) :
  (n <= m)%nat -> firstn n (l ++ firstn m k) = firstn n (l ++ k).
Proof.
  revert n. induction l as [|a l IH]; intros n Hle; simpl.
  - rewrite firstn_firstn. f_equal. lia.
  - destruct n; simpl; [reflexivity|]. f_equal. apply IH. lia.
Qed.

Lemma fold_keep (l : list Append) (h : list JSValue) :
  fold_left keep l (firstn 10 h) = firstn 10 (rev (map entry l) ++ h).
Proof.
  revert h. induction l as [|x l IH]; intros h; [reflexivity|].
  simpl. unfold keep at 2.
  rewrite IH. rewrite <- app_assoc. simpl.
  change (entry x :: firstn 10 h) with ([entry x] ++ firstn 10 h)%list.
  rewrite app_assoc, take_app_take by lia. now rewrite <- app_assoc.
Qed.

Lemma fresh_holds (w : World) :
  mode (localStorage (env w)) = Available ->
  items (localStorage (env w)) !! "analysis_history" = None ->
  holds w [].
Proof.
  intros Hm Hi. split; [exact Hm|]. split; [|constructor].
  unfold history_of, Storage_getItem. now rewrite Hm, Hi.
Qed.

(** C3: starting from a page whose durable storage accepts writes and
    holds no history yet, after any sequence of appends [getHistory]
    returns the appended records most recent first, cut to the first
    ten; so it never holds more than ten, what is kept are the last ten
    appended, and of eleven the first appended is the one dropped. *)
Theorem history_keeps_ten_most_recent (w : World) (l : list Append) :
  mode (localStorage (env w)) = Available ->
  items (localStorage (env w)) !! "analysis_history" = None ->
  fst (getHistory (append_all w l)) = Normal (JArr (firstn 10 (rev (map entry l))))
  /\ (length (firstn 10 (rev (map entry l))) <= 10)%nat
  /\ firstn 10 (rev (map entry l)) = rev (skipn (length l - 10) (map entry l))
  /\ (length l = 11%nat ->
      firstn 10 (rev (map entry l)) = rev (skipn 1 (map entry l))).
Proof.
  intros Hm Hi.
  pose proof (append_all_holds l w [] (fresh_holds w Hm Hi)) as (_ & Hh & _).
  change (@nil JSValue) with (firstn 10 (@nil JSValue)) in Hh.
  rewrite fold_keep, app_nil_r in Hh.
  assert (Hrev : firstn 10 (rev (map entry l)) = rev (skipn (length l - 10) (map entry l))).
  { rewrite firstn_rev, length_map. reflexivity. }
  split; [now rewrite getHistory_run, Hh|].
  split; [apply firstn_le_length|].
  split; [exact Hrev|].
  intros Hlen. rewrite Hrev, Hlen. reflexivity.
Qed.

(** ** The analysis cycle *)

(** While an analysis is in flight the camera action returns at once
    and changes nothing: no capture, no request. *)
Lemma analyzeFood_guard (w : World) :
  isAnalyzing (app w) = true -> analyzeFood w = (Normal tt, w).
Proof. intros H. unfold analyzeFood, bind, gets. rewrite H. reflexivity. Qed.

Lemma analyzeFood_guard_witness :
  analyzeFood (on_app (with_isAnalyzing true) (page None 1280 720 Available Available [] []))
  = (Normal tt, on_app (with_isAnalyzing true) (page None 1280 720 Available Available [] [])).
Proof. apply analyzeFood_guard. reflexivity. Defined.

Lemma bind_normal {A B} (m : M A) (k : A -> M B) (w w' : World) (a : A) :
  m w = (Normal a, w') -> bind m k w = k a w'.
Proof. intros H. unfold bind. now rewrite H. Qed.

Lemma label_buttons_array (l : list JSValue) (i : nat) (btns : list Button) :
  snd (label_buttons (JArr l) i btns) = None.
Proof.
  revert i. induction btns as [|b btns IH]; intros i; [reflexivity|].
  simpl. unfold label_button. simpl.
  destruct (truthy (nth i l JUndefined)) eqn:Ht.
  - destruct (nth i l JUndefined); try discriminate; simpl;
      specialize (IH (S i)); destruct (label_buttons (JArr l) (S i) btns); exact IH.
  - specialize (IH (S i)); destruct (label_buttons (JArr l) (S i) btns); exact IH.
Qed.



Lemma configured_or_not (w : World) :
  fst (GroqAPI.isConfigured w) = Normal true \/ fst (GroqAPI.isConfigured w) = Normal false.
Proof. rewrite isConfigured_run. simpl. destruct (key_ok (current_key w)); auto. Qed.

(** The speech step, seen from a world in which the key is configured. *)
Definition speech_of (fd rs : JSValue) (outcomes : list FetchOutcome) : Completion string :=
  match GroqAPI.description fd rs with
  | Throw e => Throw e
  | Normal _ => settle speech_outcome outcomes
  end.

Lemma generateVoiceDescription_outcome (fd rs : JSValue) (w : World) :
  fst (GroqAPI.isConfigured w) = Normal true ->
  fst (GroqAPI.generateVoiceDescription fd rs w) = speech_of fd rs (network (env w)).
Proof.
  intros Hc. rewrite (generateVoiceDescription_run fd rs w Hc). unfold speech_of.
  destruct (GroqAPI.description fd rs); reflexivity.
Qed.


Lemma pauseStream_run (w : World) :
  exists strs o,
    CameraManager.pauseStream w
    = (Normal tt, on_camera (with_video_opacity o) (on_env (with_streams strs) w)).
Proof.
  unfold CameraManager.pauseStream, bind, gets, update_stream, modify, ret.
  destruct w as [g [s i src vd vo cw ch errs] ap e]. simpl.
  destruct s as [id|]; simpl.
  - eexists _, _. reflexivity.
  - exists (streams e), vo. destruct e. reflexivity.
Qed.

Lemma captureImage_run (w : World) :
  isInitialized (cameraManager w) = true ->
  exists cw ch,
    CameraManager.captureImage w
    = (Normal (Some (CanvasData "image/jpeg" 0.7%float cw ch)),
       on_camera (with_canvas cw ch) w).
Proof.
  intros H. unfold CameraManager.captureImage, bind at 1, gets at 1. rewrite H.
  cbn [negb]. unfold try_catch, bind, gets, modify, ret, CameraManager.video_size.
  eexists _, _. reflexivity.
Qed.

Lemma isConfigured_cached (w : World) :
  key_ok (apiKey (groqAPI w)) = true ->
  fst (GroqAPI.isConfigured w) = Normal true.
Proof.
  intros H. rewrite isConfigured_run. simpl.
  unfold current_key, found_key. rewrite (key_ok_has_key _ H). now rewrite H.
Qed.

Lemma vision_call_succeeded (image : DataURL) (w : World) (analysis : JSValue) :
  fst (GroqAPI.analyzeFood image w) = Normal analysis ->
  fst (GroqAPI.isConfigured w) = Normal true
  /\ settle vision_outcome (network (env w)) = Normal analysis.
Proof.
  intros H. destruct (configured_or_not w) as [Hc|Hc].
  - split; [exact Hc|]. now rewrite (analyzeFood_run image w Hc) in H.
  - now rewrite (analyzeFood_needs_key image w Hc) in H.
Qed.

Lemma configured_frame (w w' : World) :
  groqAPI w' = groqAPI w ->
  localStorage (env w') = localStorage (env w) ->
  sessionStorage (env w') = sessionStorage (env w) ->
  fst (GroqAPI.isConfigured w') = fst (GroqAPI.isConfigured w).
Proof.
  intros Hg Hl Hs. rewrite !isConfigured_run. simpl. unfold current_key.
  now rewrite Hg, Hl, Hs.
Qed.

Lemma configured_stays (w : World) (f : World -> World) :
  fst (GroqAPI.isConfigured w) = Normal true ->
  apiKey (groqAPI (f (on_groq (with_apiKey (current_key w)) w))) = current_key w ->
  fst (GroqAPI.isConfigured (f (on_groq (with_apiKey (current_key w)) w))) = Normal true.
Proof.
  intros Hc Hk. apply isConfigured_cached. rewrite Hk. now apply configured_key.
Qed.




Definition three_recipes : AnalysisResult := tomato_and_bread [bruschetta; soup; pappa].

(** The vision endpoint answers with three recipes; the speech endpoint
    is down. *)
Definition speech_down : list FetchOutcome :=
  [ Responds (completion (JSON.stringify (js_of_analysis three_recipes)));
    Responds (mkResponse 503 "Service Unavailable") ].

Definition w_speech_down : World :=
  page (Some "gsk_live") 1280 720 Available Available speech_down [].





(** ** Requests while an analysis is in flight *)

Definition picture : File := mkFile "image/jpeg" 204800 (Normal "data:image/jpeg;base64,/9j/4AAQ").

(** A page on which an analysis is already in flight. *)
Definition w_in_flight : World := on_app (with_isAnalyzing true) w_speech_down.

(** C5 fails for uploads: with an analysis in flight the camera action
    does nothing, but an upload sends its picture to the vision endpoint
    and ends by clearing the flag that the pending analysis had set. *)
Lemma handleFileUpload_ignores_guard :
  isAnalyzing (app w_in_flight) = true
  /\ analyzeFood w_in_flight = (Normal tt, w_in_flight)
  /\ fst (handleFileUpload (Some picture) w_in_flight) = Normal tt
  /\ hd_error (sent (env (snd (handleFileUpload (Some picture) w_in_flight))))
     = Some (vision_request (Some "gsk_live") (FileData "data:image/jpeg;base64,/9j/4AAQ"))
  /\ length (sent (env (snd (handleFileUpload (Some picture) w_in_flight)))) = 2%nat
  /\ foodDetectedEl (app (snd (handleFileUpload (Some picture) w_in_flight)))
     = "tomato and bread"
  /\ isAnalyzing (app (snd (handleFileUpload (Some picture) w_in_flight))) = false.
Proof. vm_compute. repeat split; reflexivity. Qed.

(** Eleven results appended, one per minute. *)
Definition eleven : list Append :=
  map (fun i => mkAppend (1700000000000 + 60000 * i) "2023-11-14T22:13:20.000Z"
                         (mkAnalysis (string_of_Z i) [bruschetta; soup; pappa]))
      [1; 2; 3; 4; 5; 6; 7; 8; 9; 10; 11].

Definition w_fresh : World := page None 1280 720 Available Available [] [].

Lemma history_keeps_ten_most_recent_witness :
  fst (getHistory (append_all w_fresh eleven))
  = Normal (JArr (firstn 10 (rev (map entry eleven))))
  /\ firstn 10 (rev (map entry eleven)) = rev (skipn 1 (map entry eleven)).
Proof.
  destruct (history_keeps_ten_most_recent w_fresh eleven
              ltac:(reflexivity) ltac:(reflexivity)) as (H1 & _ & _ & H4).
  split; [exact H1 | exact (H4 ltac:(reflexivity))].
Defined.

End AppFacts.

(* ===================================================================== *)
(** * Facts about the stored key *)
(* ===================================================================== *)

Module CredentialFacts.
Import GroqAPI Data Samples JSONFacts GroqFacts.

(** ** Saving and finding the key *)

(** The storage areas after [setApiKey k]: the key and the instant go to
    durable storage, and to session storage only when durable storage
    refuses the write. *)
Definition stored (k : string) (t : Z) (s : Storage) : Storage :=
  mkStorage (<["groq_api_key_timestamp" := string_of_Z t]> (<["groq_api_key" := k]> (items s)))
            (mode s).

Lemma setApiKey_run (k : string) (w : World) :
  setApiKey k w
  = (Normal tt,
     on_env (fun e =>
               match mode (localStorage e), mode (sessionStorage e) with
               | Available, _ => with_localStorage (stored k (now e) (localStorage e)) e
               | _, Available => with_sessionStorage (stored k (now e) (sessionStorage e)) e
               | _, _ => e
               end)
            (on_groq (with_apiKey (Some k)) w)).
Proof.
  destruct w as [g c a [[li lm] [si sm] t iso net snt dev ask strs]].
  unfold setApiKey, bind, set_apiKey, modify, try_catch, localStorage_setItem,
    sessionStorage_setItem, Storage_setItem, Date_now, gets, ret, stored.
  destruct lm, sm; reflexivity.
Qed.

Lemma nonempty_key (k : string) : k <> "" -> no_key (Some k) = false.
Proof. intros H. unfold no_key, truthy. destruct k; [congruence | reflexivity]. Qed.

Lemma trim_length_pos (k : string) :
  (0 <? Z.of_nat (String.length (trim k))) = negb (String.eqb (trim k) "").
Proof. destruct (trim k); reflexivity. Qed.

Lemma setApiKey_current_key (k : string) (w : World) :
  k <> "" -> current_key (snd (setApiKey k w)) = Some k.
Proof.
  intros Hk. rewrite setApiKey_run. cbn [snd].
  unfold current_key, found_key. cbn [groqAPI on_env on_groq with_apiKey apiKey].
  now rewrite (nonempty_key k Hk).
Qed.



(** The same page with a new [GroqAPI] object, as after a reload in the
    same tab: the storage areas are kept, the fields start over. *)
Definition reloaded (w : World) : World := on_groq (fun _ => mkGroqAPI None (JArr [])) w.

(** What a page reload finds of a key saved with [setApiKey]:
    the key, when durable storage took it; the key, through the session
    copy, when durable storage was full and holds none; and nothing when
    durable storage denies access, because the read of it throws before
    session storage is looked at. *)
Theorem setApiKey_survives_reload (k : string) (w : World) :
  k <> "" ->
  let w' := reloaded (snd (setApiKey k w)) in
  (mode (localStorage (env w)) = Available ->
     fst (getApiKey w') = Normal (Some k)
     /\ items (localStorage (env w')) !! "groq_api_key_timestamp"
        = Some (string_of_Z (now (env w))))
  /\ (mode (localStorage (env w)) = QuotaExceeded ->
      mode (sessionStorage (env w)) = Available ->
      items (localStorage (env w)) !! "groq_api_key" = None ->
      fst (getApiKey w') = Normal (Some k))
  /\ (mode (localStorage (env w)) = AccessDenied ->
      fst (getApiKey w') = Normal None
      /\ (mode (sessionStorage (env w)) = Available ->
          items (sessionStorage (env w')) !! "groq_api_key" = Some k)).
Proof.
  intros Hk w'. subst w'. rewrite setApiKey_run. cbn [snd].
  pose proof (nonempty_key k Hk) as Hno.
  destruct w as [g c a [[li lm] [si sm] t iso net snt dev ask strs]].
  unfold reloaded. cbn [env on_env on_groq localStorage sessionStorage mode now items].
  split; [|split].
  - intros ->. rewrite getApiKey_run.
    unfold current_key, found_key, Storage_getItem, stored; simpl.
    rewrite lookup_insert_ne by discriminate. rewrite lookup_insert_eq.
    rewrite Hno. split; [reflexivity|]. apply lookup_insert_eq.
  - intros -> -> Hnone. rewrite getApiKey_run.
    unfold current_key, found_key, Storage_getItem, stored; simpl.
    simpl in Hnone. rewrite Hnone. simpl.
    rewrite lookup_insert_ne by discriminate. now rewrite lookup_insert_eq.
  - intros ->. split.
    + rewrite getApiKey_run. destruct sm; reflexivity.
    + intros ->. unfold stored; simpl.
      rewrite lookup_insert_ne by discriminate. apply lookup_insert_eq.
Qed.

Lemma setApiKey_survives_reload_witness :
  fst (getApiKey (reloaded (snd (setApiKey "gsk_live"
                                   (page None 1280 720 Available Available [] [])))))
  = Normal (Some "gsk_live")
  /\ fst (getApiKey (reloaded (snd (setApiKey "gsk_live"
                                      (page None 1280 720 QuotaExceeded Available [] [])))))
     = Normal (Some "gsk_live")
  /\ fst (getApiKey (reloaded (snd (setApiKey "gsk_live"
                                      (page None 1280 720 AccessDenied Available [] [])))))
     = Normal None.
Proof.
  split; [|split].
  - exact (proj1 (proj1 (setApiKey_survives_reload "gsk_live"
                           (page None 1280 720 Available Available [] [])
                           ltac:(discriminate)) ltac:(reflexivity))).
  - exact (proj1 (proj2 (setApiKey_survives_reload "gsk_live"
                           (page None 1280 720 QuotaExceeded Available [] [])
                           ltac:(discriminate)))
             ltac:(reflexivity) ltac:(reflexivity) ltac:(reflexivity)).
  - exact (proj1 (proj2 (proj2 (setApiKey_survives_reload "gsk_live"
                                  (page None 1280 720 AccessDenied Available [] [])
                                  ltac:(discriminate))) ltac:(reflexivity))).
Defined.

End CredentialFacts.

(* ===================================================================== *)
(** * Facts about the remote calls *)
(* ===================================================================== *)

Module CallFacts.
Import GroqAPI Data Samples JSONFacts GroqFacts AppFacts.

(** ** The lookup of the key *)

(** [getApiKey] never throws and leaves the storage areas as they are;
    it caches what it answers in [apiKey].  It answers the key in memory
    when there is one, without reading storage; else nothing when durable
    storage denies access; else the durable copy when there is one; else
    what session storage holds. *)
Theorem getApiKey_lookup_order (w : World) :
  (exists k, getApiKey w = (Normal k, on_groq (with_apiKey k) w))
  /\ (no_key (apiKey (groqAPI w)) = false -> fst (getApiKey w) = Normal (apiKey (groqAPI w)))
  /\ (no_key (apiKey (groqAPI w)) = true ->
      (mode (localStorage (env w)) = AccessDenied -> fst (getApiKey w) = Normal None)
      /\ (mode (localStorage (env w)) <> AccessDenied ->
          no_key (items (localStorage (env w)) !! "groq_api_key") = false ->
          fst (getApiKey w) = Normal (items (localStorage (env w)) !! "groq_api_key"))
      /\ (mode (localStorage (env w)) <> AccessDenied ->
          no_key (items (localStorage (env w)) !! "groq_api_key") = true ->
          mode (sessionStorage (env w)) <> AccessDenied ->
          fst (getApiKey w) = Normal (items (sessionStorage (env w)) !! "groq_api_key"))
      /\ (mode (sessionStorage (env w)) = AccessDenied ->
          no_key (items (localStorage (env w)) !! "groq_api_key") = true ->
          fst (getApiKey w) = Normal None)).
Proof.
  rewrite getApiKey_run. cbn [fst]. unfold current_key, found_key, Storage_getItem.
  split; [eexists; reflexivity|]. split.
  - intros ->. reflexivity.
  - intros ->. repeat split.
    + intros ->. reflexivity.
    + intros Hm Hk. destruct (mode (localStorage (env w))); try congruence; now rewrite Hk.
    + intros Hm Hk Hs.
      destruct (mode (localStorage (env w))); try congruence; rewrite Hk;
        destruct (mode (sessionStorage (env w))); congruence.
    + intros Hs Hk. destruct (mode (localStorage (env w))); try reflexivity;
        rewrite Hk, Hs; reflexivity.
Qed.

(** ** Calls without a key *)

(** Like [analyzeFood], the other two calls check the key first: with
    none configured they throw "API key not configured", whatever the
    recipes passed, and the environment is left as it was. *)
Lemma calls_need_key (foodDetected rs : JSValue) (w : World) :
  fst (isConfigured w) = Normal false ->
  testConnection w
  = (Throw (Error "API key not configured"), on_groq (with_apiKey (current_key w)) w)
  /\ generateVoiceDescription foodDetected rs w
     = (Throw (Error "API key not configured"), on_groq (with_apiKey (current_key w)) w)
  /\ env (snd (testConnection w)) = env w
  /\ env (snd (generateVoiceDescription foodDetected rs w)) = env w.
Proof.
  rewrite isConfigured_run. cbn [fst]. intros H. injection H as H.
  unfold testConnection, generateVoiceDescription, bind.
  rewrite isConfigured_run, H. repeat split.
Qed.

Lemma calls_need_key_witness :
  fst (testConnection w_signed_out) = Throw (Error "API key not configured")
  /\ sent (env (snd (testConnection w_signed_out))) = [].
Proof.
  destruct (calls_need_key JUndefined JUndefined w_signed_out ltac:(reflexivity))
    as (H1 & _ & H3 & _).
  split; [now rewrite H1 | now rewrite H3].
Defined.

(** ** One request per call *)

(** With a key configured, each call sends exactly one request and uses
    up exactly one answer of the network, however the call ends; the
    request is a POST with the key as bearer token.  For the speech call
    this is so once the narration could be built. *)
Theorem one_request_per_call (imageData : DataURL) (foodDetected rs : JSValue)
        (w : World) (k : string) :
  fst (isConfigured w) = Normal true ->
  fst (getApiKey w) = Normal (Some k) ->
  let sends (w' : World) (rq : Request) :=
    sent (env w') = (sent (env w) ++ [rq])%list
    /\ network (env w') = tl (network (env w))
    /\ method rq = "POST"
    /\ authorization rq = "Bearer " ++ k
    /\ content_type rq = "application/json" in
  sends (snd (testConnection w))
        (mkRequest "https://api.groq.com/openai/v1/chat/completions" "POST" ("Bearer " ++ k)
           "application/json"
           (ChatText "meta-llama/llama-4-scout-17b-16e-instruct"
                     "Hello, this is a test message." 10))
  /\ sends (snd (analyzeFood imageData w))
           (mkRequest "https://api.groq.com/openai/v1/chat/completions" "POST"
              ("Bearer " ++ k) "application/json"
              (ChatVision "meta-llama/llama-4-scout-17b-16e-instruct" instruction
                          imageData 0.7%float 2000 1 false))
  /\ (forall input, description foodDetected rs = Normal input ->
        sends (snd (generateVoiceDescription foodDetected rs w))
              (mkRequest "https://api.groq.com/openai/v1/audio/speech" "POST"
                 ("Bearer " ++ k) "application/json"
                 (Speech "playai-tts" "Fritz-PlayAI" input "wav"))).
Proof.
  intros Hc Hk sends. rewrite getApiKey_run in Hk. cbn [fst] in Hk. injection Hk as Hk.
  subst sends. cbv beta.
  rewrite (testConnection_run w Hc), (analyzeFood_run imageData w Hc),
    (generateVoiceDescription_run foodDetected rs w Hc).
  unfold test_request, vision_request, speech_request. rewrite Hk. cbn [snd].
  assert (Hrem : forall o w', env (remember o w') = env w').
  { intros o w'. unfold remember. destruct o as [a|]; [|reflexivity].
    destruct (get a "recipes"); reflexivity. }
  rewrite Hrem.
  split; [repeat split|]. split; [repeat split|].
  intros input ->. repeat split.
Qed.

Lemma one_request_per_call_witness :
  sent (env (snd (testConnection w_null_body)))
  = [mkRequest "https://api.groq.com/openai/v1/chat/completions" "POST" "Bearer gsk_stale"
       "application/json"
       (ChatText "meta-llama/llama-4-scout-17b-16e-instruct"
                 "Hello, this is a test message." 10)]
  /\ network (env (snd (testConnection w_null_body))) = [].
Proof.
  destruct (one_request_per_call photo JUndefined JUndefined w_null_body "gsk_stale"
              ltac:(reflexivity) ltac:(reflexivity)) as ((H1 & H2 & _) & _).
  split; [exact H1 | exact H2].
Defined.


(** ** Calls the remote side refuses *)








(** When [fetch] itself rejects, each call throws the very error of the
    rejection, after its one request; [recipes] keeps its value. *)
Theorem transport_error_is_rethrown (imageData : DataURL) (foodDetected rs : JSValue)
        (input : string) (w : World) (e : JSError) (rest : list FetchOutcome) :
  fst (isConfigured w) = Normal true ->
  network (env w) = Rejects e :: rest ->
  description foodDetected rs = Normal input ->
  fst (testConnection w) = Throw e
  /\ fst (analyzeFood imageData w) = Throw e
  /\ fst (generateVoiceDescription foodDetected rs w) = Throw e
  /\ recipes (groqAPI (snd (analyzeFood imageData w))) = recipes (groqAPI w).
Proof.
  intros Hc Hn Hd.
  rewrite (testConnection_run w Hc), (analyzeFood_run imageData w Hc),
    (generateVoiceDescription_run _ _ w Hc), Hd, Hn.
  repeat split.
Qed.

Definition offline : JSError := TypeError "NetworkError when attempting to fetch resource.".

Lemma transport_error_is_rethrown_witness :
  fst (analyzeFood photo
         (page (Some "gsk_live") 1280 720 Available Available [Rejects offline] []))
  = Throw offline.
Proof.
  exact (proj1 (proj2 (transport_error_is_rethrown photo (JStr "tomato and bread")
                         (three bruschetta soup pappa) _
                         (page (Some "gsk_live") 1280 720 Available Available
                               [Rejects offline] [])
                         offline [] ltac:(reflexivity) ltac:(reflexivity)
                         ltac:(reflexivity)))).
Defined.


(** ** A successful analysis *)




Lemma nth_recipe (l : list RecipeSuggestion) (i : nat) (r : RecipeSuggestion) :
  l !! i = Some r -> nth i (map js_of_recipe l) JUndefined = js_of_recipe r.
Proof.
  revert i. induction l as [|x l IH]; intros [|i] H; try discriminate.
  - now injection H as ->.
  - now apply IH.
Qed.




(** ** The narration and the number of recipes *)

(** With fewer than three recipes the narration cannot be built: reading
    the name of the missing one throws a [TypeError], before any request
    is sent.  With more than three, the request is the one for the first
    three. *)
Theorem narration_by_recipe_count (foodDetected : JSValue) (l : list RecipeSuggestion)
        (w : World) :
  fst (isConfigured w) = Normal true ->
  ((length l < 3)%nat ->
     fst (generateVoiceDescription foodDetected (js_of_recipes l) w)
     = Throw (TypeError "Cannot read properties of undefined (reading 'name')")
     /\ env (snd (generateVoiceDescription foodDetected (js_of_recipes l) w)) = env w)
  /\ (forall r0 r1 r2 more, l = r0 :: r1 :: r2 :: more ->
        generateVoiceDescription foodDetected (js_of_recipes l) w
        = generateVoiceDescription foodDetected (three r0 r1 r2) w).
Proof.
  intros Hc. rewrite (generateVoiceDescription_run _ _ w Hc). split.
  - intros Hlen.
    assert (Hd : description foodDetected (js_of_recipes l)
                 = Throw (TypeError "Cannot read properties of undefined (reading 'name')")).
    { destruct l as [|r0 [|r1 [|r2 more]]]; try reflexivity. simpl in Hlen. lia. }
    rewrite Hd. split; reflexivity.
  - intros r0 r1 r2 more ->. now rewrite (generateVoiceDescription_run _ _ w Hc).
Qed.

Lemma narration_by_recipe_count_witness :
  fst (generateVoiceDescription (JStr "tomato and bread") (js_of_recipes [bruschetta; soup])
         w_ready)
  = Throw (TypeError "Cannot read properties of undefined (reading 'name')")
  /\ sent (env (snd (generateVoiceDescription (JStr "tomato and bread")
                       (js_of_recipes [bruschetta; soup]) w_ready))) = [].
Proof.
  destruct (proj1 (narration_by_recipe_count (JStr "tomato and bread") [bruschetta; soup]
                     w_ready ltac:(reflexivity)) ltac:(simpl; lia)) as (H1 & H2).
  split; [exact H1 | now rewrite H2].
Defined.

End CallFacts.

(* ===================================================================== *)
(** * Facts about the life of the camera stream *)
(* ===================================================================== *)

Module LifecycleFacts.
Import CameraManager Samples CameraFacts.

Ltac run_camera :=
  unfold initialize, switchCamera, destroy, pauseStream, resumeStream, captureImage,
    handleCameraError, bind, gets, try_catch, update_stream, modify, getUserMedia,
    throw, ret.

(** ** Acquiring the camera *)

(** [initialize] never throws.  It makes one request with the default
    constraints.  When the device grants it, the answer is true and the
    new stream, live and enabled, is the stream of the component and of
    the video element.  When the device refuses, the answer is false, the
    component keeps the stream and the flag it had, the video element is
    hidden, and an error panel is added whose text depends on the name of
    the error. *)
Theorem initialize_outcome (w : World) (o : MediaOutcome) (rest : list MediaOutcome) :
  devices (env w) = o :: rest ->
  let w' := snd (initialize w) in
  asked (env w') = (asked (env w) ++ [default_constraints])%list
  /\ devices (env w') = rest
  /\ match o with
     | Grants f width height =>
         fst (initialize w) = Normal true
         /\ isInitialized (cameraManager w') = true
         /\ stream (cameraManager w') = Some (length (streams (env w)))
         /\ video_srcObject (cameraManager w') = Some (length (streams (env w)))
         /\ streams (env w') = (streams (env w) ++ [mkStream f width height true true])%list
         /\ camera_errors (cameraManager w') = camera_errors (cameraManager w)
     | Refuses e =>
         fst (initialize w) = Normal false
         /\ isInitialized (cameraManager w') = isInitialized (cameraManager w)
         /\ stream (cameraManager w') = stream (cameraManager w)
         /\ streams (env w') = streams (env w)
         /\ video_display (cameraManager w') = "none"
         /\ exists text,
              camera_errors (cameraManager w')
              = ("Camera access failed. " ++ text) :: camera_errors (cameraManager w)
              /\ (error_name e = "NotAllowedError" ->
                  text = "Please allow camera access and refresh the page.")
              /\ (error_name e = "NotFoundError" -> text = "No camera found on this device.")
              /\ (error_name e = "NotSupportedError" ->
                  text = "Camera not supported in this browser.")
              /\ (error_name e <> "NotAllowedError" -> error_name e <> "NotFoundError" ->
                  error_name e <> "NotSupportedError" ->
                  text = "Please check your camera and try again.")
     end.
Proof.
  intros Hdev.
  destruct w as [g [s i src vd vo cw ch errs] a [ls ss t iso net snt dev ask strs]].
  simpl in Hdev. subst dev. run_camera. simpl.
  destruct o as [f width height | e]; simpl; (split; [reflexivity|]); (split; [reflexivity|]).
  - repeat split.
  - repeat (split; [reflexivity|]). eexists. split; [reflexivity|].
    repeat split.
    + intros ->. reflexivity.
    + intros H. destruct (String.eqb_spec (error_name e) "NotAllowedError") as [E|_];
        [rewrite H in E; discriminate|]. now rewrite H.
    + intros H. destruct (String.eqb_spec (error_name e) "NotAllowedError") as [E|_];
        [rewrite H in E; discriminate|].
      destruct (String.eqb_spec (error_name e) "NotFoundError") as [E|_];
        [rewrite H in E; discriminate|]. now rewrite H.
    + intros H1 H2 H3.
      destruct (String.eqb_spec (error_name e) "NotAllowedError"); [contradiction|].
      destruct (String.eqb_spec (error_name e) "NotFoundError"); [contradiction|].
      destruct (String.eqb_spec (error_name e) "NotSupportedError"); [contradiction|].
      reflexivity.
Qed.

Definition w_permission_denied : World :=
  page None 1280 720 Available Available []
       [Refuses (DOMException "NotAllowedError" "Permission denied")].

Lemma initialize_outcome_witness :
  fst (initialize w_permission_denied) = Normal false
  /\ camera_errors (cameraManager (snd (initialize w_permission_denied)))
     = ["Camera access failed. Please allow camera access and refresh the page."].
Proof.
  destruct (initialize_outcome w_permission_denied _ _ ltac:(reflexivity))
    as (_ & _ & H1 & _ & _ & _ & _ & text & H2 & H3 & _).
  split; [exact H1|]. rewrite H2, (H3 ltac:(reflexivity)). reflexivity.
Defined.


(** ** Pausing and resuming *)

(** [pauseStream] disables the video track of the component's stream and
    dims the video; [resumeStream] enables it again and restores the
    opacity.  Neither stops the track, touches another stream, changes
    which stream the component holds, or asks the device for anything. *)
Theorem pauseStream_then_resumeStream (w : World) (id : nat) (st : MediaStream) :
  stream (cameraManager w) = Some id ->
  streams (env w) !! id = Some st ->
  let w1 := snd (pauseStream w) in
  let w2 := snd (resumeStream w1) in
  streams (env w1) = <[id := mkStream (facingMode st) (videoWidth st) (videoHeight st)
                                      (live st) false]> (streams (env w))
  /\ video_opacity (cameraManager w1) = "0.5"
  /\ streams (env w2) = <[id := mkStream (facingMode st) (videoWidth st) (videoHeight st)
                                         (live st) true]> (streams (env w))
  /\ video_opacity (cameraManager w2) = "1"
  /\ stream (cameraManager w2) = Some id
  /\ isInitialized (cameraManager w2) = isInitialized (cameraManager w)
  /\ asked (env w2) = asked (env w)
  /\ devices (env w2) = devices (env w).
Proof.
  intros Hs Hst.
  assert (Hlt : (id < length (streams (env w)))%nat) by (eapply lookup_lt_Some; eauto).
  destruct w as [g [s i src vd vo cw ch errs] a [ls ss t iso net snt dev ask strs]].
  simpl in *. subst s. run_camera. simpl. rewrite Hst. simpl.
  rewrite list_lookup_insert_eq by assumption. simpl.
  rewrite list_insert_insert_eq. repeat split.
Qed.

Definition w_camera_on : World := page None 1280 720 Available Available [] [].

Lemma pauseStream_then_resumeStream_witness :
  streams (env (snd (pauseStream w_camera_on)))
  = [mkStream (Some "environment") 1280 720 true false]
  /\ streams (env (snd (resumeStream (snd (pauseStream w_camera_on)))))
     = [mkStream (Some "environment") 1280 720 true true].
Proof.
  destruct (pauseStream_then_resumeStream w_camera_on 0 _ ltac:(reflexivity) ltac:(reflexivity))
    as (H1 & _ & H3 & _).
  split; [exact H1 | exact H3].
Defined.

(** ** Releasing the camera *)

(** [destroy] never throws; it stops the track of the stream the
    component holds, forgets the stream and clears [isInitialized].
    Running it again changes nothing.  Afterwards [captureImage] answers
    [null], [switchCamera] answers false without asking the device, and
    pausing or resuming does nothing. *)
Theorem destroy_is_idempotent (w : World) :
  let w' := snd (destroy w) in
  fst (destroy w) = Normal tt
  /\ stream (cameraManager w') = None
  /\ isInitialized (cameraManager w') = false
  /\ (forall id st, stream (cameraManager w) = Some id -> streams (env w) !! id = Some st ->
        streams (env w') !! id
        = Some (mkStream (facingMode st) (videoWidth st) (videoHeight st) false (enabled st)))
  /\ destroy w' = (Normal tt, w')
  /\ captureImage w' = (Normal None, w')
  /\ switchCamera w' = (Normal false, w')
  /\ pauseStream w' = (Normal tt, w')
  /\ resumeStream w' = (Normal tt, w').
Proof.
  destruct w as [g [s i src vd vo cw ch errs] a [ls ss t iso net snt dev ask strs]].
  run_camera. simpl. destruct s as [id|]; simpl.
  - repeat split. intros id' st [= <-] Hst. rewrite Hst.
    apply list_lookup_insert_eq. eapply lookup_lt_Some; eauto.
  - repeat split. intros id st [=].
Qed.

(** ** Switching *)

(** Before [initialize] has succeeded, [switchCamera] answers false and
    does nothing.  On an initialised component it stops the track of the
    current stream and asks for exactly the opposite facing mode; when
    the device grants that, the answer is true and the new stream is the
    stream of the component and of the video element. *)
Theorem switchCamera_to_opposite (w : World) :
  (isInitialized (cameraManager w) = false -> switchCamera w = (Normal false, w))
  /\ (forall id st f width height rest,
        isInitialized (cameraManager w) = true ->
        stream (cameraManager w) = Some id ->
        streams (env w) !! id = Some st ->
        devices (env w) = Grants f width height :: rest ->
        let w' := snd (switchCamera w) in
        fst (switchCamera w) = Normal true
        /\ asked (env w')
           = (asked (env w)
              ++ [mkConstraints
                    (Exact (if match facingMode st with
                               | Some m => String.eqb m "environment"
                               | None => false
                               end then "user" else "environment"))
                    1280 1920 720 1080 false])%list
        /\ streams (env w')
           = (<[id := mkStream (facingMode st) (videoWidth st) (videoHeight st) false
                               (enabled st)]> (streams (env w))
              ++ [mkStream f width height true true])%list
        /\ stream (cameraManager w') = Some (length (streams (env w)))
        /\ video_srcObject (cameraManager w') = Some (length (streams (env w)))
        /\ isInitialized (cameraManager w') = true).
Proof.
  split.
  - intros H. unfold switchCamera, bind, gets. rewrite H. reflexivity.
  - intros id st f width height rest Hinit Hs Hst Hdev.
    assert (Hlt : (id < length (streams (env w)))%nat) by (eapply lookup_lt_Some; eauto).
    destruct w as [g [s i src vd vo cw ch errs] a [ls ss t iso net snt dev ask strs]].
    simpl in *. subst s i dev. run_camera. simpl. rewrite Hst. simpl.
    rewrite list_lookup_insert_eq by assumption. simpl.
    rewrite length_insert. repeat split.
    destruct (facingMode st) as [m|]; [destruct (String.eqb m "environment")|]; reflexivity.
Qed.

Definition w_two_cameras : World :=
  page None 1280 720 Available Available [] [Grants (Some "user") 640 480].

Lemma switchCamera_to_opposite_witness :
  fst (switchCamera w_two_cameras) = Normal true
  /\ asked (env (snd (switchCamera w_two_cameras)))
     = [mkConstraints (Exact "user") 1280 1920 720 1080 false]
  /\ streams (env (snd (switchCamera w_two_cameras)))
     = [ mkStream (Some "environment") 1280 720 false true;
         mkStream (Some "user") 640 480 true true ].
Proof.
  destruct (proj2 (switchCamera_to_opposite w_two_cameras) 0%nat _ _ _ _ _
              ltac:(reflexivity) ltac:(reflexivity) ltac:(reflexivity) ltac:(reflexivity))
    as (H1 & H2 & H3 & _).
  split; [exact H1|]. split; [exact H2 | exact H3].
Defined.


(** ** One live stream *)

(** Every stream whose track is live is the one the component holds. *)
Definition holds_every_live_stream (w : World) : Prop :=
  forall j s, streams (env w) !! j = Some s -> live s = true ->
              stream (cameraManager w) = Some j.

Lemma stopped_none_live (strs : list MediaStream) (id : nat) (st : MediaStream) :
  (forall j s, strs !! j = Some s -> live s = true -> Some id = Some j) ->
  strs !! id = Some st ->
  forall j s, <[id := stop st]> strs !! j = Some s -> live s = false.
Proof.
  intros Hinv Hst j s Hj. apply list_lookup_insert_Some in Hj.
  destruct Hj as [(-> & <- & _) | (Hne & Hj)]; [reflexivity|].
  destruct (live s) eqn:Hl; [|reflexivity].
  specialize (Hinv j s Hj Hl). congruence.
Qed.

Lemma fresh_is_held (strs : list MediaStream) (new : MediaStream) :
  (forall j s, strs !! j = Some s -> live s = false) ->
  forall j s, (strs ++ [new])%list !! j = Some s -> live s = true -> Some (length strs) = Some j.
Proof.
  intros Hnone j s Hj Hl. apply lookup_app_Some in Hj.
  destruct Hj as [Hj | (Hge & Hj)].
  - rewrite (Hnone j s Hj) in Hl. discriminate.
  - destruct (j - length strs)%nat eqn:E; [|destruct n; discriminate].
    f_equal. lia.
Qed.

(** No stream is left running behind the component: if every live
    stream is the one it holds, this is still so after pausing, resuming,
    capturing and switching, however the device answers, and after
    [initialize] on a component that holds no stream; and after [destroy]
    no stream is live at all. *)
Theorem one_live_stream (w : World) :
  holds_every_live_stream w ->
  holds_every_live_stream (snd (pauseStream w))
  /\ holds_every_live_stream (snd (resumeStream w))
  /\ holds_every_live_stream (snd (captureImage w))
  /\ holds_every_live_stream (snd (switchCamera w))
  /\ (stream (cameraManager w) = None -> holds_every_live_stream (snd (initialize w)))
  /\ (forall j s, streams (env (snd (destroy w))) !! j = Some s -> live s = false).
Proof.
  unfold holds_every_live_stream.
  destruct w as [g [s i src vd vo cw ch errs] a [ls ss t iso net snt dev ask strs]].
  simpl. intros Hinv.
  assert (Henabled : forall b id st j x,
             strs !! id = Some st ->
             <[id := set_enabled b st]> strs !! j = Some x -> live x = true -> s = Some j).
  { intros b id st j x Hst Hj Hl. apply list_lookup_insert_Some in Hj.
    destruct Hj as [(-> & <- & _) | (_ & Hj)]; [|now apply (Hinv j x)].
    apply (Hinv j st Hst Hl). }
  assert (Hnone : s = None -> forall j x, strs !! j = Some x -> live x = false).
  { intros -> j x Hj. destruct (live x) eqn:Hl; [|reflexivity].
    now specialize (Hinv j x Hj Hl). }
  repeat split.
  - run_camera. simpl. destruct s as [id|]; simpl; [|exact Hinv].
    destruct (strs !! id) as [st|] eqn:Hst; simpl; rewrite ?Hst; [|exact Hinv].
    intros j x. now apply Henabled.
  - run_camera. simpl. destruct s as [id|]; simpl; [|exact Hinv].
    destruct (strs !! id) as [st|] eqn:Hst; simpl; rewrite ?Hst; [|exact Hinv].
    intros j x. now apply Henabled.
  - run_camera. simpl. destruct i; simpl; exact Hinv.
  - run_camera. simpl. destruct i; simpl; [|exact Hinv].
    destruct s as [id|]; simpl.
    + destruct (strs !! id) as [st|] eqn:Hst; simpl; rewrite ?Hst; simpl.
      * pose proof (stopped_none_live strs id st Hinv Hst) as Hstopped.
        rewrite ?list_lookup_insert_eq by (eapply lookup_lt_Some; eauto). simpl.
        destruct dev as [|[f wd ht|e] [|[f' wd' ht'|e'] rest]]; simpl; rewrite ?Hst;
          try (intros j x Hj Hl; rewrite (Hstopped j x Hj) in Hl; discriminate);
          now apply fresh_is_held.
      * assert (Hdead : forall j x, strs !! j = Some x -> live x = false).
        { intros j x Hj. destruct (live x) eqn:Hl; [|reflexivity].
          specialize (Hinv j x Hj Hl). injection Hinv as ->. congruence. }
        destruct dev as [|[f wd ht|e] [|[f' wd' ht'|e'] rest]]; simpl; rewrite ?Hst;
          try (intros j x Hj Hl; rewrite (Hdead j x Hj) in Hl; discriminate);
          now apply fresh_is_held.
    + specialize (Hnone eq_refl).
      destruct dev as [|[f wd ht|e] rest]; simpl;
        try (intros j x Hj Hl; rewrite (Hnone j x Hj) in Hl; discriminate);
        now apply fresh_is_held.
  - intros ->. specialize (Hnone eq_refl). run_camera. simpl.
    destruct dev as [|[f wd ht|e] rest]; simpl;
      try (intros j x Hj Hl; rewrite (Hnone j x Hj) in Hl; discriminate);
      try (now apply fresh_is_held).
  - run_camera. simpl. destruct s as [id|]; simpl.
    + destruct (strs !! id) as [st|] eqn:Hst; simpl; rewrite ?Hst.
      * now apply (stopped_none_live strs id st).
      * intros j x Hj. destruct (live x) eqn:Hl; [|reflexivity].
        specialize (Hinv j x Hj Hl). injection Hinv as ->. congruence.
    + now apply Hnone.
Qed.

Lemma one_live_stream_witness :
  holds_every_live_stream (snd (switchCamera w_two_cameras))
  /\ (forall j s, streams (env (snd (destroy w_two_cameras))) !! j = Some s -> live s = false).
Proof.
  assert (H : holds_every_live_stream w_two_cameras).
  { intros [|[|j]] s Hj Hl; try discriminate. reflexivity. }
  destruct (one_live_stream w_two_cameras H) as (_ & _ & _ & H4 & _ & H6).
  split; [exact H4 | exact H6].
Defined.

End LifecycleFacts.

(* ===================================================================== *)
(** * Facts about the size of the captured frame *)
(* ===================================================================== *)

Module FrameFacts.
Import CameraManager Samples.

(** ** The size of the canvas, frame by frame *)

(** The two numbers [captureImage] assigns to the canvas for a frame of
    [vw] x [vh]. *)
Definition scaled (vw vh : Z) : float * float :=
  let maxWidth := number 1024 in
  let maxHeight := number 768 in
  let width := number vw in
  let height := number vh in
  if PrimFloat.ltb maxWidth width || PrimFloat.ltb maxHeight height then
    let aspectRatio := PrimFloat.div width height in
    if PrimFloat.ltb height width
    then (maxWidth, PrimFloat.div maxWidth aspectRatio)
    else (PrimFloat.mul maxHeight aspectRatio, maxHeight)
  else (width, height).

Lemma captureImage_scaled (w : World) (id : nat) (st : MediaStream) :
  isInitialized (cameraManager w) = true ->
  video_srcObject (cameraManager w) = Some id ->
  streams (env w) !! id = Some st ->
  captureImage w
  = (Normal (Some (CanvasData "image/jpeg" 0.7%float
                     (to_unsigned_long (fst (scaled (videoWidth st) (videoHeight st))))
                     (to_unsigned_long (snd (scaled (videoWidth st) (videoHeight st)))))),
     on_camera (with_canvas
                  (to_unsigned_long (fst (scaled (videoWidth st) (videoHeight st))))
                  (to_unsigned_long (snd (scaled (videoWidth st) (videoHeight st))))) w).
Proof.
  intros Hi Hsrc Hst. unfold captureImage, bind at 1, gets at 1. rewrite Hi. cbn [negb].
  unfold try_catch, bind, video_size, gets, modify, ret. rewrite Hsrc, Hst.
  cbn [fst snd]. reflexivity.
Qed.

(** The conversion with shifts for the powers of two. *)
Definition truncate (x : float) : Z :=
  match Prim2SF x with
  | S754_finite sign m e =>
      let magnitude := if 0 <=? e then Z.shiftl (Z.pos m) e else Z.shiftr (Z.pos m) (- e) in
      (if sign then - magnitude else magnitude) mod 4294967296
  | _ => 0
  end.

Lemma to_unsigned_long_truncate (x : float) : to_unsigned_long x = truncate x.
Proof.
  unfold to_unsigned_long, truncate. destruct (Prim2SF x); try reflexivity.
  change (2 ^ 32) with 4294967296.
  destruct (0 <=? e) eqn:E.
  - rewrite Z.shiftl_mul_pow2 by lia. reflexivity.
  - rewrite Z.shiftr_div_pow2 by lia. reflexivity.
Qed.

Fixpoint upto (n : nat) (z : Z) : list Z :=
  match n with
  | O => []
  | S n' => z :: upto n' (z + 1)
  end.

Lemma in_upto (n : nat) (a z : Z) : a <= z < a + Z.of_nat n -> In z (upto n a).
Proof.
  revert a. induction n as [|n IH]; intros a H; [lia|].
  simpl. destruct (Z.eq_dec a z) as [->|Hne]; [now left | right].
  apply IH. lia.
Qed.

Lemma forallb_upto (f : Z -> bool) (n : nat) (a z : Z) :
  forallb f (upto n a) = true -> a <= z < a + Z.of_nat n -> f z = true.
Proof.
  intros H Hz. rewrite forallb_forall in H. apply H. now apply in_upto.
Qed.

(** What is checked of one side: it is compared with the caps as the
    integer it is, and converts back to itself. *)
Definition side_ok (v : Z) : bool :=
  Bool.eqb (PrimFloat.ltb (number 1024) (number v)) (1024 <? v)
  && Bool.eqb (PrimFloat.ltb (number 768) (number v)) (768 <? v)
  && (truncate (number v) =? v).

(** What is checked of one frame wider than 1024: it counts as wider
    than high, and the height it is given is [1024 * vh / vw] rounded
    down, or one less. *)
Definition frame_ok (vw vh : Z) : bool :=
  let ch := truncate (PrimFloat.div (number 1024) (PrimFloat.div (number vw) (number vh))) in
  PrimFloat.ltb (number vh) (number vw)
  && (ch * vw <=? 1024 * vh) && (1024 * vh <? (ch + 2) * vw).

Lemma sides_checked : forallb side_ok (upto 1281 0) = true.
Proof. vm_cast_no_check (eq_refl true). Qed.

Lemma frames_checked :
  (let heights := upto 721 0 in
   forallb (fun vw => forallb (frame_ok vw) heights) (upto 256 1025)) = true.
Proof. vm_cast_no_check (eq_refl true). Qed.

Lemma side_checked (v : Z) :
  0 <= v <= 1280 ->
  PrimFloat.ltb (number 1024) (number v) = (1024 <? v)
  /\ PrimFloat.ltb (number 768) (number v) = (768 <? v)
  /\ to_unsigned_long (number v) = v.
Proof.
  intros Hv. pose proof (forallb_upto _ _ _ v sides_checked ltac:(lia)) as H.
  unfold side_ok in H. rewrite !andb_true_iff, !eqb_true_iff, Z.eqb_eq in H.
  rewrite to_unsigned_long_truncate. tauto.
Qed.

Lemma frame_checked (vw vh : Z) :
  1024 < vw <= 1280 -> 0 <= vh <= 720 -> frame_ok vw vh = true.
Proof.
  intros Hw Hh. pose proof frames_checked as H. cbv zeta in H.
  apply (forallb_upto _ _ _ vw) in H; [|lia].
  apply (forallb_upto _ _ _ vh) in H; [exact H | lia].
Qed.

(** For every frame up to 1280 x 720, the resolution [initialize] asks
    for as ideal, an initialised component captures a JPEG at quality 0.7
    within both caps.  A frame at most 1024 wide is taken as it is.  A
    wider frame is given the width 1024 and the height
    [1024 * vh / vw] rounded down, or one less than that. *)
Theorem captureImage_within_ideal (w : World) (id : nat) (st : MediaStream) :
  isInitialized (cameraManager w) = true ->
  video_srcObject (cameraManager w) = Some id ->
  streams (env w) !! id = Some st ->
  0 <= videoWidth st <= 1280 ->
  0 <= videoHeight st <= 720 ->
  exists cw ch,
    fst (captureImage w) = Normal (Some (CanvasData "image/jpeg" 0.7%float cw ch))
    /\ canvas_width (cameraManager (snd (captureImage w))) = cw
    /\ canvas_height (cameraManager (snd (captureImage w))) = ch
    /\ cw <= 1024 /\ ch <= 768
    /\ (videoWidth st <= 1024 -> cw = videoWidth st /\ ch = videoHeight st)
    /\ (1024 < videoWidth st ->
        cw = 1024
        /\ 1024 * videoHeight st / videoWidth st - 1 <= ch
           <= 1024 * videoHeight st / videoWidth st).
Proof.
  intros Hi Hsrc Hst Hw Hh. rewrite (captureImage_scaled w id st Hi Hsrc Hst).
  set (vw := videoWidth st) in *. set (vh := videoHeight st) in *.
  eexists _, _. split; [reflexivity|]. split; [reflexivity|]. split; [reflexivity|].
  cbn [fst snd].
  destruct (side_checked vw Hw) as (Hw1 & _ & Hw3).
  destruct (side_checked vh ltac:(lia)) as (_ & Hh2 & Hh3).
  unfold scaled. rewrite Hw1, Hh2.
  replace (768 <? vh) with false by lia. rewrite orb_false_r.
  destruct (1024 <? vw) eqn:E.
  - apply Z.ltb_lt in E.
    pose proof (frame_checked vw vh ltac:(lia) Hh) as H. unfold frame_ok in H.
    rewrite !andb_true_iff, Z.leb_le, Z.ltb_lt in H. destruct H as ((Hlt & Hlo) & Hhi).
    rewrite Hlt. cbn [fst snd].
    destruct (side_checked 1024 ltac:(lia)) as (_ & _ & H1024). rewrite H1024.
    rewrite to_unsigned_long_truncate.
    set (ch := truncate _) in *.
    assert (Hq1 : ch <= 1024 * vh / vw) by (apply Z.div_le_lower_bound; lia).
    assert (Hq2 : 1024 * vh / vw < ch + 2) by (apply Z.div_lt_upper_bound; lia).
    assert (Hq3 : 1024 * vh / vw <= vh) by (apply Z.div_le_upper_bound; nia).
    repeat split; lia.
  - apply Z.ltb_ge in E. cbn [fst snd]. rewrite Hw3, Hh3. repeat split; lia.
Qed.

Definition w_hd : World := page None 1280 720 Available Available [] [].

Lemma captureImage_within_ideal_witness :
  exists cw ch,
    fst (captureImage w_hd) = Normal (Some (CanvasData "image/jpeg" 0.7%float cw ch))
    /\ cw = 1024 /\ 575 <= ch <= 576.
Proof.
  destruct (captureImage_within_ideal w_hd 0 _ ltac:(reflexivity) ltac:(reflexivity)
              ltac:(reflexivity) ltac:(simpl; lia) ltac:(simpl; lia))
    as (cw & ch & H1 & _ & _ & _ & _ & _ & H7).
  exists cw, ch. split; [exact H1|].
  destruct (H7 ltac:(simpl; lia)) as (Hcw & Hch). split; [exact Hcw|].
  change (1024 * videoHeight _ / videoWidth _) with 576 in Hch. lia.
Defined.

End FrameFacts.

(* ===================================================================== *)
(** * Facts about the two analysis cycles *)
(* ===================================================================== *)

Module CycleFacts.
Import FoodAnalyzerApp Data Samples JSONFacts GroqFacts AppFacts.

(** ** The cycle always ends *)

Lemma resumeStream_total (w : World) :
  exists strs o,
    CameraManager.resumeStream w
    = (Normal tt, on_camera (with_video_opacity o) (on_env (with_streams strs) w)).
Proof.
  unfold CameraManager.resumeStream, bind, gets, update_stream, modify, ret.
  destruct w as [g [s i src vd vo cw ch errs] ap e]. simpl.
  destruct s as [id|]; simpl.
  - eexists _, _. reflexivity.
  - exists (streams e), vo. destruct e. reflexivity.
Qed.

(** The elements of the page once the loading state is taken back. *)
Definition idle (ap : AppObject) : AppObject :=
  with_analyzeBtn (mkButton "📸 Analyze Food" false (display (analyzeBtn ap)))
    (with_loading_hidden true ap).

Lemma hideLoading_run (w : World) :
  exists strs o,
    hideLoading w
    = (Normal tt, on_camera (with_video_opacity o) (on_env (with_streams strs) (on_app idle w))).
Proof.
  unfold hideLoading.
  erewrite (bind_normal (modify _)) by reflexivity.
  erewrite (bind_normal (modify _)) by reflexivity.
  match goal with
  | |- context [CameraManager.resumeStream ?W] =>
      destruct (resumeStream_total W) as (strs & o & H); rewrite H
  end.
  exists strs, o. destruct w as [g c ap e]. reflexivity.
Qed.

(** The two handlers: what the camera action and the upload do with an
    error.  Neither throws. *)
Lemma upload_handler_run (message : string) (w : World) :
  exists strs o,
    (showError message ;; hideLoading) w
    = (Normal tt,
       on_camera (with_video_opacity o)
         (on_env (with_streams strs)
            (on_app (fun ap => idle (with_error_message (Some message) ap)) w))).
Proof.
  unfold showError. erewrite (bind_normal (modify _)) by reflexivity.
  match goal with
  | |- context [hideLoading ?W] => destruct (hideLoading_run W) as (strs & o & H); rewrite H
  end.
  exists strs, o. destruct w as [g c ap e]. reflexivity.
Qed.

Lemma camera_handler_run (message : string) (w : World) :
  exists strs o,
    (showError message ;; hideLoading ;; CameraManager.resumeStream) w
    = (Normal tt,
       on_camera (with_video_opacity o)
         (on_env (with_streams strs)
            (on_app (fun ap => idle (with_error_message (Some message) ap)) w))).
Proof.
  unfold showError. erewrite (bind_normal (modify _)) by reflexivity.
  match goal with
  | |- context [bind hideLoading _ ?W] =>
      destruct (hideLoading_run W) as (strs & o & H);
      erewrite (bind_normal hideLoading) by exact H
  end.
  match goal with
  | |- context [CameraManager.resumeStream ?W] =>
      destruct (resumeStream_total W) as (strs' & o' & H2); rewrite H2
  end.
  exists strs', o'. destruct w as [g c ap e]. reflexivity.
Qed.

Lemma handleFileUpload_resets (w : World) (f : File) :
  startsWith (file_type f) "image/" = true -> file_size f <= 10485760 ->
  isAnalyzing (app (snd (handleFileUpload (Some f) w))) = false
  /\ fileUpload_value (app (snd (handleFileUpload (Some f) w))) = "".
Proof.
  intros Ht Hs. unfold handleFileUpload. rewrite Ht. cbn [negb].
  replace (10 * 1024 * 1024 <? file_size f) with false by lia.
  unfold try_finally, try_catch.
  match goal with |- context [bind ?m ?k w] => destruct (bind m k w) as [[[]|e] w1] end.
  - split; reflexivity.
  - destruct (upload_handler_run ("Analysis failed: " ++ error_message e) w1)
      as (strs & o & ->). split; reflexivity.
Qed.

(** Neither entry point ever throws, whatever the camera, the network
    and the storage areas do, and both leave [isAnalyzing] false: the
    camera action whenever it found it false, the upload of a file that
    passes validation always (it also empties the file input). *)
Theorem cycle_always_ends (w : World) (f : File) :
  fst (analyzeFood w) = Normal tt
  /\ (isAnalyzing (app w) = false -> isAnalyzing (app (snd (analyzeFood w))) = false)
  /\ fst (handleFileUpload (Some f) w) = Normal tt
  /\ (startsWith (file_type f) "image/" = true -> file_size f <= 10485760 ->
      isAnalyzing (app (snd (handleFileUpload (Some f) w))) = false
      /\ fileUpload_value (app (snd (handleFileUpload (Some f) w))) = "").
Proof.
  split; [|split; [|split]].
  - unfold analyzeFood, bind at 1, gets at 1.
    destruct (isAnalyzing (app w)); [reflexivity|].
    unfold try_finally, try_catch.
    match goal with |- context [bind ?m ?k w] => destruct (bind m k w) as [[[]|e] w1] end.
    + reflexivity.
    + destruct (camera_handler_run ("Analysis failed: " ++ error_message e) w1)
        as (strs & o & ->). reflexivity.
  - intros Hidle. unfold analyzeFood, bind at 1, gets at 1. rewrite Hidle.
    unfold try_finally, try_catch.
    match goal with |- context [bind ?m ?k w] => destruct (bind m k w) as [[[]|e] w1] end.
    + reflexivity.
    + destruct (camera_handler_run ("Analysis failed: " ++ error_message e) w1)
        as (strs & o & ->). reflexivity.
  - unfold handleFileUpload.
    destruct (startsWith (file_type f) "image/"); [|reflexivity]. cbn [negb].
    destruct (10 * 1024 * 1024 <? file_size f); [reflexivity|].
    unfold try_finally, try_catch.
    match goal with |- context [bind ?m ?k w] => destruct (bind m k w) as [[[]|e] w1] end.
    + reflexivity.
    + destruct (upload_handler_run ("Analysis failed: " ++ error_message e) w1)
        as (strs & o & ->). reflexivity.
  - apply handleFileUpload_resets.
Qed.


(** ** From the image to the display *)

(** The steps the camera action and the upload share once they have an
    image. *)
Definition process (image : DataURL) : M unit :=
  analysis <- GroqAPI.analyzeFood image ;;
  audioBlob <- voice_or_null analysis ;;
  saveToHistory analysis ;;
  showResults analysis audioBlob.

(** What the vision call answers depends on the client, the storage
    areas and the network alone. *)
Lemma current_key_frame (w w1 : World) :
  groqAPI w1 = groqAPI w ->
  localStorage (env w1) = localStorage (env w) ->
  sessionStorage (env w1) = sessionStorage (env w) ->
  current_key w1 = current_key w.
Proof. intros Hg Hl Hs. unfold current_key. now rewrite Hg, Hl, Hs. Qed.

Lemma vision_frame (image image' : DataURL) (w w1 : World) :
  groqAPI w1 = groqAPI w ->
  localStorage (env w1) = localStorage (env w) ->
  sessionStorage (env w1) = sessionStorage (env w) ->
  network (env w1) = network (env w) ->
  fst (GroqAPI.analyzeFood image' w1) = fst (GroqAPI.analyzeFood image w).
Proof.
  intros Hg Hl Hs Hn.
  pose proof (configured_frame w w1 Hg Hl Hs) as Hc.
  destruct (configured_or_not w) as [H|H].
  - rewrite (analyzeFood_run image w H), (analyzeFood_run image' w1) by congruence.
    cbn [fst]. now rewrite Hn.
  - rewrite (analyzeFood_needs_key image w H), (analyzeFood_needs_key image' w1) by congruence.
    reflexivity.
Qed.

(** The vision call leaves the page, the camera and the storage areas
    alone, and sends at most its one request. *)
Lemma vision_effect (image : DataURL) (w : World) :
  let w' := snd (GroqAPI.analyzeFood image w) in
  app w' = app w /\ cameraManager w' = cameraManager w
  /\ localStorage (env w') = localStorage (env w)
  /\ sessionStorage (env w') = sessionStorage (env w)
  /\ streams (env w') = streams (env w)
  /\ now (env w') = now (env w) /\ nowISO (env w') = nowISO (env w)
  /\ (length (sent (env w')) <= S (length (sent (env w))))%nat.
Proof.
  destruct (configured_or_not w) as [H|H].
  - rewrite (analyzeFood_run image w H). cbn [snd].
    assert (Hrem : forall o w0, app (remember o w0) = app w0
                                /\ cameraManager (remember o w0) = cameraManager w0
                                /\ env (remember o w0) = env w0).
    { intros o w0. unfold remember. destruct o as [a|]; [|repeat split].
      destruct (get a "recipes"); repeat split. }
    destruct (Hrem (settle vision_outcome (network (env w)))
                (after_fetch (vision_request (current_key w) image)
                   (on_groq (with_apiKey (current_key w)) w))) as (-> & -> & ->).
    simpl. rewrite length_app. simpl. repeat split. lia.
  - rewrite (analyzeFood_needs_key image w H). simpl. repeat split. lia.
Qed.

Lemma process_fails (image : DataURL) (w : World) (e : JSError) :
  fst (GroqAPI.analyzeFood image w) = Throw e ->
  process image w = (Throw e, snd (GroqAPI.analyzeFood image w)).
Proof.
  intros H. unfold process, bind at 1.
  destruct (GroqAPI.analyzeFood image w) as [[a|e'] w']; simpl in *; congruence.
Qed.


Definition audio_of (outcome : Completion string) : option string :=
  match outcome with
  | Normal blob => Some blob
  | Throw _ => None
  end.

(** The elements of the page once the results of [a] are shown, with
    [audio] or without. *)
Definition shown (a : AnalysisResult) (audio : option string) (ap : AppObject) : AppObject :=
  with_results_hidden false
    (with_recipeButtons (fst (label_buttons (js_of_recipes (result_recipes a)) 0
                                            (recipeButtons ap)))
       (match audio with
        | Some blob => with_audioPlayer (Some blob) "block"
        | None => with_audioPlayer (audioPlayer_src ap) "none"
        end (with_foodDetectedEl (result_foodDetected a) (idle ap)))).

Lemma showResults_total (a : AnalysisResult) (audio : option string) (w : World) :
  exists strs o,
    showResults (js_of_analysis a) audio w
    = (Normal tt,
       on_camera (with_video_opacity o) (on_env (with_streams strs) (on_app (shown a audio) w))).
Proof.
  unfold showResults.
  destruct (hideLoading_run w) as (strs & o & H).
  erewrite (bind_normal hideLoading) by exact H.
  exists strs, o.
  pose proof (label_buttons_array (map js_of_recipe (result_recipes a)) 0
                                  (recipeButtons (app w))) as Hl.
  fold (js_of_recipes (result_recipes a)) in Hl.
  destruct w as [g c ap e].
  unfold bind, gets, modify, ret, lift, throw, shown.
  change (get (js_of_analysis a) "foodDetected") with (Normal (JStr (result_foodDetected a))).
  change (get (js_of_analysis a) "recipes") with (Normal (js_of_recipes (result_recipes a))).
  cbn [app] in Hl.
  destruct audio as [blob|]; simpl;
    destruct (label_buttons (js_of_recipes (result_recipes a)) 0 (recipeButtons ap))
      as [btns' r] eqn:E;
    simpl in Hl; subst r; unfold on_app, on_camera, on_env; simpl; rewrite E; reflexivity.
Qed.

(** The world after the optional speech step. *)
Definition after_speech (fd rs : JSValue) (w : World) : World :=
  match GroqAPI.description fd rs with
  | Normal input =>
      after_fetch (speech_request (current_key w) input)
                  (on_groq (with_apiKey (current_key w)) w)
  | Throw _ => on_groq (with_apiKey (current_key w)) w
  end.

Lemma voice_or_null_run (a : AnalysisResult) (w : World) :
  fst (GroqAPI.isConfigured w) = Normal true ->
  voice_or_null (js_of_analysis a) w
  = (Normal (audio_of (speech_of (JStr (result_foodDetected a))
                                 (js_of_recipes (result_recipes a)) (network (env w)))),
     after_speech (JStr (result_foodDetected a)) (js_of_recipes (result_recipes a)) w).
Proof.
  intros Hc. unfold voice_or_null, try_catch, bind, lift, after_speech, speech_of.
  change (get (js_of_analysis a) "foodDetected") with (Normal (JStr (result_foodDetected a))).
  change (get (js_of_analysis a) "recipes") with (Normal (js_of_recipes (result_recipes a))).
  cbv iota beta.
  rewrite (generateVoiceDescription_run _ _ w Hc).
  destruct (GroqAPI.description _ _) as [input|e]; [|reflexivity].
  destruct (settle speech_outcome (network (env w))); reflexivity.
Qed.

(** The requests of one successful pass. *)
Definition requests (k : option string) (image : DataURL) (a : AnalysisResult)
  : list Request :=
  vision_request k image
  :: match GroqAPI.description (JStr (result_foodDetected a))
                               (js_of_recipes (result_recipes a)) with
     | Normal input => [speech_request k input]
     | Throw _ => []
     end.

Lemma process_succeeds (image : DataURL) (a : AnalysisResult) (w : World) :
  fst (GroqAPI.analyzeFood image w) = Normal (js_of_analysis a) ->
  exists w',
    process image w = (Normal tt, w')
    /\ app w'
       = shown a (audio_of (speech_of (JStr (result_foodDetected a))
                                      (js_of_recipes (result_recipes a))
                                      (tl (network (env w)))))
               (app w)
    /\ localStorage (env w')
       = saved (historyItem (now (env w)) (nowISO (env w)) (JStr (result_foodDetected a))
                            (js_of_recipes (result_recipes a)))
               (localStorage (env w))
    /\ sessionStorage (env w') = sessionStorage (env w)
    /\ sent (env w') = (sent (env w) ++ requests (current_key w) image a)%list
    /\ recipes (groqAPI w') = js_of_recipes (result_recipes a)
    /\ isInitialized (cameraManager w') = isInitialized (cameraManager w)
    /\ stream (cameraManager w') = stream (cameraManager w).
Proof.
  intros Hvision.
  destruct (vision_call_succeeded _ _ _ Hvision) as (Hc & Hv).
  pose proof (key_ok_has_key _ (configured_key w Hc)) as Hkey.
  unfold process.
  erewrite (bind_normal (GroqAPI.analyzeFood image))
    by (rewrite (analyzeFood_run image w Hc), Hv; reflexivity).
  cbn [remember].
  change (get (js_of_analysis a) "recipes")
    with (Normal (js_of_recipes (result_recipes a))). cbv iota.
  set (k := current_key w) in *.
  set (w2 := on_groq (with_recipes (js_of_recipes (result_recipes a)))
               (after_fetch (vision_request k image) (on_groq (with_apiKey k) w))).
  assert (Hk2 : current_key w2 = k).
  { unfold current_key, found_key. cbn [w2 groqAPI on_groq with_recipes with_apiKey apiKey].
    unfold after_fetch. cbn [groqAPI on_env on_groq with_apiKey apiKey]. now rewrite Hkey. }
  assert (Hc2 : fst (GroqAPI.isConfigured w2) = Normal true).
  { rewrite isConfigured_run. cbn [fst]. rewrite Hk2. f_equal. now apply configured_key. }
  erewrite (bind_normal (voice_or_null _)) by (apply (voice_or_null_run a w2 Hc2)).
  erewrite (bind_normal (saveToHistory _))
    by (apply (saveToHistory_run _ (JStr (result_foodDetected a))
                 (js_of_recipes (result_recipes a))); reflexivity).
  match goal with
  | |- context [showResults _ ?A ?W] =>
      destruct (showResults_total a A W) as (strs & o & Hshow); rewrite Hshow
  end.
  eexists. split; [reflexivity|].
  unfold after_speech, requests. rewrite Hk2.
  destruct (GroqAPI.description _ _) as [input|e];
    destruct w as [g c ap [ls ss t iso net snt dev ask strs0]];
    cbn; rewrite <- ?app_assoc; repeat split.
Qed.


(** ** The two entry points *)

(** The elements of the page while an analysis runs. *)
Definition loading (ap : AppObject) : AppObject :=
  with_analyzeBtn (mkButton "🔄 Analyzing..." true (display (analyzeBtn ap)))
    (with_results_hidden true (with_loading_hidden false (with_isAnalyzing true ap))).

(** Nothing but the page and the camera differs. *)
Definition same_service (w w1 : World) : Prop :=
  groqAPI w1 = groqAPI w
  /\ localStorage (env w1) = localStorage (env w)
  /\ sessionStorage (env w1) = sessionStorage (env w)
  /\ network (env w1) = network (env w)
  /\ sent (env w1) = sent (env w)
  /\ now (env w1) = now (env w)
  /\ nowISO (env w1) = nowISO (env w).

Lemma analyzeFood_as_process (w : World) :
  isAnalyzing (app w) = false ->
  isInitialized (cameraManager w) = true ->
  exists w1 cw ch,
    analyzeFood w
    = try_finally
        (try_catch (process (CanvasData "image/jpeg" 0.7%float cw ch))
           (fun error =>
              showError ("Analysis failed: " ++ error_message error) ;;
              hideLoading ;;
              CameraManager.resumeStream))
        (set_isAnalyzing false) w1
    /\ app w1 = loading (app w)
    /\ same_service w w1
    /\ isInitialized (cameraManager w1) = true
    /\ stream (cameraManager w1) = stream (cameraManager w).
Proof.
  intros Hidle Hinit. unfold analyzeFood.
  rewrite (bind_normal _ _ w w false) by (unfold gets; now rewrite Hidle).
  cbv iota. unfold try_finally at 1, try_catch at 1.
  erewrite (bind_normal (set_isAnalyzing true)) by reflexivity.
  erewrite (bind_normal showLoading) by reflexivity.
  match goal with
  | |- context [bind CameraManager.pauseStream _ ?W] =>
      destruct (pauseStream_run W) as (strs & o & Hp)
  end.
  erewrite (bind_normal CameraManager.pauseStream) by exact Hp.
  match goal with
  | |- context [bind CameraManager.captureImage _ ?W] =>
      destruct (captureImage_run W) as (cw & ch & Hcap); [exact Hinit|]
  end.
  erewrite (bind_normal CameraManager.captureImage) by exact Hcap.
  cbv iota. clear Hp Hcap.
  eexists _, cw, ch. split; [reflexivity|].
  unfold same_service. destruct w as [g c ap e]. destruct e. repeat split.
  exact Hinit.
Qed.

Lemma handleFileUpload_as_process (w : World) (f : File) (contents : string) :
  startsWith (file_type f) "image/" = true ->
  file_size f <= 10485760 ->
  file_read f = Normal contents ->
  handleFileUpload (Some f) w
  = try_finally
      (try_catch (process (FileData contents))
         (fun error =>
            showError ("Analysis failed: " ++ error_message error) ;;
            hideLoading))
      (set_isAnalyzing false ;; modify (on_app (with_fileUpload_value "")))
      (on_app loading w).
Proof.
  intros Ht Hs Hr. unfold handleFileUpload. rewrite Ht. cbn [negb].
  replace (10 * 1024 * 1024 <? file_size f) with false by lia.
  unfold try_finally at 1, try_catch at 1.
  erewrite (bind_normal (set_isAnalyzing true)) by reflexivity.
  erewrite (bind_normal showLoading) by reflexivity.
  rewrite Hr.
  erewrite (bind_normal (lift _)) by reflexivity.
  destruct w as [g c ap e]. reflexivity.
Qed.


(** When the vision call throws, the camera action reports it and goes
    back to idle: the message "Analysis failed: ..." is shown with the
    message of the error, the loading indicator is hidden and the button
    is enabled again, the results section stays hidden, and nothing is
    written to the history; at most the one vision request was sent. *)
Theorem failed_analysis_is_reported (w : World) (image : DataURL) (e : JSError) :
  isAnalyzing (app w) = false ->
  isInitialized (cameraManager w) = true ->
  fst (GroqAPI.analyzeFood image w) = Throw e ->
  let w' := snd (analyzeFood w) in
  fst (analyzeFood w) = Normal tt
  /\ error_message_el (app w') = Some ("Analysis failed: " ++ error_message e)
  /\ isAnalyzing (app w') = false
  /\ loading_hidden (app w') = true
  /\ results_hidden (app w') = true
  /\ analyzeBtn (app w') = mkButton "📸 Analyze Food" false (display (analyzeBtn (app w)))
  /\ foodDetectedEl (app w') = foodDetectedEl (app w)
  /\ recipeButtons (app w') = recipeButtons (app w)
  /\ localStorage (env w') = localStorage (env w)
  /\ (length (sent (env w')) <= S (length (sent (env w))))%nat.
Proof.
  intros Hidle Hinit Hvision.
  destruct (analyzeFood_as_process w Hidle Hinit)
    as (w1 & cw & ch & -> & Happ & (Hg & Hl & Hs & Hn & Hsent & _) & _ & _).
  set (img := CanvasData "image/jpeg" 0.7%float cw ch).
  assert (Hv1 : fst (GroqAPI.analyzeFood img w1) = Throw e)
    by (rewrite <- Hvision; now apply vision_frame).
  destruct (vision_effect img w1) as (Ha2 & _ & Hl2 & _ & _ & _ & _ & Hsent2).
  unfold try_finally, try_catch. rewrite (process_fails img w1 e Hv1).
  destruct (camera_handler_run ("Analysis failed: " ++ error_message e)
              (snd (GroqAPI.analyzeFood img w1))) as (strs & o & ->).
  unfold set_isAnalyzing, modify. cbn [fst snd].
  cbn [app env on_app on_camera on_env localStorage sent with_streams].
  rewrite Ha2, Happ, Hl2, Hl. rewrite Hsent in Hsent2.
  destruct (app w). repeat split. exact Hsent2.
Qed.

Definition w_offline : World :=
  page (Some "gsk_live") 1280 720 Available Available [Rejects (TypeError "Failed to fetch")] [].

Lemma failed_analysis_is_reported_witness :
  error_message_el (app (snd (analyzeFood w_offline)))
  = Some "Analysis failed: Failed to fetch"
  /\ items (localStorage (env (snd (analyzeFood w_offline)))) !! "analysis_history" = None.
Proof.
  destruct (failed_analysis_is_reported w_offline photo (TypeError "Failed to fetch")
              ltac:(reflexivity) ltac:(reflexivity) ltac:(reflexivity))
    as (_ & H2 & _ & _ & _ & _ & _ & _ & H9 & _).
  split; [exact H2 | now rewrite H9].
Defined.


Lemma speech_after_vision (image : DataURL) (a : AnalysisResult) (w : World) :
  fst (GroqAPI.analyzeFood image w) = Normal (js_of_analysis a) ->
  fst (GroqAPI.generateVoiceDescription
         (JStr (result_foodDetected a)) (js_of_recipes (result_recipes a))
         (snd (GroqAPI.analyzeFood image w)))
  = speech_of (JStr (result_foodDetected a)) (js_of_recipes (result_recipes a))
              (tl (network (env w))).
Proof.
  intros Hvision.
  destruct (vision_call_succeeded _ _ _ Hvision) as (Hc & Hv).
  rewrite (analyzeFood_run image w Hc), Hv. cbn [snd remember].
  change (get (js_of_analysis a) "recipes")
    with (Normal (js_of_recipes (result_recipes a))).
  cbv iota.
  rewrite generateVoiceDescription_outcome; [reflexivity|].
  apply isConfigured_cached. simpl. now apply configured_key.
Qed.

(** When the vision call returns a result and the speech call returns
    audio, the camera action shows the result with the audio attached
    and the player visible, has written the result to the history, and
    has sent exactly the vision request and the speech request. *)
Theorem analysis_with_audio_is_played (w : World) (image : DataURL) (a : AnalysisResult)
        (blob : string) :
  isAnalyzing (app w) = false ->
  isInitialized (cameraManager w) = true ->
  fst (GroqAPI.analyzeFood image w) = Normal (js_of_analysis a) ->
  fst (GroqAPI.generateVoiceDescription
         (JStr (result_foodDetected a)) (js_of_recipes (result_recipes a))
         (snd (GroqAPI.analyzeFood image w))) = Normal blob ->
  let w' := snd (analyzeFood w) in
  fst (analyzeFood w) = Normal tt
  /\ isAnalyzing (app w') = false
  /\ loading_hidden (app w') = true
  /\ results_hidden (app w') = false
  /\ foodDetectedEl (app w') = result_foodDetected a
  /\ audioPlayer_src (app w') = Some blob
  /\ audioPlayer_display (app w') = "block"
  /\ recipeButtons (app w')
     = fst (label_buttons (js_of_recipes (result_recipes a)) 0 (recipeButtons (app w)))
  /\ error_message_el (app w') = error_message_el (app w)
  /\ recipes (groqAPI w') = js_of_recipes (result_recipes a)
  /\ localStorage (env w')
     = saved (historyItem (now (env w)) (nowISO (env w)) (JStr (result_foodDetected a))
                          (js_of_recipes (result_recipes a)))
             (localStorage (env w))
  /\ exists cw ch input,
       GroqAPI.description (JStr (result_foodDetected a)) (js_of_recipes (result_recipes a))
       = Normal input
       /\ sent (env w')
          = (sent (env w)
             ++ [ vision_request (current_key w) (CanvasData "image/jpeg" 0.7%float cw ch);
                  speech_request (current_key w) input ])%list.
Proof.
  intros Hidle Hinit Hvision Hspeech.
  rewrite (speech_after_vision image a w Hvision) in Hspeech.
  destruct (analyzeFood_as_process w Hidle Hinit)
    as (w1 & cw & ch & -> & Happ & (Hg & Hl & Hs & Hn & Hsent & Hnow & Hiso) & _ & _).
  set (img := CanvasData "image/jpeg" 0.7%float cw ch).
  assert (Hv1 : fst (GroqAPI.analyzeFood img w1) = Normal (js_of_analysis a))
    by (rewrite <- Hvision; now apply vision_frame).
  destruct (process_succeeds img a w1 Hv1)
    as (w5 & Hrun & Happ5 & Hl5 & _ & Hsent5 & Hrec5 & _).
  rewrite Hn, Hspeech in Happ5. rewrite Hnow, Hiso, Hl in Hl5. rewrite Hsent in Hsent5.
  rewrite (current_key_frame w w1 Hg Hl Hs) in Hsent5.
  unfold try_finally, try_catch. rewrite Hrun.
  unfold set_isAnalyzing, modify. cbn [fst snd].
  cbn [app env groqAPI on_app]. rewrite Happ5, Happ, Hl5, Hrec5, Hsent5.
  assert (Hd : exists input,
             GroqAPI.description (JStr (result_foodDetected a))
                                 (js_of_recipes (result_recipes a)) = Normal input).
  { unfold speech_of in Hspeech. destruct (GroqAPI.description _ _) as [input|];
      [now exists input | discriminate]. }
  destruct Hd as (input & Hd).
  destruct (app w). cbn. repeat split.
  exists cw, ch, input. split; [exact Hd|]. unfold requests. now rewrite Hd.
Qed.

Definition w_speaking : World :=
  page (Some "gsk_live") 1280 720 Available Available
       [ Responds (completion (JSON.stringify (js_of_analysis three_recipes)));
         Responds (mkResponse 200 "RIFF....WAVE") ] [].

Lemma analysis_with_audio_is_played_witness :
  audioPlayer_src (app (snd (analyzeFood w_speaking))) = Some "RIFF....WAVE"
  /\ audioPlayer_display (app (snd (analyzeFood w_speaking))) = "block"
  /\ results_hidden (app (snd (analyzeFood w_speaking))) = false.
Proof.
  destruct (analysis_with_audio_is_played w_speaking photo three_recipes "RIFF....WAVE"
              ltac:(reflexivity) ltac:(reflexivity)
              ltac:(vm_compute; reflexivity) ltac:(vm_compute; reflexivity))
    as (_ & _ & _ & H4 & _ & H6 & H7 & _).
  split; [exact H6|]. split; [exact H7 | exact H4].
Defined.


(** When the camera was never initialised, the camera action fails at
    the capture: it shows "Analysis failed: Failed to capture image from
    camera", and neither looks up the key nor sends a request nor writes
    to storage. *)
Theorem capture_failure_is_reported (w : World) :
  isAnalyzing (app w) = false ->
  isInitialized (cameraManager w) = false ->
  let w' := snd (analyzeFood w) in
  fst (analyzeFood w) = Normal tt
  /\ error_message_el (app w')
     = Some "Analysis failed: Failed to capture image from camera"
  /\ isAnalyzing (app w') = false
  /\ loading_hidden (app w') = true
  /\ analyzeBtn (app w') = mkButton "📸 Analyze Food" false (display (analyzeBtn (app w)))
  /\ groqAPI w' = groqAPI w
  /\ sent (env w') = sent (env w)
  /\ network (env w') = network (env w)
  /\ localStorage (env w') = localStorage (env w)
  /\ sessionStorage (env w') = sessionStorage (env w).
Proof.
  intros Hidle Hinit. unfold analyzeFood.
  rewrite (bind_normal _ _ w w false) by (unfold gets; now rewrite Hidle).
  cbv iota. unfold try_finally, try_catch.
  erewrite (bind_normal (set_isAnalyzing true)) by reflexivity.
  erewrite (bind_normal showLoading) by reflexivity.
  match goal with
  | |- context [bind CameraManager.pauseStream _ ?W] =>
      destruct (pauseStream_run W) as (strs & o & Hp)
  end.
  erewrite (bind_normal CameraManager.pauseStream) by exact Hp.
  erewrite (bind_normal CameraManager.captureImage)
    by (apply CameraFacts.captureImage_uninitialized; exact Hinit).
  cbv iota. unfold throw. cbv beta iota.
  match goal with
  | |- context [bind (showError ?m) _ ?W] =>
      destruct (camera_handler_run m W) as (strs' & o' & Hh); rewrite Hh; clear Hh
  end.
  unfold set_isAnalyzing, modify. cbn [fst snd]. clear Hp.
  destruct w as [g c ap e]. destruct e. destruct ap. cbn. repeat split.
Qed.

Lemma capture_failure_is_reported_witness :
  error_message_el
    (app (snd (analyzeFood (snd (CameraManager.destroy
                                   (page (Some "gsk_live") 1280 720 Available Available
                                         [] []))))))
  = Some "Analysis failed: Failed to capture image from camera".
Proof.
  exact (proj1 (proj2 (capture_failure_is_reported
                         (snd (CameraManager.destroy
                                 (page (Some "gsk_live") 1280 720 Available Available [] [])))
                         ltac:(reflexivity) ltac:(reflexivity)))).
Defined.

(** ** Uploads *)

(** An upload is checked before anything else happens: with no file
    nothing is done; a file whose type does not start with "image/", or
    whose size is above 10 MB (10485760 bytes), is refused with a message
    and nothing else on the page or in the environment changes.  A file
    that passes is sent to the vision endpoint exactly as it was read,
    whatever its size; when the call returns a result, the result is
    shown, with audio when the speech call returned some, and written to
    the history; when the call throws, the error is reported.  Either way
    [isAnalyzing] ends false and the file input is emptied. *)
Theorem upload_is_validated_then_processed (w : World) (f : File) :
  handleFileUpload None w = (Normal tt, w)
  /\ (startsWith (file_type f) "image/" = false ->
      handleFileUpload (Some f) w
      = (Normal tt, on_app (with_error_message (Some "Please select a valid image file")) w))
  /\ (startsWith (file_type f) "image/" = true -> 10485760 < file_size f ->
      handleFileUpload (Some f) w
      = (Normal tt,
         on_app (with_error_message
                   (Some "Image is too large. Please select an image under 10MB")) w))
  /\ (forall contents,
        startsWith (file_type f) "image/" = true -> file_size f <= 10485760 ->
        file_read f = Normal contents ->
        let w' := snd (handleFileUpload (Some f) w) in
        isAnalyzing (app w') = false
        /\ fileUpload_value (app w') = ""
        /\ (forall a, fst (GroqAPI.analyzeFood (FileData contents) w)
                      = Normal (js_of_analysis a) ->
              results_hidden (app w') = false
              /\ foodDetectedEl (app w') = result_foodDetected a
              /\ audioPlayer_src (app w')
                 = match fst (GroqAPI.generateVoiceDescription
                                (JStr (result_foodDetected a))
                                (js_of_recipes (result_recipes a))
                                (snd (GroqAPI.analyzeFood (FileData contents) w))) with
                   | Normal blob => Some blob
                   | Throw _ => audioPlayer_src (app w)
                   end
              /\ localStorage (env w')
                 = saved (historyItem (now (env w)) (nowISO (env w))
                                      (JStr (result_foodDetected a))
                                      (js_of_recipes (result_recipes a)))
                         (localStorage (env w))
              /\ exists more,
                   sent (env w')
                   = (sent (env w)
                      ++ vision_request (current_key w) (FileData contents) :: more)%list)
        /\ (forall e, fst (GroqAPI.analyzeFood (FileData contents) w) = Throw e ->
              error_message_el (app w') = Some ("Analysis failed: " ++ error_message e)
              /\ results_hidden (app w') = true
              /\ localStorage (env w') = localStorage (env w))).
Proof.
  split; [reflexivity|]. split; [|split].
  - intros Ht. unfold handleFileUpload. rewrite Ht. reflexivity.
  - intros Ht Hs. unfold handleFileUpload. rewrite Ht. cbn [negb].
    replace (10 * 1024 * 1024 <? file_size f) with true by lia. reflexivity.
  - intros contents Ht Hs Hr w'. subst w'.
    rewrite (handleFileUpload_as_process w f contents Ht Hs Hr).
    set (w1 := on_app loading w). set (img := FileData contents).
    assert (Hframe : forall image, fst (GroqAPI.analyzeFood image w1)
                                   = fst (GroqAPI.analyzeFood image w))
      by (intros image; now apply vision_frame).
    pose proof (handleFileUpload_resets w f Ht Hs) as Hend.
    rewrite (handleFileUpload_as_process w f contents Ht Hs Hr) in Hend.
    destruct Hend as (He1 & He2).
    split; [exact He1|]. split; [exact He2|]. clear He1 He2. split.
    + intros a Hvision.
      pose proof (speech_after_vision img a w Hvision) as Hsp.
      rewrite <- (Hframe img) in Hvision.
      destruct (process_succeeds img a w1 Hvision)
        as (w5 & Hrun & Happ5 & Hl5 & _ & Hsent5 & _).
      unfold try_finally, try_catch. rewrite Hrun.
      unfold bind, set_isAnalyzing, modify. cbn [fst snd].
      cbn [app env on_app]. rewrite Happ5, Hl5, Hsent5, Hsp.
      cbn [w1 app env on_app network now nowISO localStorage sent].
      unfold requests.
      destruct (speech_of _ _ _); destruct (app w); cbn; repeat split; eexists; reflexivity.
    + intros e Hvision. rewrite <- (Hframe img) in Hvision.
      destruct (vision_effect img w1) as (Ha2 & _ & Hl2 & _).
      unfold try_finally, try_catch. rewrite (process_fails img w1 e Hvision).
      destruct (upload_handler_run ("Analysis failed: " ++ error_message e)
                  (snd (GroqAPI.analyzeFood img w1))) as (strs & o & ->).
      unfold bind, set_isAnalyzing, modify. cbn [fst snd].
      cbn [app env on_app on_camera on_env localStorage with_streams].
      rewrite Ha2, Hl2. cbn [w1 app env on_app localStorage].
      destruct (app w). repeat split.
Qed.

End CycleFacts.

(* ===================================================================== *)
(** * Facts about the history store *)
(* ===================================================================== *)

Module HistoryFacts.
Import FoodAnalyzerApp Data Samples JSONFacts GroqFacts AppFacts.

(** ** Reading and writing the history never fails *)


Lemma saveToHistory_total (analysis : JSValue) (w : World) :
  exists s,
    saveToHistory analysis w = (Normal tt, on_env (with_localStorage s) w)
    /\ mode s = mode (localStorage (env w))
    /\ (forall k, k <> "analysis_history" ->
          items s !! k = items (localStorage (env w)) !! k).
Proof.
  unfold saveToHistory, try_catch, bind at 1. rewrite getHistory_run.
  unfold bind, Date_now, Date_toISOString, gets, lift, unshift, slice,
    localStorage_setItem, Storage_setItem, ret.
  destruct w as [g c a [[its m] ss t iso net snt dev ask strs]].
  cbn [env localStorage items mode].
  assert (Hsame : exists s,
             (Normal tt, mkWorld g c a (mkEnv (mkStorage its m) ss t iso net snt dev ask strs))
             = (Normal tt,
                on_env (with_localStorage s)
                  (mkWorld g c a (mkEnv (mkStorage its m) ss t iso net snt dev ask strs)))
             /\ mode s = m
             /\ (forall k : string, k <> "analysis_history" -> items s !! k = its !! k)).
  { exists (mkStorage its m). repeat split. }
  destruct (get analysis "foodDetected"); [|exact Hsame].
  destruct (get analysis "recipes"); [|exact Hsame].
  destruct (history_of (mkStorage its m)); try exact Hsame.
  destruct m; try exact Hsame.
  eexists. split; [reflexivity|]. split; [reflexivity|].
  intros k Hk. cbn [items]. now rewrite lookup_insert_ne.
Qed.

(** [saveToHistory] never throws, whatever it is given and whatever the
    storage does, and the only thing it can change is the entry
    "analysis_history" of durable storage: the page, the client, the
    camera, session storage and every other durable entry, the key among
    them, stay as they are. *)
Theorem saveToHistory_only_writes_history (analysis : JSValue) (w : World) :
  let w' := snd (saveToHistory analysis w) in
  fst (saveToHistory analysis w) = Normal tt
  /\ groqAPI w' = groqAPI w /\ cameraManager w' = cameraManager w /\ app w' = app w
  /\ sessionStorage (env w') = sessionStorage (env w)
  /\ sent (env w') = sent (env w)
  /\ mode (localStorage (env w')) = mode (localStorage (env w))
  /\ (forall k, k <> "analysis_history" ->
        items (localStorage (env w')) !! k = items (localStorage (env w)) !! k).
Proof.
  destruct (saveToHistory_total analysis w) as (s & -> & Hm & Hk).
  repeat split; assumption.
Qed.

End HistoryFacts.

(* ===================================================================== *)
(** * Facts about the dialogs *)
(* ===================================================================== *)

Module ControlsFacts.
Import GroqAPI FoodAnalyzerApp Data Samples JSONFacts GroqFacts AppFacts CredentialFacts
  CallFacts Controls.

Lemma then_do_normal {A B} (m : P A) (k : A -> P B) (p p' : Page) (a : A) :
  m p = (Normal a, p') -> then_do m k p = k a p'.
Proof. intros H. unfold then_do. now rewrite H. Qed.

Lemma then_do_throw {A B} (m : P A) (k : A -> P B) (p p' : Page) (e : JSError) :
  m p = (Throw e, p') -> then_do m k p = (Throw e, p').
Proof. intros H. unfold then_do. now rewrite H. Qed.

Lemma run_normal {A} (m : M A) (p : Page) (a : A) (w' : World) :
  m (world p) = (Normal a, w') -> run m p = (Normal a, mkPage w' (dialogs p)).
Proof. intros H. unfold run. now rewrite H. Qed.

Lemma run_throw {A} (m : M A) (p : Page) (e : JSError) (w' : World) :
  m (world p) = (Throw e, w') -> run m p = (Throw e, mkPage w' (dialogs p)).
Proof. intros H. unfold run. now rewrite H. Qed.

(** A page as it is first shown: the key form open with [input] typed
    in, no modal open, no message. *)
Definition dialogs_at_start (input : string) (supported : bool) : Dialogs :=
  mkDialogs false input (mkButton "Save" false "") (mkButton "🔄 Switch" false "")
            true "" true "" None supported [].

(** ** Trimming *)

Lemma trimEnd_idempotent (s : string) : trimEnd (trimEnd s) = trimEnd s.
Proof.
  induction s as [|c r IH]; [reflexivity|].
  cbn [trimEnd]. destruct (trimEnd r) as [|c' r'] eqn:E.
  - destruct (is_whitespace c) eqn:Hc; [reflexivity|].
    cbn [trimEnd]. now rewrite Hc.
  - cbn [trimEnd] in IH |- *. cbn [trimEnd]. rewrite IH. reflexivity.
Qed.

Lemma trimStart_head (s : string) :
  match trimStart s with
  | String c _ => is_whitespace c = false
  | EmptyString => True
  end.
Proof.
  induction s as [|c r IH]; [exact I|].
  cbn [trimStart]. destruct (is_whitespace c) eqn:Hc; [exact IH | exact Hc].
Qed.

Lemma trimEnd_head (c : ascii) (r : string) :
  is_whitespace c = false -> exists r', trimEnd (String c r) = String c r'.
Proof.
  intros Hc. cbn [trimEnd]. destruct (trimEnd r); rewrite ?Hc; eexists; reflexivity.
Qed.

Lemma trim_idempotent (s : string) : trim (trim s) = trim s.
Proof.
  unfold trim. pose proof (trimStart_head s) as H.
  destruct (trimStart s) as [|c r] eqn:E; [reflexivity|].
  destruct (trimEnd_head c r H) as (r' & Hr). rewrite Hr.
  cbn [trimStart]. rewrite H. rewrite <- Hr. apply trimEnd_idempotent.
Qed.


(** ** Acquiring the camera from the page *)

Lemma initialize_total (w : World) :
  exists b w',
    CameraManager.initialize w = (Normal b, w')
    /\ groqAPI w' = groqAPI w /\ app w' = app w
    /\ localStorage (env w') = localStorage (env w)
    /\ sessionStorage (env w') = sessionStorage (env w)
    /\ network (env w') = network (env w)
    /\ sent (env w') = sent (env w)
    /\ asked (env w') = (asked (env w) ++ [CameraManager.default_constraints])%list
    /\ (b = true <-> exists f width height rest,
                       devices (env w) = Grants f width height :: rest).
Proof.
  destruct w as [g c a [ls ss t iso net snt dev ask strs]].
  unfold CameraManager.initialize, CameraManager.handleCameraError, try_catch, bind,
    getUserMedia, modify, ret. simpl.
  destruct dev as [|[f wd ht|e] rest]; simpl; eexists _, _;
    (split; [reflexivity|]); repeat split;
    try discriminate; try (intros (? & ? & ? & ? & [=])); eauto.
Qed.

(** The analyze button once the camera is there. *)
Definition enabled_button (a : AppObject) : AppObject :=
  with_analyzeBtn (mkButton (textContent (analyzeBtn a)) false (display (analyzeBtn a))) a.

Lemma initializeCamera_run (p : Page) :
  initializeCamera p
  = (Normal tt,
     mkPage (if mediaDevices_supported (dialogs p)
             then match fst (CameraManager.initialize (world p)) with
                  | Normal true => on_app enabled_button (snd (CameraManager.initialize (world p)))
                  | _ => snd (CameraManager.initialize (world p))
                  end
             else on_app (with_error_message (Some "Camera not supported in this browser"))
                         (world p))
            (dialogs p)).
Proof.
  destruct p as [w d]. unfold initializeCamera, isSupported, then_do at 1, read.
  cbn [dialogs world].
  destruct (mediaDevices_supported d); cbn [negb]; [|reflexivity].
  destruct (initialize_total w) as (b & w' & Hrun & _).
  unfold catching, then_do, run. cbn [world dialogs]. rewrite Hrun.
  destruct b; reflexivity.
Qed.

(** [initializeCamera] never throws and leaves the dialogs alone.  Where
    the browser has no media devices it asks for nothing and shows
    "Camera not supported in this browser".  Otherwise it runs
    [initialize], and enables the analyze button exactly when that
    answered true, that is when the device granted the request. *)
Theorem initializeCamera_outcome (p : Page) :
  let p' := snd (initializeCamera p) in
  fst (initializeCamera p) = Normal tt
  /\ dialogs p' = dialogs p
  /\ (mediaDevices_supported (dialogs p) = false ->
      world p'
      = on_app (with_error_message (Some "Camera not supported in this browser")) (world p))
  /\ (mediaDevices_supported (dialogs p) = true ->
      exists b,
        fst (CameraManager.initialize (world p)) = Normal b
        /\ world p' = (if b then on_app enabled_button else fun w => w)
                        (snd (CameraManager.initialize (world p)))
        /\ (b = true <-> exists f width height rest,
                           devices (env (world p)) = Grants f width height :: rest)).
Proof.
  rewrite initializeCamera_run. cbn [fst snd dialogs world].
  split; [reflexivity|]. split; [reflexivity|]. split.
  - intros ->. reflexivity.
  - intros ->.
    destruct (initialize_total (world p)) as (b & w' & Hrun & _ & _ & _ & _ & _ & _ & _ & Hb).
    exists b. rewrite Hrun. cbn [fst snd]. split; [reflexivity|].
    split; [destruct b; reflexivity | exact Hb].
Qed.


(** ** Saving a key *)

(** The save button while the key is tested, and afterwards. *)
Definition testing (d : Dialogs) : Dialogs :=
  with_saveApiKeyBtn (mkButton "Testing..." true (display (saveApiKeyBtn d))) d.

Definition tested (d : Dialogs) : Dialogs :=
  with_saveApiKeyBtn (mkButton "Save" false (display (saveApiKeyBtn d))) d.



(** The world in which the key is tested: [k] saved, in memory and in
    storage. *)
Definition with_key (k : string) (w : World) : World := snd (GroqAPI.setApiKey k w).

Lemma with_key_configured (k : string) (w : World) :
  k <> "" -> trim k = k ->
  fst (GroqAPI.isConfigured (with_key k w)) = Normal true
  /\ current_key (with_key k w) = Some k
  /\ network (env (with_key k w)) = network (env w)
  /\ sent (env (with_key k w)) = sent (env w)
  /\ asked (env (with_key k w)) = asked (env w)
  /\ app (with_key k w) = app w.
Proof.
  intros Hk Ht. unfold with_key.
  pose proof (setApiKey_current_key k w Hk) as Hcur.
  split.
  { rewrite isConfigured_run. cbn [fst]. rewrite Hcur. unfold key_ok.
    rewrite trim_length_pos, Ht. unfold truthy. destruct k; [congruence | reflexivity]. }
  split; [exact Hcur|].
  rewrite setApiKey_run. cbn [snd].
  destruct w as [g c a [[li lm] [si sm] t iso net snt dev ask strs]].
  destruct lm, sm; repeat split.
Qed.

Lemma saveApiKey_blank (p : Page) :
  trim (apiKeyInput_value (dialogs p)) = "" ->
  saveApiKey p
  = (Normal tt,
     mkPage (on_app (with_error_message (Some "Please enter a valid API key")) (world p))
            (dialogs p)).
Proof.
  intros H. destruct p as [w d]. unfold saveApiKey, then_do at 1, read.
  cbn [dialogs] in *. rewrite H. reflexivity.
Qed.

Lemma saveApiKey_run (p : Page) :
  trim (apiKeyInput_value (dialogs p)) <> "" ->
  saveApiKey p
  = finally
      (catching
         (run GroqAPI.testConnection ;;
          showSuccess "API key saved successfully!" ;;
          hideApiSetup ;;
          initializeCamera)
         (fun error =>
            showError ("API key test failed: " ++ error_message error) ;;
            run GroqAPI.clearApiKey))
      (change (fun d => with_saveApiKeyBtn
                          (mkButton "Save" (disabled (saveApiKeyBtn d))
                                    (display (saveApiKeyBtn d))) d) ;;
       change (fun d => with_saveApiKeyBtn
                          (mkButton (textContent (saveApiKeyBtn d)) false
                                    (display (saveApiKeyBtn d))) d))
      (mkPage (with_key (trim (apiKeyInput_value (dialogs p))) (world p))
              (testing (dialogs p))).
Proof.
  intros H. destruct p as [w d]. unfold saveApiKey, then_do at 1, read.
  cbn [dialogs world] in *.
  destruct (trim (apiKeyInput_value d)) as [|c k] eqn:E; [congruence|].
  cbn [truthy String.eqb negb].
  unfold finally at 1, catching at 1.
  erewrite (then_do_normal (change _)) by reflexivity.
  erewrite (then_do_normal (change _)) by reflexivity.
  erewrite (then_do_normal (run (GroqAPI.setApiKey _)))
    by (apply run_normal; cbn [world]; rewrite setApiKey_run; reflexivity).
  unfold with_key. rewrite setApiKey_run. reflexivity.
Qed.





Definition p_typing (input : string) (w : World) : Page :=
  mkPage w (dialogs_at_start input true).




Lemma clearApiKey_run (w : World) :
  GroqAPI.clearApiKey w
  = (match mode (localStorage (env w)) with
     | AccessDenied => Throw denied
     | _ => Normal tt
     end,
     on_env (with_localStorage
               (match mode (localStorage (env w)) with
                | AccessDenied => localStorage (env w)
                | _ => mkStorage (delete "groq_api_key" (items (localStorage (env w))))
                                 (mode (localStorage (env w)))
                end))
            (on_groq (with_apiKey None) w)).
Proof.
  destruct w as [g c a [[li lm] ss t iso net snt dev ask strs]].
  unfold GroqAPI.clearApiKey, bind, GroqAPI.set_apiKey, modify, localStorage_removeItem,
    Storage_removeItem.
  destruct lm; reflexivity.
Qed.

Lemma saveApiKey_rejected_run (p : Page) (e : JSError) :
  trim (apiKeyInput_value (dialogs p)) <> "" ->
  let k := trim (apiKeyInput_value (dialogs p)) in
  fst (GroqAPI.testConnection (with_key k (world p))) = Throw e ->
  saveApiKey p
  = (fst (GroqAPI.clearApiKey (world p)),
     mkPage (snd (GroqAPI.clearApiKey
                    (on_app (with_error_message
                               (Some ("API key test failed: " ++ error_message e)))
                       (after_fetch (test_request (Some k))
                          (on_groq (with_apiKey (Some k)) (with_key k (world p)))))))
            (tested (dialogs p))).
Proof.
  intros Hk k Hfail. rewrite (saveApiKey_run p Hk). fold k.
  destruct (with_key_configured k (world p) Hk (trim_idempotent _))
    as (Hc & Hcur & _).
  pose proof (testConnection_run (with_key k (world p)) Hc) as Htest.
  rewrite Htest in Hfail. cbn [fst] in Hfail. rewrite Hfail, Hcur in Htest.
  unfold finally, catching.
  erewrite (then_do_throw (run GroqAPI.testConnection))
    by (apply run_throw; cbn [world]; exact Htest).
  unfold showError.
  erewrite (then_do_normal (run (FoodAnalyzerApp.showError _))) by reflexivity.
  unfold run. cbn [world dialogs]. rewrite !clearApiKey_run.
  unfold with_key. rewrite setApiKey_run. cbn [snd fst].
  destruct p as [[g c a [[li lm] [si sm] t iso net snt dev ask strs]] d].
  destruct d. destruct lm, sm; reflexivity.
Qed.

(** A key that fails the test is taken back, as far as [clearApiKey]
    goes.  The error is shown as "API key test failed: ...", the form
    stays open, the camera is not asked for, the save button is back to
    "Save", and the key is gone from memory and from durable storage.
    But a key that [setApiKey] had to put in session storage, because
    durable storage was full, is still there: the page stays configured
    with the key that has just failed.  And where durable storage denies
    access, [clearApiKey] throws, and so does [saveApiKey]. *)
Theorem saveApiKey_drops_rejected_key (p : Page) (e : JSError) :
  trim (apiKeyInput_value (dialogs p)) <> "" ->
  let k := trim (apiKeyInput_value (dialogs p)) in
  fst (GroqAPI.testConnection (snd (GroqAPI.setApiKey k (world p)))) = Throw e ->
  let p' := snd (saveApiKey p) in
  error_message_el (app (world p')) = Some ("API key test failed: " ++ error_message e)
  /\ apiKey (groqAPI (world p')) = None
  /\ saveApiKeyBtn (dialogs p') = mkButton "Save" false (display (saveApiKeyBtn (dialogs p)))
  /\ apiSetup_hidden (dialogs p') = apiSetup_hidden (dialogs p)
  /\ success_message_el (dialogs p') = success_message_el (dialogs p)
  /\ asked (env (world p')) = asked (env (world p))
  /\ (mode (localStorage (env (world p))) <> AccessDenied ->
      fst (saveApiKey p) = Normal tt
      /\ items (localStorage (env (world p'))) !! "groq_api_key" = None)
  /\ (mode (localStorage (env (world p))) = Available ->
      items (sessionStorage (env (world p))) !! "groq_api_key" = None ->
      fst (GroqAPI.isConfigured (world p')) = Normal false)
  /\ (mode (localStorage (env (world p))) = QuotaExceeded ->
      mode (sessionStorage (env (world p))) = Available ->
      fst (GroqAPI.getApiKey (world p')) = Normal (Some k)
      /\ fst (GroqAPI.isConfigured (world p')) = Normal true)
  /\ (mode (localStorage (env (world p))) = AccessDenied ->
      fst (saveApiKey p) = Throw denied).
Proof.
  intros Hk k Hfail p'. subst p'.
  rewrite (saveApiKey_rejected_run p e Hk Hfail). fold k.
  destruct (with_key_configured k (world p) Hk (trim_idempotent _)) as (Hc & Hcur & _).
  assert (Hok : key_ok (Some k) = true).
  { rewrite isConfigured_run in Hc. cbn [fst] in Hc. rewrite Hcur in Hc. congruence. }
  clear Hc Hcur Hfail.
  rewrite !clearApiKey_run. unfold with_key. rewrite setApiKey_run.
  rewrite !isConfigured_run, !getApiKey_run.
  unfold current_key, found_key, Storage_getItem.
  destruct p as [[g c a [[li lm] [si sm] t iso net snt dev ask strs]] d].
  cbn [fst snd world dialogs app groqAPI env asked localStorage
       sessionStorage items mode on_app on_env on_groq
       error_message_el apiKey saveApiKeyBtn apiSetup_hidden
       success_message_el with_error_message with_apiKey
       with_localStorage with_sessionStorage with_saveApiKeyBtn
       with_network after_fetch tested GroqAPI.no_key].
  split; [reflexivity|]. split; [reflexivity|]. split; [reflexivity|].
  split; [reflexivity|]. split; [reflexivity|].
  destruct lm, sm;
    cbn [fst snd world dialogs app groqAPI env asked localStorage
         sessionStorage items mode on_app on_env on_groq stored
         with_localStorage with_sessionStorage with_network after_fetch];
    (split; [reflexivity|]);
    (split; [intros HA; first [congruence | split; [reflexivity | apply lookup_delete_eq]]|]);
    (split;
     [intros HB; first
        [ discriminate HB
        | intros Hnone; rewrite lookup_delete_eq; cbn [GroqAPI.no_key];
          rewrite ?Hnone; reflexivity ]|]);
    (split;
     [intros HC HS; first
        [ discriminate HC
        | discriminate HS
        | rewrite lookup_delete_eq; cbn [GroqAPI.no_key];
          rewrite lookup_insert_ne by discriminate; rewrite lookup_insert_eq;
          rewrite ?(key_ok_has_key _ Hok), ?Hok; split; reflexivity ]|]);
    intros HD; first [discriminate HD | reflexivity].
Qed.

Definition w_key_refused : World :=
  page None 1280 720 QuotaExceeded Available
       [Responds (mkResponse 401 "Unauthorized")] [].

Lemma saveApiKey_drops_rejected_key_witness :
  error_message_el (app (world (snd (saveApiKey (p_typing "gsk_wrong" w_key_refused)))))
  = Some "API key test failed: API test failed: 401 - Invalid API key"
  /\ fst (GroqAPI.isConfigured (world (snd (saveApiKey (p_typing "gsk_wrong" w_key_refused)))))
     = Normal true.
Proof.
  destruct (saveApiKey_drops_rejected_key (p_typing "gsk_wrong" w_key_refused)
              (Error "API test failed: 401 - Invalid API key")
              ltac:(discriminate) ltac:(vm_compute; reflexivity))
    as (H1 & _ & _ & _ & _ & _ & _ & _ & H9 & _).
  split; [exact H1|]. exact (proj2 (H9 ltac:(reflexivity) ltac:(reflexivity))).
Defined.


(** ** The switch button *)

Lemma switchCamera_total (w : World) :
  exists b w', CameraManager.switchCamera w = (Normal b, w').
Proof.
  unfold CameraManager.switchCamera, bind at 1, gets at 1.
  destruct (isInitialized (cameraManager w)); cbn [negb]; [|eexists _, _; reflexivity].
  unfold try_catch.
  match goal with |- context [bind ?m ?k w] => destruct (bind m k w) as [[b|e] w1] end.
  - eexists _, _. reflexivity.
  - unfold bind. destruct (initialize_total w1) as (b & w' & -> & _).
    eexists _, _. reflexivity.
Qed.

Definition switched (d : Dialogs) : Dialogs :=
  with_switchCameraBtn (mkButton "🔄 Switch" false (display (switchCameraBtn d))) d.

Lemma switchCamera_run (p : Page) :
  switchCamera p
  = (Normal tt,
     match fst (CameraManager.switchCamera (world p)) with
     | Normal true =>
         mkPage (snd (CameraManager.switchCamera (world p)))
                (switched (with_success_message (Some "Camera switched successfully!")
                                                (dialogs p)))
     | _ =>
         mkPage (on_app (with_error_message (Some "Failed to switch camera"))
                        (snd (CameraManager.switchCamera (world p))))
                (switched (dialogs p))
     end).
Proof.
  destruct p as [w d]. destruct (switchCamera_total w) as (b & w' & Hrun).
  unfold switchCamera, finally, catching.
  erewrite (then_do_normal (change _)) by reflexivity.
  erewrite (then_do_normal (change _)) by reflexivity.
  erewrite (then_do_normal (run CameraManager.switchCamera))
    by (apply run_normal; cbn [world]; exact Hrun).
  cbn [world dialogs]. rewrite Hrun. cbn [fst snd].
  destruct d. destruct b; reflexivity.
Qed.

(** The switch button never gets stuck: [switchCamera] of the page never
    throws, always leaves the button enabled and labelled "🔄 Switch",
    and shows "Camera switched successfully!" when the camera answered
    true and "Failed to switch camera" when it answered false; the camera
    itself never throws. *)
Theorem switchCamera_restores_button (p : Page) :
  let p' := snd (switchCamera p) in
  fst (switchCamera p) = Normal tt
  /\ switchCameraBtn (dialogs p')
     = mkButton "🔄 Switch" false (display (switchCameraBtn (dialogs p)))
  /\ exists b,
       fst (CameraManager.switchCamera (world p)) = Normal b
       /\ (b = true ->
           success_message_el (dialogs p') = Some "Camera switched successfully!"
           /\ world p' = snd (CameraManager.switchCamera (world p)))
       /\ (b = false ->
           error_message_el (app (world p')) = Some "Failed to switch camera"
           /\ success_message_el (dialogs p') = success_message_el (dialogs p)
           /\ cameraManager (world p')
              = cameraManager (snd (CameraManager.switchCamera (world p)))
           /\ env (world p') = env (snd (CameraManager.switchCamera (world p)))).
Proof.
  rewrite switchCamera_run. cbn [fst snd].
  destruct (switchCamera_total (world p)) as (b & w' & Hrun). rewrite Hrun. cbn [fst snd].
  split; [reflexivity|]. split; [destruct b, (dialogs p); reflexivity|].
  exists b. split; [reflexivity|].
  destruct b; split; try discriminate; intros _; repeat split.
Qed.


(** ** The history modal *)

Lemma hideHistory_run (p : Page) :
  hideHistory p
  = (Normal tt, mkPage (world p) (with_body_overflow "" (with_historyModal true (dialogs p)))).
Proof. destruct p as [w d]. reflexivity. Qed.

(** Without confirmation [clearHistory] does nothing.  With it, and
    unless durable storage denies access, the stored history is removed
    and nothing else is: [getHistory] answers the empty list afterwards,
    every other entry of durable storage is kept, the key among them, the
    history modal is closed and "History cleared successfully!" is
    shown.  Where durable storage denies access the only effect is the
    message "Failed to clear history". *)
Theorem clearHistory_empties_history (p : Page) :
  clearHistory false p = (Normal tt, p)
  /\ (mode (localStorage (env (world p))) <> AccessDenied ->
      let p' := snd (clearHistory true p) in
      fst (clearHistory true p) = Normal tt
      /\ fst (getHistory (world p')) = Normal (JArr [])
      /\ (forall k, k <> "analysis_history" ->
            items (localStorage (env (world p'))) !! k
            = items (localStorage (env (world p))) !! k)
      /\ historyModal_hidden (dialogs p') = true
      /\ body_overflow (dialogs p') = ""
      /\ success_message_el (dialogs p') = Some "History cleared successfully!"
      /\ app (world p') = app (world p))
  /\ (mode (localStorage (env (world p))) = AccessDenied ->
      clearHistory true p
      = (Normal tt,
         mkPage (on_app (with_error_message (Some "Failed to clear history")) (world p))
                (dialogs p))).
Proof.
  split; [reflexivity|].
  assert (Hrun : clearHistory true p
                 = match mode (localStorage (env (world p))) with
                   | AccessDenied =>
                       (Normal tt,
                        mkPage (on_app (with_error_message (Some "Failed to clear history"))
                                       (world p))
                               (dialogs p))
                   | _ =>
                       (Normal tt,
                        mkPage (on_env (with_localStorage
                                          (mkStorage
                                             (delete "analysis_history"
                                                     (items (localStorage (env (world p)))))
                                             (mode (localStorage (env (world p))))))
                                       (world p))
                               (with_success_message (Some "History cleared successfully!")
                                  (with_body_overflow ""
                                     (with_historyModal true (dialogs p))))
                       )
                   end).
  { destruct p as [[g c a [[li lm] ss t iso net snt dev ask strs]] d].
    unfold clearHistory, catching, then_do, run, localStorage_removeItem, Storage_removeItem,
      showSuccess, Controls.showError, hideHistory, change, FoodAnalyzerApp.showError, modify.
    destruct lm; reflexivity. }
  rewrite Hrun. split.
  - intros Hm.
    destruct (mode (localStorage (env (world p)))) eqn:E; try congruence;
      cbn [fst snd world dialogs]; (split; [reflexivity|]);
      (split;
       [rewrite getHistory_run; cbn [fst]; unfold history_of, Storage_getItem;
        cbn [env on_env with_localStorage localStorage mode items];
        now rewrite lookup_delete_eq|]);
      (split;
       [intros k Hk; cbn [env on_env with_localStorage localStorage items];
        now rewrite lookup_delete_ne by congruence|]);
      repeat split.
  - intros ->. reflexivity.
Qed.

Lemma find_by_id_first (id : Z) (timestamp : string) (fd rs : JSValue) (rest : list JSValue) :
  find (JArr (historyItem id timestamp fd rs :: rest)) id
  = Normal (historyItem id timestamp fd rs).
Proof.
  unfold find, find_by_id, historyItem.
  cbn [get assoc String.eqb Ascii.eqb Bool.eqb]. cbn. now rewrite Z.eqb_refl.
Qed.


(** The results section once an entry of the history is shown. *)
Definition loaded (a : AnalysisResult) (ap : AppObject) : AppObject :=
  with_results_hidden false
    (with_recipeButtons (fst (label_buttons (js_of_recipes (result_recipes a)) 0
                                            (recipeButtons ap)))
       (with_audioPlayer (audioPlayer_src ap) "none"
          (with_foodDetectedEl (result_foodDetected a) ap))).

Lemma loadHistoryItem_run (p : Page) (a : AnalysisResult) (id : Z) (timestamp : string)
      (rest : list JSValue) :
  fst (getHistory (world p))
  = Normal (JArr (historyItem id timestamp (JStr (result_foodDetected a))
                              (js_of_recipes (result_recipes a)) :: rest)) ->
  loadHistoryItem id p
  = (Normal tt,
     mkPage (on_app (loaded a)
               (on_groq (with_recipes (js_of_recipes (result_recipes a))) (world p)))
            (with_success_message (Some "Loaded from history!")
               (with_body_overflow "" (with_historyModal true (dialogs p))))).
Proof.
  intros Hh. rewrite getHistory_run in Hh. cbn [fst] in Hh.
  unfold loadHistoryItem.
  erewrite (then_do_normal (run getHistory))
    by (apply run_normal; rewrite getHistory_run, Hh; reflexivity).
  erewrite (then_do_normal (run (lift _)))
    by (apply run_normal; unfold lift; rewrite find_by_id_first; reflexivity).
  change (truthy (historyItem _ _ _ _)) with true. cbv iota.
  pose proof (label_buttons_array (map js_of_recipe (result_recipes a)) 0
                                  (recipeButtons (app (world p)))) as Hl.
  fold (js_of_recipes (result_recipes a)) in Hl.
  destruct p as [[g c ap e] d].
  unfold then_do, run, lift, GroqAPI.set_recipes, modify, gets, hideHistory, change,
    showSuccess, unit_of, throw, loaded.
  cbn [world dialogs app] in *.
  change (get (historyItem id timestamp (JStr (result_foodDetected a))
                           (js_of_recipes (result_recipes a))) "recipes")
    with (Normal (js_of_recipes (result_recipes a))).
  change (get (historyItem id timestamp (JStr (result_foodDetected a))
                           (js_of_recipes (result_recipes a))) "foodDetected")
    with (Normal (JStr (result_foodDetected a))).
  cbn [world dialogs app on_app on_groq recipeButtons with_audioPlayer with_foodDetectedEl
       fst snd].
  destruct (label_buttons (js_of_recipes (result_recipes a)) 0 (recipeButtons ap))
    as [btns' r] eqn:E.
  cbn [snd] in Hl. subst r.
  unfold Controls.change, on_app, on_groq. cbn. rewrite ?E. reflexivity.
Qed.

(** What [saveToHistory] has written, [loadHistoryItem] brings back.
    On a durable storage that accepts writes and holds a list, after an
    analysis was saved, loading the entry with the id it was given (the
    clock at the save) puts its recipes back in [recipes] and shows its
    detected food and its recipe buttons, without audio, with the history
    modal closed and the message "Loaded from history!".  An id that no
    entry has changes nothing. *)
Theorem saved_analysis_can_be_loaded (p : Page) (a : AnalysisResult) (old : list JSValue) :
  mode (localStorage (env (world p))) = Available ->
  history_of (localStorage (env (world p))) = JArr old ->
  Forall json_wf old ->
  let after_save := mkPage (snd (saveToHistory (js_of_analysis a) (world p))) (dialogs p) in
  let p' := snd (loadHistoryItem (now (env (world p))) after_save) in
  fst (loadHistoryItem (now (env (world p))) after_save) = Normal tt
  /\ recipes (groqAPI (world p')) = js_of_recipes (result_recipes a)
  /\ foodDetectedEl (app (world p')) = result_foodDetected a
  /\ recipeButtons (app (world p'))
     = fst (label_buttons (js_of_recipes (result_recipes a)) 0
                          (recipeButtons (app (world p))))
  /\ audioPlayer_display (app (world p')) = "none"
  /\ results_hidden (app (world p')) = false
  /\ historyModal_hidden (dialogs p') = true
  /\ success_message_el (dialogs p') = Some "Loaded from history!"
  /\ env (world p') = env (world after_save)
  /\ (forall id l,
        fst (getHistory (world p)) = Normal (JArr l) ->
        find (JArr l) id = Normal JUndefined ->
        loadHistoryItem id p = (Normal tt, p)).
Proof.
  intros Hm Hh Hwf after_save p'. subst p' after_save.
  set (item := historyItem (now (env (world p))) (nowISO (env (world p)))
                           (JStr (result_foodDetected a))
                           (js_of_recipes (result_recipes a))).
  assert (Hsaved : fst (getHistory (snd (saveToHistory (js_of_analysis a) (world p))))
                   = Normal (JArr (item :: firstn 9 old))).
  { rewrite (saveToHistory_run _ (JStr (result_foodDetected a))
               (js_of_recipes (result_recipes a))) by reflexivity.
    fold item. cbn [snd]. rewrite getHistory_run. cbn [fst].
    cbn [env on_env with_localStorage localStorage].
    unfold saved. rewrite Hh.
    destruct (localStorage (env (world p))) as [its m]. cbn [mode] in Hm. subst m.
    unfold Storage_setItem. cbn [mode items snd].
    rewrite history_of_written; [reflexivity|].
    apply Forall_take. constructor; [apply json_wf_item | exact Hwf]. }
  rewrite (loadHistoryItem_run
             (mkPage (snd (saveToHistory (js_of_analysis a) (world p))) (dialogs p))
             a (now (env (world p))) (nowISO (env (world p))) (firstn 9 old) Hsaved).
  cbn [fst snd world dialogs].
  split; [reflexivity|]. split; [reflexivity|].
  assert (Happ : app (snd (saveToHistory (js_of_analysis a) (world p))) = app (world p)).
  { rewrite (saveToHistory_run _ (JStr (result_foodDetected a))
               (js_of_recipes (result_recipes a))) by reflexivity.
    now destruct (world p). }
  cbn [app on_app on_groq]. rewrite Happ. unfold loaded.
  repeat (split; [destruct (app (world p)); reflexivity|]).
  intros id l Hl Hfind. unfold loadHistoryItem.
  erewrite (then_do_normal (run getHistory))
    by (apply run_normal; rewrite getHistory_run; rewrite getHistory_run in Hl;
        cbn [fst] in Hl; rewrite Hl; reflexivity).
  erewrite (then_do_normal (run (lift _)))
    by (apply run_normal; unfold lift; rewrite Hfind; reflexivity).
  destruct p. reflexivity.
Qed.


Lemma saved_analysis_can_be_loaded_witness :
  let after_save :=
    mkPage (snd (saveToHistory (js_of_analysis three_recipes) w_fresh))
           (dialogs_at_start "" true) in
  recipes (groqAPI (world (snd (loadHistoryItem (now (env w_fresh)) after_save))))
  = js_of_recipes (result_recipes three_recipes).
Proof.
  exact (proj1 (proj2 (saved_analysis_can_be_loaded (mkPage w_fresh (dialogs_at_start "" true))
                         three_recipes [] ltac:(reflexivity) ltac:(reflexivity)
                         ltac:(constructor)))).
Defined.

(** ** The recipe modal *)

Lemma getRecipe_run (w : World) (l : list RecipeSuggestion) (i : Z) :
  recipes (groqAPI w) = js_of_recipes l ->
  GroqAPI.getRecipe i w
  = (Normal (if (0 <=? i) && (i <? Z.of_nat (length l))
             then nth (Z.to_nat i) (map js_of_recipe l) JUndefined else JNull), w).
Proof.
  intros Hr. unfold GroqAPI.getRecipe, bind, gets, lift. rewrite Hr.
  cbn [js_of_recipes get String.eqb Ascii.eqb Bool.eqb GroqAPI.below index ret].
  rewrite length_map.
  destruct (0 <=? i); [|reflexivity]. cbv iota. cbn [andb].
  destruct (i <? Z.of_nat (length l)); reflexivity.
Qed.

Definition items_of (l : list string) : string :=
  join "" (map (fun x => "<li>" ++ x ++ "</li>") l).

Lemma list_items_strings (l : list string) (property : string) :
  GroqAPI.list_items (JArr (map JStr l)) property = Normal (items_of l).
Proof. unfold GroqAPI.list_items, items_of. now rewrite map_map. Qed.

(** [showRecipe] checks its index against the stored recipes.  With the
    recipes of an analysis in [recipes], an index that is negative or past
    the last recipe changes nothing; an index of a recipe opens the modal
    on that recipe, formatted by [formatRecipeForDisplay], and locks the
    scrolling of the page.  The formatted text holds the recipe's name in
    a heading, then description, difficulty and cooking time, then one
    list item for each ingredient and for each instruction, in their
    order, none of them escaped.  [hideModal] closes the modal and frees
    the scrolling again, and leaves the content in place. *)
Theorem showRecipe_by_index (p : Page) (l : list RecipeSuggestion) (i : Z) :
  recipes (groqAPI (world p)) = js_of_recipes l ->
  (i < 0 \/ Z.of_nat (length l) <= i -> showRecipe i p = (Normal tt, p))
  /\ (forall r, l !! Z.to_nat i = Some r -> 0 <= i ->
        exists html,
          GroqAPI.formatRecipeForDisplay (js_of_recipe r) = Normal html
          /\ html
             = nl ++ indent ++ "<h3>" ++ recipe_name r ++ "</h3>"
               ++ nl ++ indent ++ "<p><strong>Description:</strong> "
               ++ recipe_description r ++ "</p>"
               ++ nl ++ indent ++ "<p><strong>Difficulty:</strong> "
               ++ recipe_difficulty r ++ "</p>"
               ++ nl ++ indent ++ "<p><strong>Cooking Time:</strong> "
               ++ recipe_cookingTime r ++ "</p>"
               ++ nl ++ indent
               ++ nl ++ indent ++ "<h4>Ingredients:</h4>"
               ++ nl ++ indent ++ "<ul>"
               ++ nl ++ indent ++ "    " ++ items_of (recipe_ingredients r)
               ++ nl ++ indent ++ "</ul>"
               ++ nl ++ indent
               ++ nl ++ indent ++ "<h4>Instructions:</h4>"
               ++ nl ++ indent ++ "<ol>"
               ++ nl ++ indent ++ "    " ++ items_of (recipe_instructions r)
               ++ nl ++ indent ++ "</ol>"
               ++ nl ++ "        "
          /\ showRecipe i p
             = (Normal tt,
                mkPage (world p)
                       (with_body_overflow "hidden"
                          (with_modal false (with_modalContent html (dialogs p)))))
          /\ snd (hideModal (snd (showRecipe i p)))
             = mkPage (world p)
                      (with_body_overflow ""
                         (with_modal true (with_modalContent html (dialogs p))))).
Proof.
  intros Hr. split.
  - intros Hi. unfold showRecipe.
    erewrite (then_do_normal (run (GroqAPI.getRecipe i)))
      by (apply run_normal; apply (getRecipe_run _ l i Hr)).
    replace ((0 <=? i) && (i <? Z.of_nat (length l))) with false
      by (symmetry; apply andb_false_iff; lia).
    now destruct p.
  - intros r Hl Hi. pose proof (lookup_lt_Some _ _ _ Hl) as Hlt.
    eexists. split.
    { unfold GroqAPI.formatRecipeForDisplay, js_of_recipe.
      cbn [truthy negb get assoc String.eqb Ascii.eqb Bool.eqb ToString].
      rewrite !list_items_strings. reflexivity. }
    split; [reflexivity|].
    assert (Hshow : showRecipe i p
                    = (Normal tt,
                       mkPage (world p)
                         (with_body_overflow "hidden"
                            (with_modal false
                               (with_modalContent
                                  (match GroqAPI.formatRecipeForDisplay (js_of_recipe r) with
                                   | Normal h => h | Throw _ => "" end) (dialogs p)))))).
    { unfold showRecipe.
      erewrite (then_do_normal (run (GroqAPI.getRecipe i)))
        by (apply run_normal; apply (getRecipe_run _ l i Hr)).
      replace ((0 <=? i) && (i <? Z.of_nat (length l))) with true
        by (symmetry; apply andb_true_iff; lia).
      rewrite (nth_recipe l (Z.to_nat i) r Hl).
      change (truthy (js_of_recipe r)) with true. cbv iota.
      unfold GroqAPI.formatRecipeForDisplay, js_of_recipe.
      cbn [truthy negb get assoc String.eqb Ascii.eqb Bool.eqb ToString].
      rewrite !list_items_strings.
      destruct p as [w d]. reflexivity. }
    rewrite Hshow. unfold GroqAPI.formatRecipeForDisplay, js_of_recipe.
    cbn [truthy negb get assoc String.eqb Ascii.eqb Bool.eqb ToString].
    rewrite !list_items_strings. split; [reflexivity|].
    destruct p as [w d]. destruct d. reflexivity.
Qed.

Lemma showRecipe_by_index_witness :
  showRecipe 3 (mkPage (snd (GroqAPI.analyzeFood photo w_speech_down)) (dialogs_at_start "" true))
  = (Normal tt, mkPage (snd (GroqAPI.analyzeFood photo w_speech_down)) (dialogs_at_start "" true)).
Proof.
  apply (proj1 (showRecipe_by_index
                  (mkPage (snd (GroqAPI.analyzeFood photo w_speech_down)) (dialogs_at_start "" true))
                  (result_recipes three_recipes) 3 ltac:(reflexivity))).
  right. cbn. lia.
Defined.

End ControlsFacts.
